(** * Codezilla scholarship store: a shallow embedding of the storage class
      [AirtableStorage] (server/storage.ts) and of the request handlers of
      [registerRoutes] that use it.

    The storage class keeps three in-process maps and talks to an external
    record backend.  Everything the code reads from outside (the clock, the
    UUID generator, [Math.random], the backend's replies, the JSON functions of
    the runtime) is a field of [Outside]; an asynchronous method is a state
    transformer over [World] that may throw. *)

From Stdlib Require Import ZArith Ascii String List Lia Sorted.
From stdpp Require Import base option list gmap strings pretty.

Local Open Scope string_scope.
Local Open Scope Z_scope.
Local Open Scope list_scope.

(** ** JavaScript values

    Record fields of the backend, and every entity field that TypeScript only
    casts ([as string]), hold an arbitrary value at run time. *)

#[local] Unset Elimination Schemes.
Inductive JsValue : Type :=
| JUndefined
| JNull
| JBool (b : bool)
| JNum (n : Z)
| JStr (s : string)
| JArr (l : list JsValue)
| JObj (l : list (string * JsValue)).
#[local] Set Elimination Schemes.

(** [!!v] of JavaScript: what [if (v)] and [v || w] test. *)
Definition truthy (v : JsValue) : bool :=
  match v with
  | JUndefined | JNull => false
  | JBool b => b
  | JNum n => negb (n =? 0)
  | JStr s => negb (String.eqb s "")
  | JArr _ | JObj _ => true
  end.

(** [a || b] *)
Definition jor (a b : JsValue) : JsValue := if truthy a then a else b.

(** [v === "s"] and [v !== "s"] against a string literal. *)
Definition strict_eq_str (v : JsValue) (s : string) : bool :=
  match v with JStr t => String.eqb t s | _ => false end.

Definition strict_ne_str (v : JsValue) (s : string) : bool :=
  negb (strict_eq_str v s).

(** [v !== false] *)
Definition strict_ne_false (v : JsValue) : bool :=
  match v with JBool false => false | _ => true end.

(** Typed values entering the dynamic world. *)
Definition optS (o : option string) : JsValue :=
  match o with Some s => JStr s | None => JUndefined end.

Definition strings (l : list string) : JsValue := JArr (map JStr l).

Definition optL (o : option (list string)) : JsValue :=
  match o with Some l => strings l | None => JUndefined end.

(** ** Strings

    Strings are byte strings; [toLowerCase] folds the ASCII letters, which is
    all a comparison against the ASCII suffix [".pdf"] can observe. *)

Definition lower_ascii (c : ascii) : ascii :=
  let n := nat_of_ascii c in
  if (Nat.leb 65 n && Nat.leb n 90)%bool then ascii_of_nat (n + 32) else c.

Fixpoint toLowerCase (s : string) : string :=
  match s with
  | EmptyString => EmptyString
  | String c r => String (lower_ascii c) (toLowerCase r)
  end.

Definition startsWith (s p : string) : bool := String.prefix p s.

Definition endsWith (s suffix : string) : bool :=
  let n := String.length s in
  let m := String.length suffix in
  (Nat.leb m n && String.eqb (substring (n - m) m s) suffix)%bool.

(** [a.join(sep)] on an array of strings *)
Fixpoint join (sep : string) (l : list string) : string :=
  match l with
  | [] => ""
  | [x] => x
  | x :: r => x +:+ sep +:+ join sep r
  end.

(** [s.split(',')] *)
Fixpoint split_comma_aux (cur : string) (s : string) : list string :=
  match s with
  | EmptyString => [String.rev cur]
  | String c r =>
      if Ascii.eqb c ","%char then String.rev cur :: split_comma_aux "" r
      else split_comma_aux (String c cur) r
  end.

Definition split_comma (s : string) : list string := split_comma_aux "" s.

Definition is_space (c : ascii) : bool :=
  let n := nat_of_ascii c in
  (Nat.eqb n 32 || (Nat.leb 9 n && Nat.leb n 13))%bool.

Fixpoint trim_start (s : string) : string :=
  match s with
  | String c r => if is_space c then trim_start r else s
  | EmptyString => EmptyString
  end.

(** [s.trim()], on the ASCII white space *)
Definition trim (s : string) : string :=
  String.rev (trim_start (String.rev (trim_start s))).

(** ** Exceptions and the world *)

Inductive JsError : Type :=
| TypeError
| SyntaxError
| BackendError (msg : string).

Inductive Exc (A : Type) : Type :=
| Ok (a : A)
| Throw (e : JsError).
Arguments Ok {A} a.
Arguments Throw {A} e.

(** A record of the backend: [record.id] and [record.fields]. *)
Record AirRecord : Type := {
  rec_id : string;
  rec_fields : gmap string JsValue
}.

(** [record.fields.k]: a missing key reads as [undefined]. *)
Definition field (r : AirRecord) (k : string) : JsValue :=
  default JUndefined (rec_fields r !! k).

(** The calls the store makes on [base(table)]. *)
Inductive BackendCall : Type :=
| BFind (table : string) (id : string)
| BSelect (table : string) (filterByFormula : option string)
| BCreate (table : string) (fields : gmap string JsValue)
| BUpdate (table : string) (id : string) (fields : gmap string JsValue).

Module tables.
Definition users := "users".
Definition studentProfiles := "student_profiles".
Definition scholarships := "scholarships".
Definition scholarshipMatches := "scholarship_matches".
Definition applicationGuidance := "application_guidance".
End tables.

(** ** Entities ([shared/schema.ts])

    [id] is always a string; the other fields are whatever the mapper or the
    caller put there. *)

Record StudentProfile : Type := {
  sp_id : string;
  sp_name : JsValue;
  sp_email : JsValue;
  sp_phone : JsValue;
  sp_location : JsValue;
  sp_educationLevel : JsValue;
  sp_fieldOfStudy : JsValue;
  sp_gpa : JsValue;
  sp_graduationYear : JsValue;
  sp_skills : JsValue;
  sp_activities : JsValue;
  sp_financialNeed : JsValue;
  sp_summary : JsValue;
  sp_education : JsValue;
  sp_experience : JsValue;
  sp_projects : JsValue;
  sp_createdAt : JsValue;
  sp_updatedAt : JsValue
}.

(** [z.infer<typeof insertStudentProfileSchema>] *)
Record InsertStudentProfile : Type := {
  isp_name : string;
  isp_email : string;
  isp_phone : option string;
  isp_location : string;
  isp_educationLevel : option string;
  isp_fieldOfStudy : option string;
  isp_gpa : option string;
  isp_graduationYear : option string;
  isp_skills : option (list string);
  isp_activities : option string;
  isp_financialNeed : option string;
  isp_summary : option string;
  isp_education : option string;
  isp_experience : option string;
  isp_projects : option string
}.

(** [Partial<InsertStudentProfile>]: [None] is an absent key; a present key
    holds a value that the type allows to be [undefined] (the inner [None]). *)
Record PartialStudentProfile : Type := {
  psp_name : option (option string);
  psp_email : option (option string);
  psp_phone : option (option string);
  psp_location : option (option string);
  psp_educationLevel : option (option string);
  psp_fieldOfStudy : option (option string);
  psp_gpa : option (option string);
  psp_graduationYear : option (option string);
  psp_skills : option (option (list string));
  psp_activities : option (option string);
  psp_financialNeed : option (option string);
  psp_summary : option (option string);
  psp_education : option (option string);
  psp_experience : option (option string);
  psp_projects : option (option string)
}.

Record Scholarship : Type := {
  sch_id : string;
  sch_title : JsValue;
  sch_organization : JsValue;
  sch_amount : JsValue;
  sch_deadline : JsValue;
  sch_description : JsValue;
  sch_requirements : JsValue;
  sch_tags : JsValue;
  sch_type : JsValue;
  sch_eligibilityGpa : JsValue;
  sch_eligibleFields : JsValue;
  sch_eligibleLevels : JsValue;
  sch_isActive : bool;
  sch_createdAt : JsValue;
  sch_notes : JsValue;
  sch_profileId : JsValue
}.

(** [z.infer<typeof insertScholarshipSchema>] *)
Record InsertScholarship : Type := {
  isc_title : string;
  isc_organization : string;
  isc_amount : string;
  isc_deadline : string;
  isc_description : string;
  isc_requirements : string;
  isc_tags : list string;
  isc_type : string;
  isc_eligibilityGpa : option string;
  isc_eligibleFields : option (list string);
  isc_eligibleLevels : option (list string);
  isc_isActive : bool
}.

Record ScholarshipMatch : Type := {
  m_id : string;
  m_profileId : JsValue;
  m_scholarshipId : JsValue;
  m_matchScore : JsValue;
  m_aiReasoning : JsValue;
  m_status : JsValue;
  m_createdAt : JsValue
}.

(** [InsertScholarshipMatch] *)
Record InsertScholarshipMatch : Type := {
  im_profileId : string;
  im_scholarshipId : string;
  im_matchScore : Z;
  im_aiReasoning : option string;
  im_status : string
}.

Record ScholarshipApplication : Type := {
  app_id : string;
  app_studentProfileId : string;
  app_scholarshipId : string;
  app_documents : list string;
  app_status : string;
  app_appliedAt : string
}.

(** [InsertScholarshipApplication] *)
Record InsertScholarshipApplication : Type := {
  ia_studentProfileId : string;
  ia_scholarshipId : string;
  ia_documents : list string;
  ia_status : string
}.

(** ** The world

    [Outside] is what the process does not control.  Every read of the outside
    happens at the current [ticks] and advances it, so two reads may differ. *)

Record Outside : Type := {
  uuidAt : nat -> string;
  clockAt : nat -> string;
  randomAt : nat -> Z;
  airtableAt : nat -> BackendCall -> Exc (list AirRecord);
  JSON_parse : string -> Exc JsValue;
  JSON_stringify : JsValue -> string
}.

Record World : Type := {
  useAirtable : bool;
  profileStorage : gmap string StudentProfile;
  matchStorage : gmap string (list ScholarshipMatch);
  applicationStorage : gmap string (list ScholarshipApplication);
  ticks : nat;
  outside : Outside
}.

Definition tick (w : World) : World :=
  {| useAirtable := useAirtable w;
     profileStorage := profileStorage w;
     matchStorage := matchStorage w;
     applicationStorage := applicationStorage w;
     ticks := S (ticks w);
     outside := outside w |}.

Definition set_profileStorage (f : gmap string StudentProfile -> gmap string StudentProfile)
    (w : World) : World :=
  {| useAirtable := useAirtable w;
     profileStorage := f (profileStorage w);
     matchStorage := matchStorage w;
     applicationStorage := applicationStorage w;
     ticks := ticks w;
     outside := outside w |}.

Definition set_matchStorage
    (f : gmap string (list ScholarshipMatch) -> gmap string (list ScholarshipMatch))
    (w : World) : World :=
  {| useAirtable := useAirtable w;
     profileStorage := profileStorage w;
     matchStorage := f (matchStorage w);
     applicationStorage := applicationStorage w;
     ticks := ticks w;
     outside := outside w |}.

Definition set_applicationStorage
    (f : gmap string (list ScholarshipApplication) -> gmap string (list ScholarshipApplication))
    (w : World) : World :=
  {| useAirtable := useAirtable w;
     profileStorage := profileStorage w;
     matchStorage := matchStorage w;
     applicationStorage := f (applicationStorage w);
     ticks := ticks w;
     outside := outside w |}.

(** An [async] method: from a world to a result or an exception, and the
    world it leaves (a throw keeps the writes made before it). *)
Definition M (A : Type) : Type := World -> Exc A * World.

Definition ret {A} (a : A) : M A := fun w => (Ok a, w).

Definition throw {A} (e : JsError) : M A := fun w => (Throw e, w).

Definition bind {A B} (m : M A) (k : A -> M B) : M B :=
  fun w =>
    match m w with
    | (Ok a, w') => k a w'
    | (Throw e, w') => (Throw e, w')
    end.

(** [try { m } catch (error) { h error }] *)
Definition try_catch {A} (m : M A) (h : JsError -> M A) : M A :=
  fun w =>
    match m w with
    | (Ok a, w') => (Ok a, w')
    | (Throw e, w') => h e w'
    end.

Notation "'let*' x ':=' m 'in' k" := (bind m (fun x => k))
  (at level 10, x pattern, m at level 100, k at level 200).

Definition gets {A} (f : World -> A) : M A := fun w => (Ok (f w), w).

Definition modify (f : World -> World) : M unit := fun w => (Ok tt, f w).

(** [randomUUID()] *)
Definition randomUUID : M string :=
  fun w => (Ok (uuidAt (outside w) (ticks w)), tick w).

(** [new Date().toISOString()] *)
Definition nowISO : M string :=
  fun w => (Ok (clockAt (outside w) (ticks w)), tick w).

(** *** The binary64 arithmetic of [Math.floor(Math.random() * k)]

    A finite non-negative binary64 number is [m * 2^e] for integers
    [0 <= m < 2^53] and [-1074 <= e]; it is kept as the pair [(m, e)].
    [Math.random()] returns such a number below 1: its 64-bit pattern has
    sign 0 and a biased exponent below 1023, so it is below the pattern
    [unit_pattern] of 1.0.  The oracle gives the pattern, reduced into that
    range. *)
Definition unit_pattern : Z := 1023 * 2 ^ 52.

(** The number a pattern below [unit_pattern] stands for: a subnormal one
    when the biased exponent is 0, else a normal one with the implicit
    leading bit. *)
Definition decode_binary64 (bits : Z) : Z * Z :=
  let biased := bits / 2 ^ 52 in
  let fraction := bits mod 2 ^ 52 in
  if biased =? 0 then (fraction, -1074) else (2 ^ 52 + fraction, biased - 1075).

(** [p / 2^s] rounded to the nearest integer, ties to the even one. *)
Definition round_shift (p s : Z) : Z :=
  let q := p / 2 ^ s in
  let r := p mod 2 ^ s in
  if 2 * r <? 2 ^ s then q
  else if 2 ^ s <? 2 * r then q + 1
  else if Z.even q then q else q + 1.

(** The binary64 product [k * x] for an integer [0 <= k < 2^53] (which is a
    binary64 number itself): the exact product [k * m * 2^e], rounded to
    nearest-even when it has more than 53 significant bits. *)
Definition times_binary64 (k : Z) (x : Z * Z) : Z * Z :=
  let p := k * fst x in
  let s := Z.max 0 (Z.log2 p - 52) in
  (round_shift p s, snd x + s).

(** [Math.floor] of a non-negative number *)
Definition floor_binary64 (x : Z * Z) : Z :=
  if 0 <=? snd x then fst x * 2 ^ snd x else fst x / 2 ^ (- snd x).

(** [Math.floor(x * k)] for the number [x] that [Math.random()] returned
    with the pattern [bits] *)
Definition scaled_floor (k bits : Z) : Z :=
  floor_binary64 (times_binary64 k (decode_binary64 (bits mod unit_pattern))).

(** [Math.floor(Math.random() * k)] *)
Definition random_floor (k : Z) : M Z :=
  fun w => (Ok (scaled_floor k (randomAt (outside w) (ticks w))), tick w).

(** [await base(table).op(...)] *)
Definition airtable (c : BackendCall) : M (list AirRecord) :=
  fun w => (airtableAt (outside w) (ticks w) c, tick w).

(** [records[0]] followed by a property read: a [TypeError] on an empty
    array. *)
Definition first_record (records : list AirRecord) : M AirRecord :=
  match records with
  | r :: _ => ret r
  | [] => throw TypeError
  end.

(** [for (const x of l) { ys.push(await f(x)) }] *)
Fixpoint for_each {A B} (f : A -> M B) (l : list A) : M (list B) :=
  match l with
  | [] => ret []
  | x :: r =>
      let* y := f x in
      let* ys := for_each f r in
      ret (y :: ys)
  end.

(** [JSON.parse(s)] and [JSON.stringify(v)] of the runtime *)
Definition json_parse (s : string) : M JsValue :=
  fun w => (JSON_parse (outside w) s, w).

Definition json_stringify (v : JsValue) : M string :=
  fun w => (Ok (JSON_stringify (outside w) v), w).

(** ** Record mappers *)

(** [skillsRaw.split(',').map(s => s.trim()).filter(s => s)]; a truthy value
    that is not a string has no [split]. *)
Definition parse_skills (skillsRaw : JsValue) : M JsValue :=
  if truthy skillsRaw then
    match skillsRaw with
    | JStr s =>
        ret (strings (filter (fun x => x <> "") (map trim (split_comma s))))
    | _ => throw TypeError
    end
  else ret JUndefined.

(** [v || new Date().toISOString()] *)
Definition or_now (v : JsValue) : M JsValue :=
  if truthy v then ret v else (let* now := nowISO in ret (JStr now)).

Definition mapToStudentProfile (record : AirRecord) : M StudentProfile :=
  let* skills := parse_skills (field record "Skills") in
  let* createdAt := or_now (field record "CreatedAt") in
  let* updatedAt := or_now (field record "UpdatedAt") in
  ret {| sp_id := rec_id record;
         sp_name := jor (field record "Name") (JStr "");
         sp_email := jor (field record "Email") (JStr "");
         sp_phone := field record "Phone";
         sp_location := jor (field record "Location") (JStr "");
         sp_educationLevel := field record "EducationLevel";
         sp_fieldOfStudy := field record "FieldOfStudy";
         sp_gpa := field record "GPA";
         sp_graduationYear := field record "GraduationYear";
         sp_skills := skills;
         sp_activities := field record "Activities";
         sp_financialNeed := field record "FinancialNeed";
         sp_summary := field record "Summary";
         sp_education := field record "Education";
         sp_experience := field record "Experience";
         sp_projects := field record "Projects";
         sp_createdAt := createdAt;
         sp_updatedAt := updatedAt |}.

(** One list-typed field of [mapToScholarship]:
    [[
      let x = dflt;
      try {
        const raw = record.fields.lower || record.fields.Upper;
        if (raw) x = typeof raw === 'string' ? JSON.parse(raw)
                                             : (Array.isArray(raw) ? raw : dflt);
      } catch (e) { x = dflt; }
    ]]
    with [dflt] the empty array for [tags] and [undefined] for the two
    eligibility lists. *)
Definition list_field (record : AirRecord) (lower upper : string) (dflt : JsValue)
    : M JsValue :=
  try_catch
    (let raw := jor (field record lower) (field record upper) in
     if truthy raw then
       match raw with
       | JStr s => json_parse s
       | JArr _ => ret raw
       | _ => ret dflt
       end
     else ret dflt)
    (fun _ => ret dflt).

Definition mapToScholarship (record : AirRecord) : M Scholarship :=
  let* tags := list_field record "tags" "Tags" (JArr []) in
  let* eligibleFields := list_field record "eligibleFields" "EligibleFields" JUndefined in
  let* eligibleLevels := list_field record "eligibleLevels" "EligibleLevels" JUndefined in
  let* createdAt := or_now (jor (field record "CreatedAt") (field record "createdAt")) in
  ret {| sch_id := rec_id record;
         sch_title :=
           jor (jor (field record "Title") (field record "title")) (JStr "Untitled Scholarship");
         sch_organization :=
           jor (jor (field record "Organization") (field record "organization"))
               (JStr "Unknown Organization");
         sch_amount :=
           jor (jor (field record "Amount") (field record "amount")) (JStr "Amount TBD");
         sch_deadline :=
           jor (jor (field record "Deadline") (field record "deadline"))
               (JStr "No deadline specified");
         sch_description :=
           jor (jor (field record "Description") (field record "description"))
               (JStr "No description available");
         sch_requirements :=
           jor (jor (field record "Requirements") (field record "requirements"))
               (JStr "Check with scholarship provider");
         sch_tags := tags;
         sch_type := jor (jor (field record "Type") (field record "type")) (JStr "merit-based");
         sch_eligibilityGpa := jor (field record "EligibilityGpa") (field record "eligibilityGpa");
         sch_eligibleFields := eligibleFields;
         sch_eligibleLevels := eligibleLevels;
         sch_isActive := strict_ne_false (field record "isActive");
         sch_createdAt := createdAt;
         sch_notes := jor (field record "Notes") (field record "notes");
         sch_profileId := jor (field record "ProfileId") (field record "profileId") |}.

Definition mapToScholarshipMatch (record : AirRecord) : ScholarshipMatch :=
  {| m_id := rec_id record;
     m_profileId := field record "profileId";
     m_scholarshipId := field record "scholarshipId";
     m_matchScore := field record "matchScore";
     m_aiReasoning := field record "aiReasoning";
     m_status := field record "status";
     m_createdAt := field record "createdAt" |}.

(** ** [AirtableStorage]: student profiles *)

Definition getStudentProfileById (profileId : string) : M (option StudentProfile) :=
  let* memoryProfile := gets (fun w => profileStorage w !! profileId) in
  match memoryProfile with
  | Some p => ret (Some p)
  | None =>
      let* ua := gets useAirtable in
      if negb ua then ret None
      else
        try_catch
          (let* records := airtable (BFind tables.studentProfiles profileId) in
           match records with
           | [] => ret None
           | record :: _ =>
               let* profile := mapToStudentProfile record in
               let* _ := modify (set_profileStorage (insert profileId profile)) in
               ret (Some profile)
           end)
          (fun _ => ret None)
  end.

(** The entity both branches of [createStudentProfile] build. *)
Definition profile_entity (id : string) (profile : InsertStudentProfile) (now : string)
    : StudentProfile :=
  {| sp_id := id;
     sp_name := JStr (isp_name profile);
     sp_email := JStr (isp_email profile);
     sp_phone := optS (isp_phone profile);
     sp_location := JStr (isp_location profile);
     sp_educationLevel := optS (isp_educationLevel profile);
     sp_fieldOfStudy := optS (isp_fieldOfStudy profile);
     sp_gpa := optS (isp_gpa profile);
     sp_graduationYear := optS (isp_graduationYear profile);
     sp_skills := optL (isp_skills profile);
     sp_activities := optS (isp_activities profile);
     sp_financialNeed := optS (isp_financialNeed profile);
     sp_summary := optS (isp_summary profile);
     sp_education := optS (isp_education profile);
     sp_experience := optS (isp_experience profile);
     sp_projects := optS (isp_projects profile);
     sp_createdAt := JStr now;
     sp_updatedAt := JStr now |}.

Definition create_profile_fields (profile : InsertStudentProfile) (now : string)
    : gmap string JsValue :=
  <["Name" := JStr (isp_name profile)]>
  (<["Email" := JStr (isp_email profile)]>
  (<["Location" := jor (JStr (isp_location profile)) (JStr "")]>
  (<["EducationLevel" := jor (optS (isp_educationLevel profile)) (JStr "")]>
  (<["FieldOfStudy" := jor (optS (isp_fieldOfStudy profile)) (JStr "")]>
  (<["GPA" := jor (optS (isp_gpa profile)) (JStr "")]>
  (<["GraduationYear" := jor (optS (isp_graduationYear profile)) (JStr "")]>
  (<["Skills" := JStr (match isp_skills profile with
                       | Some l => join ", " l
                       | None => ""
                       end)]>
  (<["Activities" := jor (optS (isp_activities profile)) (JStr "")]>
  (<["FinancialNeed" := jor (optS (isp_financialNeed profile)) (JStr "")]>
  (<["CreatedAt" := JStr now]>
  (<["UpdatedAt" := JStr now]> ∅))))))))))).

Definition createStudentProfile (profile : InsertStudentProfile) : M StudentProfile :=
  let* now := nowISO in
  let* ua := gets useAirtable in
  let* saved :=
    if ua then
      try_catch
        (let* records :=
           airtable (BCreate tables.studentProfiles (create_profile_fields profile now)) in
         let* record := first_record records in
         let result := profile_entity (rec_id record) profile now in
         let* _ := modify (set_profileStorage (insert (rec_id record) result)) in
         ret (Some result))
        (fun _ => ret None)
    else ret None in
  match saved with
  | Some result => ret result
  | None =>
      let* id := randomUUID in
      let result := profile_entity id profile now in
      let* _ := modify (set_profileStorage (insert id result)) in
      ret result
  end.

(** One key of [{ ...existingProfile, ...profile }] *)
Definition spread {A} (inj : A -> JsValue) (old : JsValue) (new : option A) : JsValue :=
  match new with
  | Some v => inj v
  | None => old
  end.

(** [if (profile.k) airtableFields.K = profile.k] *)
Definition put_if_truthy (K : string) (v : JsValue) (fields : gmap string JsValue)
    : gmap string JsValue :=
  if truthy v then <[K := v]> fields else fields.

Definition present {A} (inj : A -> JsValue) (o : option A) : JsValue :=
  match o with Some v => inj v | None => JUndefined end.

Definition update_profile_fields (profile : PartialStudentProfile) (now : string)
    : gmap string JsValue :=
  <["UpdatedAt" := JStr now]>
  (put_if_truthy "FinancialNeed" (present optS (psp_financialNeed profile))
  (put_if_truthy "Activities" (present optS (psp_activities profile))
  (match psp_skills profile with
   | Some (Some l) => <["Skills" := JStr (join ", " l)]>
   | _ => fun fields => fields
   end
  (put_if_truthy "GraduationYear" (present optS (psp_graduationYear profile))
  (put_if_truthy "GPA" (present optS (psp_gpa profile))
  (put_if_truthy "FieldOfStudy" (present optS (psp_fieldOfStudy profile))
  (put_if_truthy "EducationLevel" (present optS (psp_educationLevel profile))
  (put_if_truthy "Location" (present optS (psp_location profile))
  (put_if_truthy "Email" (present optS (psp_email profile))
  (put_if_truthy "Name" (present optS (psp_name profile)) ∅)))))))))).

(** The profile [updateStudentProfile] starts from when the cache has none. *)
Definition blank_profile (id now : string) : StudentProfile :=
  {| sp_id := id;
     sp_name := JStr "";
     sp_email := JStr "";
     sp_phone := JUndefined;
     sp_location := JStr "";
     sp_educationLevel := JUndefined;
     sp_fieldOfStudy := JUndefined;
     sp_gpa := JUndefined;
     sp_graduationYear := JUndefined;
     sp_skills := JUndefined;
     sp_activities := JUndefined;
     sp_financialNeed := JUndefined;
     sp_summary := JUndefined;
     sp_education := JUndefined;
     sp_experience := JUndefined;
     sp_projects := JUndefined;
     sp_createdAt := JStr now;
     sp_updatedAt := JStr now |}.

(** [{ ...existingProfile, ...profile, updatedAt: now }] *)
Definition merge_profile (existingProfile : StudentProfile)
    (profile : PartialStudentProfile) (now : string) : StudentProfile :=
  {| sp_id := sp_id existingProfile;
     sp_name := spread optS (sp_name existingProfile) (psp_name profile);
     sp_email := spread optS (sp_email existingProfile) (psp_email profile);
     sp_phone := spread optS (sp_phone existingProfile) (psp_phone profile);
     sp_location := spread optS (sp_location existingProfile) (psp_location profile);
     sp_educationLevel :=
       spread optS (sp_educationLevel existingProfile) (psp_educationLevel profile);
     sp_fieldOfStudy := spread optS (sp_fieldOfStudy existingProfile) (psp_fieldOfStudy profile);
     sp_gpa := spread optS (sp_gpa existingProfile) (psp_gpa profile);
     sp_graduationYear :=
       spread optS (sp_graduationYear existingProfile) (psp_graduationYear profile);
     sp_skills := spread optL (sp_skills existingProfile) (psp_skills profile);
     sp_activities := spread optS (sp_activities existingProfile) (psp_activities profile);
     sp_financialNeed :=
       spread optS (sp_financialNeed existingProfile) (psp_financialNeed profile);
     sp_summary := spread optS (sp_summary existingProfile) (psp_summary profile);
     sp_education := spread optS (sp_education existingProfile) (psp_education profile);
     sp_experience := spread optS (sp_experience existingProfile) (psp_experience profile);
     sp_projects := spread optS (sp_projects existingProfile) (psp_projects profile);
     sp_createdAt := sp_createdAt existingProfile;
     sp_updatedAt := JStr now |}.

Definition updateStudentProfile (id : string) (profile : PartialStudentProfile)
    : M StudentProfile :=
  let* now := nowISO in
  let* cached := gets (fun w => profileStorage w !! id) in
  let existingProfile := default (blank_profile id now) cached in
  let updated := merge_profile existingProfile profile now in
  let* ua := gets useAirtable in
  let* _ :=
    if ua then
      try_catch
        (let* _ :=
           airtable (BUpdate tables.studentProfiles id (update_profile_fields profile now)) in
         ret tt)
        (fun _ => ret tt)
    else ret tt in
  let* _ := modify (set_profileStorage (insert id updated)) in
  ret updated.

(** ** [AirtableStorage]: scholarships *)

Definition fallback (id title organization amount deadline description requirements : string)
    (tags : list string) (type eligibilityGpa : string)
    (eligibleFields eligibleLevels : list string) (now : string) : Scholarship :=
  {| sch_id := id;
     sch_title := JStr title;
     sch_organization := JStr organization;
     sch_amount := JStr amount;
     sch_deadline := JStr deadline;
     sch_description := JStr description;
     sch_requirements := JStr requirements;
     sch_tags := strings tags;
     sch_type := JStr type;
     sch_eligibilityGpa := JStr eligibilityGpa;
     sch_eligibleFields := strings eligibleFields;
     sch_eligibleLevels := strings eligibleLevels;
     sch_isActive := true;
     sch_createdAt := JStr now;
     sch_notes := JUndefined;
     sch_profileId := JUndefined |}.

(** The Fallback Catalog, stamped with the time of the call. *)
Definition fallbackCatalog (now : string) : list Scholarship :=
  [ fallback "fallback-1" "National Merit STEM Scholarship" "Future Scientists Foundation"
      "₹12,50,000" "2025-03-15"
      "Supporting outstanding students pursuing STEM degrees with demonstrated academic excellence and research potential."
      "Minimum 3.7 GPA, STEM major, research experience preferred"
      ["STEM"; "Merit-Based"; "Undergraduate"; "Research"] "merit-based" "3.7"
      ["Computer Science"; "Engineering"; "Mathematics"; "Physics"; "Chemistry"; "Biology"]
      ["undergraduate"] now;
    fallback "fallback-2" "Tech Diversity Excellence Award" "TechForward Initiative"
      "₹7,00,000" "2025-04-01"
      "Promoting diversity in technology fields by supporting underrepresented students with financial aid and mentorship."
      "Technology-related major, demonstrate financial need, minimum 3.0 GPA"
      ["Technology"; "Diversity"; "Need-Based"; "Mentorship"] "need-based" "3.0"
      ["Computer Science"; "Information Technology"; "Software Engineering"; "AIML"]
      ["undergraduate"; "graduate"] now;
    fallback "fallback-3" "Community Leadership Grant" "Local Community Foundation"
      "₹2,50,000" "2025-05-15"
      "Recognizing students who demonstrate exceptional leadership and community service commitment."
      "Minimum 100 hours community service, leadership role in organization, any major, 3.2+ GPA"
      ["Leadership"; "Community Service"; "Local"] "merit-based" "3.2"
      [] ["undergraduate"] now;
    fallback "fallback-4" "Environmental Innovation Award" "Green Future Initiative"
      "₹10,00,000" "2025-06-30"
      "Supporting students developing innovative solutions for environmental challenges and sustainability."
      "Environmental science or related field, research project focused on sustainability, minimum 3.5 GPA"
      ["Environmental Science"; "Innovation"; "Research-Based"; "Sustainability"] "merit-based" "3.5"
      ["Environmental Science"; "Environmental Engineering"; "Renewable Energy"; "Biology"]
      ["undergraduate"; "graduate"] now;
    fallback "fallback-5" "First Generation College Student Support"
      "Educational Equity Foundation" "₹4,00,000" "2025-04-30"
      "Supporting first-generation college students with financial aid and academic support services."
      "First-generation college student status, demonstrate financial need, minimum 2.8 GPA"
      ["First-Generation"; "Need-Based"; "Academic Support"] "need-based" "2.8"
      [] ["undergraduate"] now;
    fallback "fallback-6" "Women in Engineering Scholarship" "Society of Women Engineers"
      "₹8,00,000" "2025-05-01"
      "Empowering women pursuing engineering degrees with financial support and networking opportunities."
      "Female students in engineering programs, minimum 3.3 GPA"
      ["Women"; "Engineering"; "STEM"; "Diversity"] "merit-based" "3.3"
      ["Engineering"; "Computer Science"; "Electronics"; "Mechanical Engineering"]
      ["undergraduate"; "graduate"] now ].

Definition getFallbackScholarships : M (list Scholarship) :=
  let* now := nowISO in
  ret (fallbackCatalog now).

(** [s.title !== "Untitled Scholarship" && s.organization !== "Unknown Organization"] *)
Definition looksValid (s : Scholarship) : bool :=
  (strict_ne_str (sch_title s) "Untitled Scholarship"
   && strict_ne_str (sch_organization s) "Unknown Organization")%bool.

(** [firstRecord.fields.Title || firstRecord.fields.title ||
     firstRecord.fields.Organization || firstRecord.fields.organization] *)
Definition hasProperData (firstRecord : AirRecord) : bool :=
  truthy (jor (jor (jor (field firstRecord "Title") (field firstRecord "title"))
                   (field firstRecord "Organization"))
              (field firstRecord "organization")).

Definition getAllScholarships : M (list Scholarship) :=
  let* ua := gets useAirtable in
  if negb ua then getFallbackScholarships
  else
    try_catch
      (let* records := airtable (BSelect tables.scholarships None) in
       let lacksFields :=
         match records with
         | firstRecord :: _ => negb (hasProperData firstRecord)
         | [] => false
         end in
       if lacksFields then getFallbackScholarships
       else
         let* scholarships := for_each mapToScholarship records in
         let hasValidData := existsb looksValid scholarships in
         if (negb hasValidData && Nat.ltb 0 (length scholarships))%bool
         then getFallbackScholarships
         else if Nat.ltb 0 (length scholarships) then ret scholarships
         else getFallbackScholarships)
      (fun _ => getFallbackScholarships).

(** [fallbackScholarships.find(s => s.id === id)] *)
Definition find_by_id (id : string) (l : list Scholarship) : option Scholarship :=
  List.find (fun s => String.eqb (sch_id s) id) l.

(** The argument is a [JsValue] because [getScholarshipMatches] passes a
    record field it only casts; [id.startsWith] throws on a non-string. *)
Definition getScholarshipById (id : JsValue) : M (option Scholarship) :=
  match id with
  | JStr id =>
      if startsWith id "fallback-" then
        let* fallbackScholarships := getFallbackScholarships in
        ret (find_by_id id fallbackScholarships)
      else
        let* ua := gets useAirtable in
        if negb ua then
          let* fallbackScholarships := getFallbackScholarships in
          ret (find_by_id id fallbackScholarships)
        else
          try_catch
            (let* records := airtable (BFind tables.scholarships id) in
             match records with
             | [] => ret None
             | record :: _ =>
                 let* scholarship := mapToScholarship record in
                 if strict_eq_str (sch_title scholarship) "Untitled Scholarship" then
                   let* fallbackScholarships := getFallbackScholarships in
                   ret (head fallbackScholarships)
                 else ret (Some scholarship)
             end)
            (fun _ =>
               let* fallbackScholarships := getFallbackScholarships in
               ret (find_by_id id fallbackScholarships))
  | _ => throw TypeError
  end.

Definition create_scholarship_fields (scholarship : InsertScholarship) (now : string)
    (stringify : JsValue -> string) : gmap string JsValue :=
  <["Title" := JStr (isc_title scholarship)]>
  (<["Organization" := JStr (isc_organization scholarship)]>
  (<["Amount" := JStr (isc_amount scholarship)]>
  (<["Deadline" := JStr (isc_deadline scholarship)]>
  (<["Description" := JStr (isc_description scholarship)]>
  (<["Requirements" := JStr (isc_requirements scholarship)]>
  (<["Tags" := JStr (stringify (strings (isc_tags scholarship)))]>
  (<["Type" := JStr (isc_type scholarship)]>
  (<["EligibilityGpa" := jor (optS (isc_eligibilityGpa scholarship)) (JStr "")]>
  (<["EligibleFields" :=
       JStr (stringify (jor (optL (isc_eligibleFields scholarship)) (JArr [])))]>
  (<["EligibleLevels" :=
       JStr (stringify (jor (optL (isc_eligibleLevels scholarship)) (JArr [])))]>
  (<["CreatedAt" := JStr now]> ∅))))))))))).

(** [{ id, ...scholarship, createdAt: now }] *)
Definition local_scholarship (id : string) (scholarship : InsertScholarship) (now : string)
    : Scholarship :=
  {| sch_id := id;
     sch_title := JStr (isc_title scholarship);
     sch_organization := JStr (isc_organization scholarship);
     sch_amount := JStr (isc_amount scholarship);
     sch_deadline := JStr (isc_deadline scholarship);
     sch_description := JStr (isc_description scholarship);
     sch_requirements := JStr (isc_requirements scholarship);
     sch_tags := strings (isc_tags scholarship);
     sch_type := JStr (isc_type scholarship);
     sch_eligibilityGpa := optS (isc_eligibilityGpa scholarship);
     sch_eligibleFields := optL (isc_eligibleFields scholarship);
     sch_eligibleLevels := optL (isc_eligibleLevels scholarship);
     sch_isActive := isc_isActive scholarship;
     sch_createdAt := JStr now;
     sch_notes := JUndefined;
     sch_profileId := JUndefined |}.

Definition createScholarship (scholarship : InsertScholarship) : M Scholarship :=
  let* id := randomUUID in
  let* now := nowISO in
  let* ua := gets useAirtable in
  if negb ua then ret (local_scholarship id scholarship now)
  else
    try_catch
      (let* stringify := gets (fun w => JSON_stringify (outside w)) in
       let* records :=
         airtable (BCreate tables.scholarships
                     (create_scholarship_fields scholarship now stringify)) in
       let* record := first_record records in
       mapToScholarship record)
      (fun error => throw error).

(** ** [AirtableStorage]: matches and applications *)

(** [results.sort((a, b) => b.matchScore - a.matchScore)]: a stable sort,
    descending by score.  The difference of two numbers orders them; with a
    score that is not a number the difference is [NaN], which the sort reads
    as a tie. *)
Definition score_diff (a b : ScholarshipMatch * Scholarship) : Z :=
  match m_matchScore (fst b), m_matchScore (fst a) with
  | JNum y, JNum x => y - x
  | _, _ => 0
  end.

Fixpoint insert_sorted (x : ScholarshipMatch * Scholarship)
    (l : list (ScholarshipMatch * Scholarship)) : list (ScholarshipMatch * Scholarship) :=
  match l with
  | [] => [x]
  | y :: r => if score_diff x y <=? 0 then x :: y :: r else y :: insert_sorted x r
  end.

Definition sort_by_score (l : list (ScholarshipMatch * Scholarship))
    : list (ScholarshipMatch * Scholarship) :=
  foldr insert_sorted [] l.

(** The body of both loops of [getScholarshipMatches]: look the scholarship
    up and keep the pair when it exists. *)
Definition with_scholarship (scholarshipId : JsValue) (match_ : ScholarshipMatch)
    : M (option (ScholarshipMatch * Scholarship)) :=
  let* scholarship := getScholarshipById scholarshipId in
  ret (match scholarship with
       | Some s => Some (match_, s)
       | None => None
       end).

(** The double-quote character *)
Definition dquote : string := String (ascii_of_nat 34) EmptyString.

(** [`AND({ProfileID} = "${profileId}", {Status} = "new")`] *)
Definition matches_formula (profileId : string) : string :=
  "AND({ProfileID} = " +:+ dquote +:+ profileId +:+ dquote
  +:+ ", {Status} = " +:+ dquote +:+ "new" +:+ dquote +:+ ")".

Definition getScholarshipMatches (profileId : string)
    : M (list (ScholarshipMatch * Scholarship)) :=
  try_catch
    (let* storedMatches := gets (fun w => matchStorage w !! profileId) in
     match storedMatches with
     | Some (m :: ms) =>
         let* results :=
           for_each (fun match_ => with_scholarship (m_scholarshipId match_) match_)
                    (List.filter (fun x => strict_eq_str (m_status x) "new") (m :: ms)) in
         ret (sort_by_score (omap id results))
     | _ =>
         let* ua := gets useAirtable in
         if negb ua then ret []
         else
           let* matches :=
             airtable (BSelect tables.scholarshipMatches (Some (matches_formula profileId))) in
           let* results :=
             for_each (fun record =>
                         with_scholarship (field record "scholarshipId")
                                          (mapToScholarshipMatch record))
                      matches in
           ret (sort_by_score (omap id results))
     end)
    (fun _ => ret []).

(** [{ id, ...match, createdAt: now }] *)
Definition new_match (id : string) (match_ : InsertScholarshipMatch) (now : string)
    : ScholarshipMatch :=
  {| m_id := id;
     m_profileId := JStr (im_profileId match_);
     m_scholarshipId := JStr (im_scholarshipId match_);
     m_matchScore := JNum (im_matchScore match_);
     m_aiReasoning := optS (im_aiReasoning match_);
     m_status := JStr (im_status match_);
     m_createdAt := JStr now |}.

Definition create_match_fields (id : string) (match_ : InsertScholarshipMatch) (now : string)
    : gmap string JsValue :=
  <["id" := JStr id]>
  (<["ProfileID" := JStr (im_profileId match_)]>
  (<["ScholarshipID" := JStr (im_scholarshipId match_)]>
  (<["MatchScore" := JNum (im_matchScore match_)]>
  (<["AIReasoning" := optS (im_aiReasoning match_)]>
  (<["Status" := jor (JStr (im_status match_)) (JStr "new")]>
  (<["CreatedAt" := JStr now]> ∅)))))).

Definition createScholarshipMatch (match_ : InsertScholarshipMatch) : M ScholarshipMatch :=
  let* id := randomUUID in
  let* now := nowISO in
  let newMatch := new_match id match_ now in
  let* existingMatches :=
    gets (fun w => default [] (matchStorage w !! im_profileId match_)) in
  let* _ :=
    modify (set_matchStorage (insert (im_profileId match_) (existingMatches ++ [newMatch]))) in
  let* ua := gets useAirtable in
  if negb ua then ret newMatch
  else
    try_catch
      (let* records :=
         airtable (BCreate tables.scholarshipMatches (create_match_fields id match_ now)) in
       let* record := first_record records in
       ret (mapToScholarshipMatch record))
      (fun _ => ret newMatch).

Definition updateMatchStatus (matchId : string) (status : JsValue) : M ScholarshipMatch :=
  let* ua := gets useAirtable in
  if negb ua then
    let* now := nowISO in
    ret {| m_id := matchId;
           m_profileId := JStr "";
           m_scholarshipId := JStr "";
           m_matchScore := JNum 0;
           m_aiReasoning := JUndefined;
           m_status := status;
           m_createdAt := JStr now |}
  else
    try_catch
      (let* records :=
         airtable (BUpdate tables.scholarshipMatches matchId (<["status" := status]> ∅)) in
       let* record := first_record records in
       ret (mapToScholarshipMatch record))
      (fun error => throw error).

(** [application.status || "pending"] *)
Definition status_or_pending (status : string) : string :=
  if String.eqb status "" then "pending" else status.

Definition createScholarshipApplication (application : InsertScholarshipApplication)
    : M ScholarshipApplication :=
  let* id := randomUUID in
  let* now := nowISO in
  let newApplication :=
    {| app_id := id;
       app_studentProfileId := ia_studentProfileId application;
       app_scholarshipId := ia_scholarshipId application;
       app_documents := ia_documents application;
       app_status := status_or_pending (ia_status application);
       app_appliedAt := now |} in
  let* existing :=
    gets (fun w => default [] (applicationStorage w !! ia_studentProfileId application)) in
  let* _ :=
    modify (set_applicationStorage
              (insert (ia_studentProfileId application) (existing ++ [newApplication]))) in
  ret newApplication.

Definition getApplications (profileId : string) : M (list ScholarshipApplication) :=
  gets (fun w => default [] (applicationStorage w !! profileId)).

(** ** Request handlers ([registerRoutes])

    A handler ends in [res.status(code).json(body)]; [res.json(body)] alone is
    status 200. *)

Inductive Body : Type :=
| Message (message : string)
| MatchesFailed (message : string)
| Matches (matches : list ScholarshipMatch)
| Application (application : ScholarshipApplication).

Record Response : Type := {
  res_status : nat;
  res_body : Body
}.

(** [!id] for a body key that may be missing *)
Definition missing (id : option string) : bool :=
  match id with
  | Some s => String.eqb s ""
  | None => true
  end.

Definition placeholderReasoning : string :=
  "Pre-stored scholarship. AI matching will be enabled soon.".

(** One turn of the loop of [POST /api/matches/generate]. *)
Definition generate_one (profileId : string) (s : Scholarship) : M ScholarshipMatch :=
  let* r := random_floor 40 in
  createScholarshipMatch
    {| im_profileId := profileId;
       im_scholarshipId := sch_id s;
       im_matchScore := r + 60;
       im_aiReasoning := Some placeholderReasoning;
       im_status := "new" |}.

(** [app.post("/api/matches/generate", ...)] with [req.body.profileId] *)
Definition post_matches_generate (profileId : option string) : M Response :=
  try_catch
    (if missing profileId then
       ret {| res_status := 400; res_body := Message "Profile ID is required" |}
     else
       let profileId := default "" profileId in
       let* profile := getStudentProfileById profileId in
       match profile with
       | None => ret {| res_status := 404; res_body := Message "Profile not found" |}
       | Some _ =>
           let* scholarships := getAllScholarships in
           let* createdMatches := for_each (generate_one profileId) scholarships in
           ret {| res_status := 200; res_body := Matches createdMatches |}
       end)
    (fun _ =>
       ret {| res_status := 500; res_body := MatchesFailed "Failed to generate matches" |}).

(** [req.body] of [POST /api/applications]; [documents] may be missing. *)
Record ApplicationRequest : Type := {
  req_scholarshipId : option string;
  req_profileId : option string;
  req_documents : option (list string);
  req_status : option string
}.

(** [!doc.toLowerCase().endsWith('.pdf')] *)
Definition notPdf (doc : string) : bool := negb (endsWith (toLowerCase doc) ".pdf").

(** [app.post("/api/applications", ...)] *)
Definition post_applications (req : ApplicationRequest) : M Response :=
  try_catch
    (let status := default "draft" (req_status req) in
     if missing (req_profileId req) then
       ret {| res_status := 400; res_body := Message "Profile ID is required" |}
     else if missing (req_scholarshipId req) then
       ret {| res_status := 400; res_body := Message "Scholarship ID is required" |}
     else
       match req_documents req with
       | None => throw TypeError
       | Some documents =>
           let invalidDocs := List.filter notPdf documents in
           if Nat.ltb 0 (length invalidDocs) then
             ret {| res_status := 400; res_body := Message "Only PDF documents are allowed" |}
           else
             let* application :=
               createScholarshipApplication
                 {| ia_studentProfileId := default "" (req_profileId req);
                    ia_scholarshipId := default "" (req_scholarshipId req);
                    ia_documents := documents;
                    ia_status := "pending" |} in
             ret {| res_status := 200; res_body := Application application |}
       end)
    (fun _ =>
       ret {| res_status := 500; res_body := Message "Failed to create application" |}).

(** ** A reference JSON reader and printer

    [JSON.parse] and [JSON.stringify] belong to the runtime and are fields of
    [Outside].  The two functions below read and print the JSON fragment the
    store exchanges with the backend (arrays, strings with the escapes of
    quote, backslash, newline and tab, integers, the three literals, objects);
    they instantiate the runtime in the examples. *)

Definition chr (n : nat) : ascii := ascii_of_nat n.

Fixpoint skip_ws (s : string) : string :=
  match s with
  | String c r => if is_space c then skip_ws r else s
  | EmptyString => EmptyString
  end.

(** After the opening quote: the contents and what follows the closing one. *)
Fixpoint read_string (s : string) (acc : string) : option (string * string) :=
  match s with
  | EmptyString => None
  | String c r =>
      if Ascii.eqb c (chr 34) then Some (String.rev acc, r)
      else if Ascii.eqb c (chr 92) then
        match r with
        | String e r' =>
            if Ascii.eqb e (chr 34) then read_string r' (String (chr 34) acc)
            else if Ascii.eqb e (chr 92) then read_string r' (String (chr 92) acc)
            else if Ascii.eqb e "/"%char then read_string r' (String "/"%char acc)
            else if Ascii.eqb e "n"%char then read_string r' (String (chr 10) acc)
            else if Ascii.eqb e "t"%char then read_string r' (String (chr 9) acc)
            else None
        | EmptyString => None
        end
      else if Nat.ltb (nat_of_ascii c) 32 then None
      else read_string r (String c acc)
  end.

Definition is_digit (c : ascii) : bool :=
  (Nat.leb 48 (nat_of_ascii c) && Nat.leb (nat_of_ascii c) 57)%bool.

Fixpoint read_digits (s : string) (acc : Z) : Z * string :=
  match s with
  | String c r =>
      if is_digit c then read_digits r (10 * acc + Z.of_nat (nat_of_ascii c - 48))
      else (acc, s)
  | EmptyString => (acc, s)
  end.

Definition read_literal (word : string) (v : JsValue) (s : string)
    : option (JsValue * string) :=
  if String.prefix word s
  then Some (v, substring (String.length word) (String.length s - String.length word) s)
  else None.

Fixpoint read_value (fuel : nat) (s : string) : option (JsValue * string) :=
  match fuel with
  | O => None
  | S fuel =>
      match skip_ws s with
      | EmptyString => None
      | String c r =>
          if Ascii.eqb c (chr 34) then
            match read_string r EmptyString with
            | Some (str, rest) => Some (JStr str, rest)
            | None => None
            end
          else if Ascii.eqb c "["%char then
            match skip_ws r with
            | String "]"%char rest => Some (JArr [], rest)
            | r' =>
                (fix elements (n : nat) (s : string) (acc : list JsValue) :=
                   match n with
                   | O => None
                   | S n =>
                       match read_value fuel s with
                       | Some (v, rest) =>
                           match skip_ws rest with
                           | String ","%char rest' => elements n rest' (v :: acc)
                           | String "]"%char rest' => Some (JArr (rev (v :: acc)), rest')
                           | _ => None
                           end
                       | None => None
                       end
                   end) fuel r' []
            end
          else if Ascii.eqb c "{"%char then
            match skip_ws r with
            | String "}"%char rest => Some (JObj [], rest)
            | r' =>
                (fix members (n : nat) (s : string) (acc : list (string * JsValue)) :=
                   match n with
                   | O => None
                   | S n =>
                       match skip_ws s with
                       | String q s1 =>
                           if Ascii.eqb q (chr 34) then
                             match read_string s1 EmptyString with
                             | Some (key, s2) =>
                                 match skip_ws s2 with
                                 | String ":"%char s3 =>
                                     match read_value fuel s3 with
                                     | Some (v, rest) =>
                                         match skip_ws rest with
                                         | String ","%char rest' =>
                                             members n rest' ((key, v) :: acc)
                                         | String "}"%char rest' =>
                                             Some (JObj (rev ((key, v) :: acc)), rest')
                                         | _ => None
                                         end
                                     | None => None
                                     end
                                 | _ => None
                                 end
                             | None => None
                             end
                           else None
                       | EmptyString => None
                       end
                   end) fuel r' []
            end
          else if Ascii.eqb c "-"%char then
            match r with
            | String d _ =>
                if is_digit d then
                  let (n, rest) := read_digits r 0 in Some (JNum (- n), rest)
                else None
            | EmptyString => None
            end
          else if is_digit c then
            let (n, rest) := read_digits (String c r) 0 in Some (JNum n, rest)
          else if Ascii.eqb c "t"%char then read_literal "true" (JBool true) (String c r)
          else if Ascii.eqb c "f"%char then read_literal "false" (JBool false) (String c r)
          else if Ascii.eqb c "n"%char then read_literal "null" JNull (String c r)
          else None
      end
  end.

Definition parse_ref (s : string) : Exc JsValue :=
  match read_value (S (String.length s)) s with
  | Some (v, rest) =>
      match skip_ws rest with
      | EmptyString => Ok v
      | _ => Throw SyntaxError
      end
  | None => Throw SyntaxError
  end.

Fixpoint escape (s : string) : string :=
  match s with
  | EmptyString => EmptyString
  | String c r =>
      if Ascii.eqb c (chr 34) then String (chr 92) (String (chr 34) (escape r))
      else if Ascii.eqb c (chr 92) then String (chr 92) (String (chr 92) (escape r))
      else if Ascii.eqb c (chr 10) then String (chr 92) (String "n"%char (escape r))
      else if Ascii.eqb c (chr 9) then String (chr 92) (String "t"%char (escape r))
      else String c (escape r)
  end.

Definition quoted (s : string) : string := dquote +:+ escape s +:+ dquote.

Fixpoint stringify_ref (v : JsValue) : string :=
  match v with
  | JUndefined | JNull => "null"
  | JBool true => "true"
  | JBool false => "false"
  | JNum n => pretty n
  | JStr s => quoted s
  | JArr l => "[" +:+ join "," (map stringify_ref l) +:+ "]"
  | JObj l =>
      "{" +:+ join "," (map (fun kv => quoted (fst kv) +:+ ":" +:+ stringify_ref (snd kv)) l)
      +:+ "}"
  end.

(** * The rest of the store and of the handlers *)

(** ** [AirtableStorage]: users *)

Record User : Type := {
  u_id : string;
  u_username : JsValue;
  u_password : JsValue
}.

(** [InsertUser] *)
Record InsertUser : Type := {
  iu_username : string;
  iu_password : string
}.

Definition email_formula (username : string) : string :=
  "{email} = " +:+ dquote +:+ username +:+ dquote.

Definition getUser (id : string) : M (option User) :=
  let* ua := gets useAirtable in
  if negb ua then ret None
  else
    try_catch
      (let* records := airtable (BFind tables.users id) in
       match records with
       | [] => ret None
       | record :: _ =>
           ret (Some {| u_id := rec_id record;
                        u_username := jor (field record "username") (JStr "");
                        u_password := jor (field record "password") (JStr "") |})
       end)
      (fun _ => ret None).

Definition getUserByUsername (username : string) : M (option User) :=
  let* ua := gets useAirtable in
  if negb ua then ret None
  else
    try_catch
      (let* records := airtable (BSelect tables.users (Some (email_formula username))) in
       match records with
       | [] => ret None
       | record :: _ =>
           ret (Some {| u_id := rec_id record;
                        u_username := jor (field record "email") (JStr "");
                        u_password := JStr "" |})
       end)
      (fun _ => ret None).

Definition createUser (user : InsertUser) : M User :=
  let* id := randomUUID in
  let* ua := gets useAirtable in
  if negb ua then
    ret {| u_id := id;
           u_username := JStr (iu_username user);
           u_password := JStr (iu_password user) |}
  else
    try_catch
      (let* records :=
         airtable (BCreate tables.users (<["email" := JStr (iu_username user)]> ∅)) in
       let* record := first_record records in
       ret {| u_id := rec_id record;
              u_username := jor (field record "email") (JStr "");
              u_password := JStr "" |})
      (fun error => throw error).

(** ** [AirtableStorage]: searching and clearing scholarships *)

(** The [filters] argument of [searchScholarships]. *)
Record SearchFilters : Type := {
  sf_type : option string;
  sf_minAmount : option Z;
  sf_tags : option (list string);
  sf_fieldOfStudy : option string;
  sf_educationLevel : option string
}.

(** [conditions]: one entry, for a truthy [filters.type]. *)
Definition search_conditions (filters : SearchFilters) : list string :=
  if truthy (optS (sf_type filters)) then
    ["{type} = " +:+ dquote +:+ default "" (sf_type filters) +:+ dquote]
  else [].

(** [selectOptions.filterByFormula], when there is a condition. *)
Definition search_formula (conditions : list string) : option string :=
  match conditions with
  | [] => None
  | [c] => Some c
  | _ => Some ("AND(" +:+ join "," conditions +:+ ")")
  end.

Definition searchScholarships (filters : SearchFilters) : M (list Scholarship) :=
  let* ua := gets useAirtable in
  if negb ua then ret []
  else
    try_catch
      (let conditions := search_conditions filters in
       let* records := airtable (BSelect tables.scholarships (search_formula conditions)) in
       for_each mapToScholarship records)
      (fun _ => ret []).

(** [recordIds.slice(i, j)] *)
Definition slice {A} (i j : nat) (l : list A) : list A := take (j - i) (drop i l).

(** [await base(table).destroy(batch)]: the answer of the backend to a
    destroy call is read from [destroyAt] at the tick of the call. *)
Definition destroy (destroyAt : nat -> list string -> Exc unit) (batch : list string)
    : M unit :=
  fun w => (destroyAt (ticks w) batch, tick w).

(** [for (let i = 0; i < recordIds.length; i += batchSize)
       await destroy(recordIds.slice(i, i + batchSize))],
    entered at index [i]; [fuel] bounds the number of turns. *)
Fixpoint destroy_loop (destroyAt : nat -> list string -> Exc unit) (batchSize : nat)
    (fuel i : nat) (recordIds : list string) : M unit :=
  match fuel with
  | O => ret tt
  | S fuel =>
      if Nat.ltb i (length recordIds) then
        let* _ := destroy destroyAt (slice i (i + batchSize) recordIds) in
        destroy_loop destroyAt batchSize fuel (i + batchSize) recordIds
      else ret tt
  end.

Definition clearAllScholarships (destroyAt : nat -> list string -> Exc unit) : M unit :=
  let* ua := gets useAirtable in
  if negb ua then ret tt
  else
    try_catch
      (let* records := airtable (BSelect tables.scholarships None) in
       match records with
       | [] => ret tt
       | _ =>
           let recordIds := map rec_id records in
           let batchSize := 10%nat in
           destroy_loop destroyAt batchSize (length recordIds) 0 recordIds
       end)
      (fun error => throw error).

(** ** [AirtableStorage]: guidance and consultation bookings *)

Record ApplicationGuidance : Type := {
  g_id : string;
  g_profileId : JsValue;
  g_scholarshipId : JsValue;
  g_essayTips : JsValue;
  g_checklist : JsValue;
  g_improvementSuggestions : JsValue;
  g_createdAt : JsValue
}.

(** [InsertApplicationGuidance] *)
Record InsertApplicationGuidance : Type := {
  ig_profileId : string;
  ig_scholarshipId : string;
  ig_essayTips : option string;
  ig_checklist : option string;
  ig_improvementSuggestions : option string
}.

Definition mapToApplicationGuidance (record : AirRecord) : ApplicationGuidance :=
  {| g_id := rec_id record;
     g_profileId := jor (field record "ProfileId") (field record "profileId");
     g_scholarshipId := jor (field record "ScholarshipId") (field record "scholarshipId");
     g_essayTips := jor (field record "EssayTips") (field record "essayTips");
     g_checklist := jor (field record "Checklist") (field record "checklist");
     g_improvementSuggestions :=
       jor (field record "ImprovementSuggestions") (field record "improvementSuggestions");
     g_createdAt := jor (field record "CreatedAt") (field record "createdAt") |}.

Definition guidance_formula (profileId scholarshipId : string) : string :=
  "AND({profileId} = " +:+ dquote +:+ profileId +:+ dquote
  +:+ ", {scholarshipId} = " +:+ dquote +:+ scholarshipId +:+ dquote +:+ ")".

Definition getApplicationGuidance (profileId scholarshipId : string)
    : M (option ApplicationGuidance) :=
  let* ua := gets useAirtable in
  if negb ua then ret None
  else
    try_catch
      (let* records :=
         airtable (BSelect tables.applicationGuidance
                     (Some (guidance_formula profileId scholarshipId))) in
       match records with
       | [] => ret None
       | record :: _ => ret (Some (mapToApplicationGuidance record))
       end)
      (fun _ => ret None).

(** [{ id, ...guidance, createdAt: now }] *)
Definition local_guidance (id : string) (guidance : InsertApplicationGuidance) (now : string)
    : ApplicationGuidance :=
  {| g_id := id;
     g_profileId := JStr (ig_profileId guidance);
     g_scholarshipId := JStr (ig_scholarshipId guidance);
     g_essayTips := optS (ig_essayTips guidance);
     g_checklist := optS (ig_checklist guidance);
     g_improvementSuggestions := optS (ig_improvementSuggestions guidance);
     g_createdAt := JStr now |}.

Definition create_guidance_fields (id : string) (guidance : InsertApplicationGuidance)
    (now : string) : gmap string JsValue :=
  <["id" := JStr id]>
  (<["profileId" := JStr (ig_profileId guidance)]>
  (<["scholarshipId" := JStr (ig_scholarshipId guidance)]>
  (<["essayTips" := optS (ig_essayTips guidance)]>
  (<["checklist" := optS (ig_checklist guidance)]>
  (<["improvementSuggestions" := optS (ig_improvementSuggestions guidance)]>
  (<["createdAt" := JStr now]> ∅)))))).

Definition createApplicationGuidance (guidance : InsertApplicationGuidance)
    : M ApplicationGuidance :=
  let* id := randomUUID in
  let* now := nowISO in
  let* ua := gets useAirtable in
  if negb ua then ret (local_guidance id guidance now)
  else
    try_catch
      (let* records :=
         airtable (BCreate tables.applicationGuidance
                     (create_guidance_fields id guidance now)) in
       let* record := first_record records in
       ret (mapToApplicationGuidance record))
      (fun error => throw error).

(** [amount]: declared a number, and at run time whatever JSON value the
    request body carried (an integer, a fraction, a text, nothing at all).
    The handler and the store read it in two ways only, and it is modelled by
    these two readings: its truthiness, for [!amount], and the text that the
    template [`${amount}`] interpolates, which for a number is the runtime's
    rendering of it. *)
Record Amount : Type := {
  amount_truthy : bool;
  amount_text : string
}.

Definition booking_fields (profileId counselorName : string) (amount : Amount) (now : string)
    : gmap string JsValue :=
  <["ProfileId" := JStr profileId]>
  (<["ScholarshipId" := JStr ("consultation-" +:+ counselorName)]>
  (<["EssayTips" := JStr ("Consultation Booking: " +:+ counselorName)]>
  (<["Checklist" := JStr ("Amount Paid: ₹" +:+ amount_text amount)]>
  (<["ImprovementSuggestions" :=
       JStr ("Counselor: " +:+ counselorName +:+ ", Booked on: " +:+ now)]>
  (<["CreatedAt" := JStr now]> ∅))))).

Definition saveConsultationBooking (profileId counselorName : string) (amount : Amount)
    : M ApplicationGuidance :=
  let* id := randomUUID in
  let* now := nowISO in
  let* ua := gets useAirtable in
  if negb ua then
    ret {| g_id := id;
           g_profileId := JStr profileId;
           g_scholarshipId := JStr ("consultation-" +:+ counselorName);
           g_essayTips := JStr ("Consultation with " +:+ counselorName);
           g_checklist := JUndefined;
           g_improvementSuggestions := JUndefined;
           g_createdAt := JStr now |}
  else
    try_catch
      (let* records :=
         airtable (BCreate tables.applicationGuidance
                     (booking_fields profileId counselorName amount now)) in
       let* record := first_record records in
       ret (mapToApplicationGuidance record))
      (fun error => throw error).

(** ** [AirtableStorage]: resumes and seeding *)

Definition resume_formula (profileId : string) : string :=
  "OR({ProfileId} = " +:+ dquote +:+ profileId +:+ dquote
  +:+ ", FIND(" +:+ dquote +:+ profileId +:+ dquote +:+ ", {Notes}) > 0, FIND("
  +:+ dquote +:+ profileId +:+ dquote +:+ ", {Title}) > 0)".

(** [notes && typeof notes === 'string' && notes.length > 0] for
    [notes = record.fields.Notes || record.fields.notes] *)
Definition has_resume (record : AirRecord) : bool :=
  match jor (field record "Notes") (field record "notes") with
  | JStr s => negb (String.eqb s "")
  | _ => false
  end.

(** The select call also asks for the newest records first and for at most
    ten of them; the answer is the backend's either way. *)
Definition getResumeByProfileId (profileId : string) : M (option Scholarship) :=
  let* ua := gets useAirtable in
  if negb ua then ret None
  else
    try_catch
      (let* records :=
         airtable (BSelect tables.scholarships (Some (resume_formula profileId))) in
       match List.find has_resume records with
       | Some record =>
           let* scholarship := mapToScholarship record in
           ret (Some scholarship)
       | None => ret None
       end)
      (fun _ => ret None).





(** ** More request handlers

    [Json code a] is [res.status(code).json(a)] with a payload, [Failure code
    message] is [res.status(code).json({ message })]. *)

Inductive Answer (A : Type) : Type :=
| Json (status : nat) (a : A)
| Failure (status : nat) (message : string).
Arguments Json {A} status a.
Arguments Failure {A} status message.

(** [app.get("/api/profile/:profileId", ...)] *)
Definition get_profile (profileId : string) : M (Answer StudentProfile) :=
  try_catch
    (let* profile := getStudentProfileById profileId in
     match profile with
     | None => ret (Failure 404 "Profile not found")
     | Some p => ret (Json 200 p)
     end)
    (fun _ => ret (Failure 500 "Failed to fetch profile")).

(** [app.get("/api/scholarships", ...)] *)
Definition get_scholarships : M (Answer (list Scholarship)) :=
  try_catch
    (let* scholarships := getAllScholarships in ret (Json 200 scholarships))
    (fun _ => ret (Failure 500 "Failed to fetch scholarships")).

(** [app.get("/api/matches/:profileId", ...)] *)
Definition get_matches (profileId : string)
    : M (Answer (list (ScholarshipMatch * Scholarship))) :=
  try_catch
    (let* matches := getScholarshipMatches profileId in ret (Json 200 matches))
    (fun _ => ret (Failure 500 "Failed to fetch matches")).

(** [app.put("/api/matches/:matchId/status", ...)] with [req.body.status] *)
Definition put_match_status (matchId : string) (status : JsValue)
    : M (Answer ScholarshipMatch) :=
  try_catch
    (let* updatedMatch := updateMatchStatus matchId status in ret (Json 200 updatedMatch))
    (fun _ => ret (Failure 500 "Failed to update match status")).

(** [app.post("/api/consultation-booking", ...)] *)
Definition post_consultation_booking (profileId counselorName : option string)
    (amount : Amount) : M (Answer ApplicationGuidance) :=
  try_catch
    (if (missing profileId || missing counselorName || negb (amount_truthy amount))%bool then
       ret (Failure 400 "Profile ID, counselor name, and amount are required")
     else
       let* booking :=
         saveConsultationBooking (default "" profileId) (default "" counselorName) amount in
       ret (Json 200 booking))
    (fun _ => ret (Failure 500 "Failed to save consultation booking")).

(** The payload of [GET /api/resume/:profileId]. *)
Record ResumePayload : Type := {
  rp_id : string;
  rp_profileId : JsValue;
  rp_content : JsValue;
  rp_createdAt : JsValue
}.

(** [app.get("/api/resume/:profileId", ...)] *)
Definition get_resume (profileId : string) : M (Answer ResumePayload) :=
  try_catch
    (let* resumeData := getResumeByProfileId profileId in
     match resumeData with
     | Some r =>
         if truthy (sch_notes r) then
           ret (Json 200 {| rp_id := sch_id r;
                            rp_profileId := sch_profileId r;
                            rp_content := sch_notes r;
                            rp_createdAt := sch_createdAt r |})
         else ret (Failure 404 "Resume not found. Please generate a resume first.")
     | None => ret (Failure 404 "Resume not found. Please generate a resume first.")
     end)
    (fun _ => ret (Failure 500 "Failed to fetch resume")).

(** * Vocabulary of the properties *)

(** [preserves R m]: every run of [m], returning or throwing, relates the
    world before to the world after by [R]. *)
Definition preserves {A} (R : World -> World -> Prop) (m : M A) : Prop :=
  forall w r w', m w = (r, w') -> R w w'.

(** All stores and the outside are as before; only the tick counter may
    have advanced. *)
Definition same_stores (w w' : World) : Prop :=
  useAirtable w' = useAirtable w
  /\ profileStorage w' = profileStorage w
  /\ matchStorage w' = matchStorage w
  /\ applicationStorage w' = applicationStorage w
  /\ outside w' = outside w.

(** Everything but the profile cache and the tick counter. *)
Definition same_but_profiles (w w' : World) : Prop :=
  useAirtable w' = useAirtable w
  /\ matchStorage w' = matchStorage w
  /\ applicationStorage w' = applicationStorage w
  /\ outside w' = outside w.

(** The value the spec gives a list-typed field: a native list is passed
    through, a string is JSON-parsed, and [dflt] stands for a missing field,
    a value of another type and a string that does not parse. *)
Definition parse_or_pass_through (o : Outside) (raw dflt : JsValue) : JsValue :=
  if truthy raw then
    match raw with
    | JStr s => match JSON_parse o s with Ok v => v | Throw _ => dflt end
    | JArr _ => raw
    | _ => dflt
    end
  else dflt.

Definition mapped_title (r : AirRecord) : JsValue :=
  jor (jor (field r "Title") (field r "title")) (JStr "Untitled Scholarship").

Definition mapped_organization (r : AirRecord) : JsValue :=
  jor (jor (field r "Organization") (field r "organization")) (JStr "Unknown Organization").

(** The entity [mapToScholarship] builds from a record, given the runtime
    and the reading of the clock it falls back on for [createdAt]. *)
Definition mapped (o : Outside) (now : string) (r : AirRecord) : Scholarship :=
  {| sch_id := rec_id r;
     sch_title := mapped_title r;
     sch_organization := mapped_organization r;
     sch_amount := jor (jor (field r "Amount") (field r "amount")) (JStr "Amount TBD");
     sch_deadline :=
       jor (jor (field r "Deadline") (field r "deadline")) (JStr "No deadline specified");
     sch_description :=
       jor (jor (field r "Description") (field r "description"))
           (JStr "No description available");
     sch_requirements :=
       jor (jor (field r "Requirements") (field r "requirements"))
           (JStr "Check with scholarship provider");
     sch_tags := parse_or_pass_through o (jor (field r "tags") (field r "Tags")) (JArr []);
     sch_type := jor (jor (field r "Type") (field r "type")) (JStr "merit-based");
     sch_eligibilityGpa := jor (field r "EligibilityGpa") (field r "eligibilityGpa");
     sch_eligibleFields :=
       parse_or_pass_through o (jor (field r "eligibleFields") (field r "EligibleFields"))
         JUndefined;
     sch_eligibleLevels :=
       parse_or_pass_through o (jor (field r "eligibleLevels") (field r "EligibleLevels"))
         JUndefined;
     sch_isActive := strict_ne_false (field r "isActive");
     sch_createdAt :=
       (let c := jor (field r "CreatedAt") (field r "createdAt") in
        if truthy c then c else JStr now);
     sch_notes := jor (field r "Notes") (field r "notes");
     sch_profileId := jor (field r "ProfileId") (field r "profileId") |}.

(** The answer of the backend to [select().all()] on the scholarships table,
    read at the tick of the call. *)
Definition scholarships_reply (w : World) : Exc (list AirRecord) :=
  airtableAt (outside w) (ticks w) (BSelect tables.scholarships None).

(** The three shapes of a backend answer for which the Fallback Catalog is
    substituted: no record, records without title and organization under
    both spellings, records that all map to the default title and
    organization. *)
Definition substitutes_fallback (records : list AirRecord) : Prop :=
  records = []
  \/ Forall (fun r => hasProperData r = false) records
  \/ Forall (fun r => mapped_title r = JStr "Untitled Scholarship"
                      /\ mapped_organization r = JStr "Unknown Organization") records.

(** The entity an update starts from: the cached profile, or the blank
    profile stamped with the time of the call when none is cached. *)
Definition existing_profile (w : World) (id : string) : StudentProfile :=
  default (blank_profile id (clockAt (outside w) (ticks w))) (profileStorage w !! id).

(** What the spread of an update does to one field: a supplied key
    overwrites, an omitted key keeps the old value. *)
Definition merged {A} (inj : A -> JsValue) (old new : JsValue) (supplied : option A) : Prop :=
  match supplied with
  | Some v => new = inj v
  | None => new = old
  end.

(** The answers of the backend to the create calls of [createStudentProfile]
    and [createScholarship], read at the tick of the call. *)
Definition create_profile_reply (w : World) (profile : InsertStudentProfile)
    : Exc (list AirRecord) :=
  airtableAt (outside w) (S (ticks w))
    (BCreate tables.studentProfiles
       (create_profile_fields profile (clockAt (outside w) (ticks w)))).

Definition create_scholarship_reply (w : World) (scholarship : InsertScholarship)
    : Exc (list AirRecord) :=
  airtableAt (outside w) (S (S (ticks w)))
    (BCreate tables.scholarships
       (create_scholarship_fields scholarship (clockAt (outside w) (S (ticks w)))
          (JSON_stringify (outside w)))).

(** The inputs on which neither [createScholarship] nor the mapper nor
    [getScholarshipById] replaces a field: the strings the schema requires
    are non-empty, the type is non-empty, the title is not the mapper's
    default title, the eligibility GPA is absent or non-empty, both
    eligibility lists are supplied, and the scholarship is active. *)
Definition no_default_substituted (i : InsertScholarship) : Prop :=
  isc_title i <> ""
  /\ isc_title i <> "Untitled Scholarship"
  /\ isc_organization i <> ""
  /\ isc_amount i <> ""
  /\ isc_deadline i <> ""
  /\ isc_description i <> ""
  /\ isc_requirements i <> ""
  /\ isc_type i <> ""
  /\ isc_eligibilityGpa i <> Some ""
  /\ is_Some (isc_eligibleFields i)
  /\ is_Some (isc_eligibleLevels i)
  /\ isc_isActive i = true.

(** [JSON.parse(JSON.stringify(l))] gives [l] back, for one list of strings. *)
Definition roundtrips (o : Outside) (l : list string) : Prop :=
  JSON_stringify o (strings l) <> ""
  /\ JSON_parse o (JSON_stringify o (strings l)) = Ok (strings l).

(** Equality on all the input fields. *)
Definition agrees (s : Scholarship) (i : InsertScholarship) : Prop :=
  sch_title s = JStr (isc_title i)
  /\ sch_organization s = JStr (isc_organization i)
  /\ sch_amount s = JStr (isc_amount i)
  /\ sch_deadline s = JStr (isc_deadline i)
  /\ sch_description s = JStr (isc_description i)
  /\ sch_requirements s = JStr (isc_requirements i)
  /\ sch_tags s = strings (isc_tags i)
  /\ sch_type s = JStr (isc_type i)
  /\ sch_eligibilityGpa s = optS (isc_eligibilityGpa i)
  /\ sch_eligibleFields s = optL (isc_eligibleFields i)
  /\ sch_eligibleLevels s = optL (isc_eligibleLevels i)
  /\ sch_isActive s = isc_isActive i.

(** Everything but the match store and the tick counter. *)
Definition same_but_matches (w w' : World) : Prop :=
  useAirtable w' = useAirtable w
  /\ profileStorage w' = profileStorage w
  /\ applicationStorage w' = applicationStorage w
  /\ outside w' = outside w.

(** Everything but the application store and the tick counter. *)
Definition same_but_applications (w w' : World) : Prop :=
  useAirtable w' = useAirtable w
  /\ profileStorage w' = profileStorage w
  /\ matchStorage w' = matchStorage w
  /\ outside w' = outside w.

(** The match record that a generate request creates for profile [pid] and
    scholarship [s]. *)
Definition created_for (pid : string) (s : Scholarship) (m : ScholarshipMatch) : Prop :=
  m_profileId m = JStr pid
  /\ m_scholarshipId m = JStr (sch_id s)
  /\ (exists n, m_matchScore m = JNum n /\ 60 <= n <= 100)
  /\ m_status m = JStr "new"
  /\ m_aiReasoning m = JStr placeholderReasoning.

(** The match that a turn of the generate loop stores for scholarship [s]
    when it is entered at tick [t]: the turn reads the random source at [t],
    the UUID source after it and the clock last. *)
Definition generated_at (o : Outside) (pid : string) (t : nat) (s : Scholarship)
    : ScholarshipMatch :=
  {| m_id := uuidAt o (S t);
     m_profileId := JStr pid;
     m_scholarshipId := JStr (sch_id s);
     m_matchScore := JNum (scaled_floor 40 (randomAt o t) + 60);
     m_aiReasoning := JStr placeholderReasoning;
     m_status := JStr "new";
     m_createdAt := JStr (clockAt o (S (S t))) |}.

(** The reads of the outside that one turn of the loop makes: the three
    above, and the create call when a backend is configured. *)
Definition turn (ua : bool) : nat := if ua then 4%nat else 3%nat.

(** The matches that the loop stores for [catalog] when it is entered at tick
    [t], in catalog order. *)
Fixpoint generated (o : Outside) (ua : bool) (pid : string) (t : nat)
    (catalog : list Scholarship) : list ScholarshipMatch :=
  match catalog with
  | [] => []
  | s :: rest => generated_at o pid t s :: generated o ua pid (turn ua + t) rest
  end.

(** The fields that [createScholarshipMatch] writes to the backend for the
    match [m] it stored. *)
Definition written_fields (m : ScholarshipMatch) : gmap string JsValue :=
  <["id" := JStr (m_id m)]>
  (<["ProfileID" := m_profileId m]>
  (<["ScholarshipID" := m_scholarshipId m]>
  (<["MatchScore" := m_matchScore m]>
  (<["AIReasoning" := m_aiReasoning m]>
  (<["Status" := jor (m_status m) (JStr "new")]>
  (<["CreatedAt" := m_createdAt m]> ∅)))))).

(** What [createScholarshipMatch] returns for the match [m] it stored, given
    the answer of the backend to the create call: the mapper's reading of the
    first record, or [m] itself when the call threw or returned no record. *)
Definition returned_for (reply : Exc (list AirRecord)) (m : ScholarshipMatch)
    : ScholarshipMatch :=
  match reply with
  | Ok (record :: _) => mapToScholarshipMatch record
  | _ => m
  end.

(** The record that the turn entered at tick [t] answers with for the match
    [m] it stored: without a backend [m] itself, with one what the create
    call, made after the three reads, gives. *)
Definition answered_at (o : Outside) (ua : bool) (t : nat) (m : ScholarshipMatch)
    : ScholarshipMatch :=
  if ua then
    returned_for
      (airtableAt o (S (S (S t))) (BCreate tables.scholarshipMatches (written_fields m))) m
  else m.

(** The records that the loop answers with for the matches [created] it
    stored, when it is entered at tick [t]. *)
Fixpoint answered (o : Outside) (ua : bool) (t : nat) (created : list ScholarshipMatch)
    : list ScholarshipMatch :=
  match created with
  | [] => []
  | m :: rest => answered_at o ua t m :: answered o ua (turn ua + t) rest
  end.

(** The application record that a successful request stores. *)
Definition submitted (w : World) (pid sid : string) (docs : list string)
    : ScholarshipApplication :=
  {| app_id := uuidAt (outside w) (ticks w);
     app_studentProfileId := pid;
     app_scholarshipId := sid;
     app_documents := docs;
     app_status := "pending";
     app_appliedAt := clockAt (outside w) (S (ticks w)) |}.

(** [s] with its [createdAt] replaced. *)
Definition restamp (t : JsValue) (s : Scholarship) : Scholarship :=
  {| sch_id := sch_id s;
     sch_title := sch_title s;
     sch_organization := sch_organization s;
     sch_amount := sch_amount s;
     sch_deadline := sch_deadline s;
     sch_description := sch_description s;
     sch_requirements := sch_requirements s;
     sch_tags := sch_tags s;
     sch_type := sch_type s;
     sch_eligibilityGpa := sch_eligibilityGpa s;
     sch_eligibleFields := sch_eligibleFields s;
     sch_eligibleLevels := sch_eligibleLevels s;
     sch_isActive := sch_isActive s;
     sch_createdAt := t;
     sch_notes := sch_notes s;
     sch_profileId := sch_profileId s |}.

(** Two scholarships that differ at most in [createdAt], the time at which
    the Fallback Catalog was instantiated. *)
Definition same_entry (s s' : Scholarship) : Prop :=
  restamp JUndefined s = restamp JUndefined s'.

(** Two results of [getScholarshipMatches]: the same match, joined with the
    same catalog entry, whose two time stamps are related by [P]. *)
Definition result_rel (P : JsValue -> JsValue -> Prop)
    (a b : ScholarshipMatch * Scholarship) : Prop :=
  fst a = fst b
  /\ same_entry (snd a) (snd b)
  /\ P (sch_createdAt (snd a)) (sch_createdAt (snd b)).

Definition same_result : ScholarshipMatch * Scholarship ->
                         ScholarshipMatch * Scholarship -> Prop :=
  result_rel (fun _ _ => True).

(** Every two readings of the clocks of [w] and [w'] are related by [P]. *)
Definition stamps_related (P : JsValue -> JsValue -> Prop) (w w' : World) : Prop :=
  forall t t', P (JStr (clockAt (outside w) t)) (JStr (clockAt (outside w') t')).

(** The clock of a world that reads the same at every tick. *)
Definition frozen_clock (w : World) : Prop :=
  forall t t', clockAt (outside w) t = clockAt (outside w) t'.

(** Every cached profile sits under its own ID. *)
Definition cache_keyed (w : World) : Prop :=
  forall k p, profileStorage w !! k = Some p -> sp_id p = k.

(** The backend answers a find with a record of the ID asked for. *)
Definition finds_by_id (o : Outside) : Prop :=
  forall t table id record rest,
    airtableAt o t (BFind table id) = Ok (record :: rest) -> rec_id record = id.

(** The score a result is ranked by, and the results that have one. *)
Definition score_of (r : ScholarshipMatch * Scholarship) : Z :=
  match m_matchScore (fst r) with
  | JNum n => n
  | _ => 0
  end.

Definition has_score (r : ScholarshipMatch * Scholarship) : Prop :=
  exists n, m_matchScore (fst r) = JNum n.

(** The stored matches that a listing shows: those with status [new]. *)
Definition is_new (m : ScholarshipMatch) : bool := strict_eq_str (m_status m) "new".

(** The answer of the backend to the update call of [updateMatchStatus]. *)
Definition update_status_reply (w : World) (matchId : string) (status : JsValue)
    : Exc (list AirRecord) :=
  airtableAt (outside w) (ticks w)
    (BUpdate tables.scholarshipMatches matchId (<["status" := status]> ∅)).

(** The applications [getApplications] returns for a profile. *)
Definition applications_of (w : World) (profileId : string) : list ScholarshipApplication :=
  default [] (applicationStorage w !! profileId).

(** A scholarship whose display fields are all truthy (none is missing or
    empty). *)
Definition displayable (s : Scholarship) : Prop :=
  truthy (sch_title s) = true
  /\ truthy (sch_organization s) = true
  /\ truthy (sch_amount s) = true
  /\ truthy (sch_deadline s) = true
  /\ truthy (sch_description s) = true
  /\ truthy (sch_requirements s) = true
  /\ truthy (sch_type s) = true.

(** [s] is what the mapper makes of [r] under the runtime [o]. *)
Definition maps_to (o : Outside) (r : AirRecord) (s : Scholarship) : Prop :=
  exists now, s = mapped o now r.

(** The answer of the backend to the find call of [getScholarshipById]. *)
Definition find_scholarship_reply (w : World) (id : string) : Exc (list AirRecord) :=
  airtableAt (outside w) (ticks w) (BFind tables.scholarships id).

(** The slices that the loop of [clearAllScholarships] destroys, in order. *)
Fixpoint batches_from (batchSize fuel i : nat) (recordIds : list string)
    : list (list string) :=
  match fuel with
  | O => []
  | S fuel =>
      if Nat.ltb i (length recordIds) then
        slice i (i + batchSize) recordIds
        :: batches_from batchSize fuel (i + batchSize) recordIds
      else []
  end.

Definition batches (recordIds : list string) : list (list string) :=
  batches_from 10 (length recordIds) 0 recordIds.

(** A sequence of awaited calls whose results are dropped: the outcome, and
    the world it leaves. *)
Definition in_sequence {A} (r : Exc (list A) * World) : Exc unit * World :=
  match r with
  | (Ok _, w) => (Ok tt, w)
  | (Throw e, w) => (Throw e, w)
  end.

(** [selectOptions.filterByFormula] of a search, from [filters.type] alone:
    a missing or empty type sets no formula. *)
Definition type_formula (type : option string) : option string :=
  match type with
  | Some (String _ _ as t) => Some ("{type} = " +:+ dquote +:+ t +:+ dquote)
  | _ => None
  end.

(** The answers of the backend to the calls of [searchScholarships],
    [getResumeByProfileId], [createApplicationGuidance] and
    [saveConsultationBooking], read at the tick of the call. *)
Definition search_reply (w : World) (type : option string) : Exc (list AirRecord) :=
  airtableAt (outside w) (ticks w) (BSelect tables.scholarships (type_formula type)).

Definition resume_reply (w : World) (profileId : string) : Exc (list AirRecord) :=
  airtableAt (outside w) (ticks w)
    (BSelect tables.scholarships (Some (resume_formula profileId))).

Definition create_guidance_reply (w : World) (guidance : InsertApplicationGuidance)
    : Exc (list AirRecord) :=
  airtableAt (outside w) (S (S (ticks w)))
    (BCreate tables.applicationGuidance
       (create_guidance_fields (uuidAt (outside w) (ticks w)) guidance
          (clockAt (outside w) (S (ticks w))))).

Definition booking_reply (w : World) (profileId counselorName : string) (amount : Amount)
    : Exc (list AirRecord) :=
  airtableAt (outside w) (S (S (ticks w)))
    (BCreate tables.applicationGuidance
       (booking_fields profileId counselorName amount (clockAt (outside w) (S (ticks w))))).

(** The payload [GET /api/resume/:profileId] makes of a stored resume. *)
Definition resume_payload (r : Scholarship) : ResumePayload :=
  {| rp_id := sch_id r;
     rp_profileId := sch_profileId r;
     rp_content := sch_notes r;
     rp_createdAt := sch_createdAt r |}.

(** The answer of the backend to the create call of [createUser]. *)
Definition create_user_reply (w : World) (username : string) : Exc (list AirRecord) :=
  airtableAt (outside w) (S (ticks w))
    (BCreate tables.users (<["email" := JStr username]> ∅)).

(** A skill that survives the comma-separated text the backend keeps: it is
    not empty, has no comma, and starts and ends with a visible ASCII
    character. *)
Definition visible (c : ascii) : bool :=
  let n := nat_of_ascii c in (Nat.leb 33 n && Nat.leb n 126)%bool.

Definition starts_visible (s : string) : bool :=
  match s with
  | String c _ => visible c
  | EmptyString => false
  end.

Fixpoint no_comma (s : string) : bool :=
  match s with
  | String c r => (negb (Ascii.eqb c ","%char) && no_comma r)%bool
  | EmptyString => true
  end.

Definition clean_skill (s : string) : Prop :=
  starts_visible s = true /\ starts_visible (String.rev s) = true /\ no_comma s = true.

(** What a later read of the backend makes of the record that
    [createStudentProfile] wrote for [profile] at [now]. *)
Definition backend_copy (id : string) (profile : InsertStudentProfile) (now : string)
    : StudentProfile :=
  {| sp_id := id;
     sp_name := JStr (isp_name profile);
     sp_email := JStr (isp_email profile);
     sp_phone := JUndefined;
     sp_location := JStr (isp_location profile);
     sp_educationLevel := JStr (default "" (isp_educationLevel profile));
     sp_fieldOfStudy := JStr (default "" (isp_fieldOfStudy profile));
     sp_gpa := JStr (default "" (isp_gpa profile));
     sp_graduationYear := JStr (default "" (isp_graduationYear profile));
     sp_skills := match isp_skills profile with
                  | Some (x :: l) => strings (x :: l)
                  | _ => JUndefined
                  end;
     sp_activities := JStr (default "" (isp_activities profile));
     sp_financialNeed := JStr (default "" (isp_financialNeed profile));
     sp_summary := JUndefined;
     sp_education := JUndefined;
     sp_experience := JUndefined;
     sp_projects := JUndefined;
     sp_createdAt := JStr now;
     sp_updatedAt := JStr now |}.

(** The answer of the backend to the create call of [createScholarshipMatch],
    read at the tick of the call. *)
Definition create_match_reply (w : World) (match_ : InsertScholarshipMatch)
    : Exc (list AirRecord) :=
  airtableAt (outside w) (S (S (ticks w)))
    (BCreate tables.scholarshipMatches
       (create_match_fields (uuidAt (outside w) (ticks w)) match_
          (clockAt (outside w) (S (ticks w))))).

(** A match of which only the ID is known. *)
Definition bare_match (id : string) : ScholarshipMatch :=
  {| m_id := id;
     m_profileId := JUndefined;
     m_scholarshipId := JUndefined;
     m_matchScore := JUndefined;
     m_aiReasoning := JUndefined;
     m_status := JUndefined;
     m_createdAt := JUndefined |}.

(** * Example worlds *)

Definition offline_backend : nat -> BackendCall -> Exc (list AirRecord) :=
  fun _ _ => Throw (BackendError "connect ECONNREFUSED").

(** The random source draws numbers in [0.5, 1): patterns with the biased
    exponent 1022. *)
Definition demo_outside (backend : nat -> BackendCall -> Exc (list AirRecord)) : Outside :=
  {| uuidAt := fun n => "7c9e6679-7425-40de-944b-e07fc1f9" +:+ pretty (1000 + n)%nat;
     clockAt := fun n => "2025-01-15T10:00:" +:+ pretty (10 + n)%nat +:+ ".000Z";
     randomAt := fun n => 0x3FE0000000000000 + (Z.of_nat n * 1234567890123457) mod 2 ^ 52;
     airtableAt := backend;
     JSON_parse := parse_ref;
     JSON_stringify := stringify_ref |}.

Definition demo_world (ua : bool) (backend : nat -> BackendCall -> Exc (list AirRecord))
    : World :=
  {| useAirtable := ua;
     profileStorage := ∅;
     matchStorage := ∅;
     applicationStorage := ∅;
     ticks := 0;
     outside := demo_outside backend |}.

(** A backend row whose list fields hold text that is not JSON. *)
Definition bad_lists_record : AirRecord :=
  {| rec_id := "recA1";
     rec_fields :=
       <["Title" := JStr "Rhodes"]>
       (<["Organization" := JStr "Rhodes Trust"]>
       (<["Tags" := JStr "{bad"]>
       (<["EligibleFields" := JStr "{bad"]>
       (<["EligibleLevels" := JStr "{bad"]> ∅)))) |}.

(** An answer of the backend whose only row has neither title nor
    organization. *)
Definition untitled_backend : nat -> BackendCall -> Exc (list AirRecord) :=
  fun _ _ => Ok [ {| rec_id := "recB7"; rec_fields := <["Amount" := JStr "500"]> ∅ |} ].

(** A cached profile and an update that supplies a phone number, clears the
    GPA and omits everything else. *)
Definition ada : StudentProfile :=
  {| sp_id := "recP1";
     sp_name := JStr "Ada";
     sp_email := JStr "ada@example.org";
     sp_phone := JUndefined;
     sp_location := JStr "Pune";
     sp_educationLevel := JStr "undergraduate";
     sp_fieldOfStudy := JStr "Mathematics";
     sp_gpa := JStr "3.9";
     sp_graduationYear := JStr "2026";
     sp_skills := strings ["proofs"; "ocaml"];
     sp_activities := JUndefined;
     sp_financialNeed := JUndefined;
     sp_summary := JUndefined;
     sp_education := JUndefined;
     sp_experience := JUndefined;
     sp_projects := JUndefined;
     sp_createdAt := JStr "2024-12-01T08:00:00.000Z";
     sp_updatedAt := JStr "2024-12-01T08:00:00.000Z" |}.

Definition phone_patch : PartialStudentProfile :=
  {| psp_name := None;
     psp_email := None;
     psp_phone := Some (Some "555-0100");
     psp_location := None;
     psp_educationLevel := None;
     psp_fieldOfStudy := None;
     psp_gpa := Some None;
     psp_graduationYear := None;
     psp_skills := None;
     psp_activities := None;
     psp_financialNeed := None;
     psp_summary := None;
     psp_education := None;
     psp_experience := None;
     psp_projects := None |}.

Definition world_with_ada (ua : bool) (backend : nat -> BackendCall -> Exc (list AirRecord))
    : World :=
  set_profileStorage (insert "recP1" ada) (demo_world ua backend).

Definition grace : InsertStudentProfile :=
  {| isp_name := "Grace";
     isp_email := "grace@example.org";
     isp_phone := None;
     isp_location := "Delhi";
     isp_educationLevel := Some "graduate";
     isp_fieldOfStudy := Some "Computer Science";
     isp_gpa := Some "3.8";
     isp_graduationYear := None;
     isp_skills := Some ["compilers"; "cobol"];
     isp_activities := None;
     isp_financialNeed := None;
     isp_summary := None;
     isp_education := None;
     isp_experience := None;
     isp_projects := None |}.

Definition turing_award : InsertScholarship :=
  {| isc_title := "Turing Scholarship";
     isc_organization := "Computing Society";
     isc_amount := "5000";
     isc_deadline := "2025-09-01";
     isc_description := "For students of computation.";
     isc_requirements := "An essay";
     isc_tags := ["computing"; "essay"];
     isc_type := "merit-based";
     isc_eligibilityGpa := Some "3.5";
     isc_eligibleFields := Some ["Computer Science"];
     isc_eligibleLevels := Some ["undergraduate"; "graduate"];
     isc_isActive := true |}.

(** A backend that stores what it is given: a create answers with the record
    as written, under the ID [recS1], and a find answers with the record that
    [createScholarship] wrote for [turing_award]. *)
Definition echo_backend : nat -> BackendCall -> Exc (list AirRecord) :=
  fun _ c =>
    match c with
    | BCreate _ fields => Ok [ {| rec_id := "recS1"; rec_fields := fields |} ]
    | BFind _ id =>
        Ok [ {| rec_id := id;
                rec_fields :=
                  create_scholarship_fields turing_award "2025-01-15T10:00:11.000Z"
                    stringify_ref |} ]
    | _ => Ok []
    end.

(** Requests for [POST /api/applications]: one without documents, one with a
    client-chosen status, one with a document that is not a PDF. *)
Definition empty_documents_request : ApplicationRequest :=
  {| req_scholarshipId := Some "fallback-1";
     req_profileId := Some "recP1";
     req_documents := Some [];
     req_status := None |}.

Definition approved_request : ApplicationRequest :=
  {| req_scholarshipId := Some "fallback-1";
     req_profileId := Some "recP1";
     req_documents := Some ["transcript.pdf"; "Essay.PDF"];
     req_status := Some "approved" |}.

(** A world without backend, with a clock that stands still, whose match
    store holds three matches of one profile, one of them already marked as
    applied. *)
Definition stored_match (id sid : string) (score : Z) (status : string) : ScholarshipMatch :=
  {| m_id := id;
     m_profileId := JStr "recP1";
     m_scholarshipId := JStr sid;
     m_matchScore := JNum score;
     m_aiReasoning := JStr placeholderReasoning;
     m_status := JStr status;
     m_createdAt := JStr "2025-01-14T09:00:00.000Z" |}.

Definition world_with_matches : World :=
  set_matchStorage
    (insert "recP1"
       [ stored_match "m1" "fallback-2" 71 "new";
         stored_match "m2" "fallback-5" 93 "applied";
         stored_match "m3" "fallback-1" 88 "new" ])
    {| useAirtable := false;
       profileStorage := ∅;
       matchStorage := ∅;
       applicationStorage := ∅;
       ticks := 0;
       outside :=
         {| uuidAt := uuidAt (demo_outside offline_backend);
            clockAt := fun _ => "2025-01-15T10:00:10.000Z";
            randomAt := randomAt (demo_outside offline_backend);
            airtableAt := offline_backend;
            JSON_parse := parse_ref;
            JSON_stringify := stringify_ref |} |}.

(** A backend that answers every find with a record of the ID asked for,
    carrying a name. *)
Definition directory_backend : nat -> BackendCall -> Exc (list AirRecord) :=
  fun _ c =>
    match c with
    | BFind _ id => Ok [ {| rec_id := id; rec_fields := <["Name" := JStr "Noor"]> ∅ |} ]
    | _ => Ok []
    end.

(** An update of a profile that does not exist, supplying only a name. *)
Definition name_patch : PartialStudentProfile :=
  {| psp_name := Some (Some "Lin");
     psp_email := None;
     psp_phone := None;
     psp_location := None;
     psp_educationLevel := None;
     psp_fieldOfStudy := None;
     psp_gpa := None;
     psp_graduationYear := None;
     psp_skills := None;
     psp_activities := None;
     psp_financialNeed := None;
     psp_summary := None;
     psp_education := None;
     psp_experience := None;
     psp_projects := None |}.

(** A backend that answers a select on the matches table with the record
    [createScholarshipMatch] wrote, and throws on everything else. *)
Definition written_match_backend : nat -> BackendCall -> Exc (list AirRecord) :=
  fun _ c =>
    match c with
    | BSelect _ (Some _) =>
        Ok [ {| rec_id := "recM1";
                rec_fields :=
                  create_match_fields "3b6c"
                    {| im_profileId := "recP9";
                       im_scholarshipId := "fallback-1";
                       im_matchScore := 77;
                       im_aiReasoning := Some placeholderReasoning;
                       im_status := "new" |}
                    "2025-01-15T10:00:12.000Z" |} ]
    | _ => Throw (BackendError "NOT_FOUND")
    end.

(** A request with one document that is not a PDF among PDFs. *)
Definition mixed_request : ApplicationRequest :=
  {| req_scholarshipId := Some "fallback-1";
     req_profileId := Some "recP1";
     req_documents := Some ["transcript.pdf"; "photo.png"];
     req_status := None |}.

(** A backend whose scholarships table holds an untitled row first and a
    complete row second, and which answers every find with the untitled
    row. *)
Definition untitled_row : AirRecord :=
  {| rec_id := "recB7"; rec_fields := <["Amount" := JStr "500"]> ∅ |}.

Definition complete_row : AirRecord :=
  {| rec_id := "recB8";
     rec_fields :=
       <["Title" := JStr "Rhodes"]> (<["Organization" := JStr "Rhodes Trust"]> ∅) |}.

Definition untitled_first_backend : nat -> BackendCall -> Exc (list AirRecord) :=
  fun _ c =>
    match c with
    | BSelect _ _ => Ok [untitled_row; complete_row]
    | BFind _ _ => Ok [untitled_row]
    | _ => Ok []
    end.

Definition complete_backend : nat -> BackendCall -> Exc (list AirRecord) :=
  fun _ c =>
    match c with
    | BSelect _ _ => Ok [complete_row; untitled_row]
    | _ => Ok []
    end.

(** A backend with 23 scholarship rows, and a destroy oracle that fails on
    every batch that contains the row [rec15]. *)
Definition many_rows : list AirRecord :=
  map (fun n => {| rec_id := "rec" +:+ pretty n; rec_fields := ∅ |}) (seq 1 23).

Definition many_rows_backend : nat -> BackendCall -> Exc (list AirRecord) :=
  fun _ c =>
    match c with
    | BSelect _ _ => Ok many_rows
    | _ => Ok []
    end.

Definition picky_destroy : nat -> list string -> Exc unit :=
  fun _ batch =>
    if existsb (String.eqb "rec15") batch then Throw (BackendError "INVALID_RECORDS")
    else Ok tt.

(** Search filters that agree on the type only. *)
Definition merit_filters : SearchFilters :=
  {| sf_type := Some "merit-based";
     sf_minAmount := None;
     sf_tags := None;
     sf_fieldOfStudy := None;
     sf_educationLevel := None |}.

(** A backend whose scholarship rows are a row without resume text followed
    by two rows with one. *)
Definition resume_row (id notes : string) : AirRecord :=
  {| rec_id := id;
     rec_fields := <["Title" := JStr "Resume"]> (<["Notes" := JStr notes]> ∅) |}.

Definition resumes_backend : nat -> BackendCall -> Exc (list AirRecord) :=
  fun _ c =>
    match c with
    | BSelect _ _ => Ok [resume_row "recR1" ""; resume_row "recR2" "Ada Lovelace, analyst";
                         resume_row "recR3" "older text"]
    | _ => Ok []
    end.

(** An amount of 500 rupees, sent as the number 500. *)
Definition five_hundred : Amount := {| amount_truthy := true; amount_text := "500" |}.

Definition essay_guidance : InsertApplicationGuidance :=
  {| ig_profileId := "p-1";
     ig_scholarshipId := "fallback-2";
     ig_essayTips := Some "Lead with the project";
     ig_checklist := None;
     ig_improvementSuggestions := Some "" |}.

Definition ada_user : InsertUser :=
  {| iu_username := "ada@example.org"; iu_password := "engine" |}.

Definition strong_match : InsertScholarshipMatch :=
  {| im_profileId := "recP9";
     im_scholarshipId := "fallback-1";
     im_matchScore := 77;
     im_aiReasoning := Some placeholderReasoning;
     im_status := "new" |}.

(** * Properties *)

(** ** Running the monad *)

Ltac run :=
  repeat (unfold bind, ret, throw, gets, modify, try_catch, nowISO, randomUUID,
            random_floor, airtable, json_parse, json_stringify, first_record;
          cbn [fst snd useAirtable profileStorage matchStorage applicationStorage
               ticks outside tick set_profileStorage set_matchStorage
               set_applicationStorage negb]).

Lemma same_stores_refl w : same_stores w w.
Proof. by repeat split. Qed.

Lemma same_stores_tick w : same_stores w (tick w).
Proof. by repeat split. Qed.

Lemma same_stores_trans w1 w2 w3 :
  same_stores w1 w2 -> same_stores w2 w3 -> same_stores w1 w3.
Proof.
  intros (?&?&?&?&?) (?&?&?&?&?). repeat split; congruence.
Qed.

Create HintDb stores.
#[local] Hint Resolve same_stores_refl same_stores_tick : stores.

Lemma list_field_run r lower upper dflt w :
  list_field r lower upper dflt w
  = (Ok (parse_or_pass_through (outside w) (jor (field r lower) (field r upper)) dflt), w).
Proof.
  unfold list_field, parse_or_pass_through. run.
  destruct (truthy _); [|done].
  destruct (jor _ _); try done.
  run. by destruct (JSON_parse _ _).
Qed.

Lemma or_now_run v w :
  exists t w', or_now v w = (Ok t, w') /\ same_stores w w'
               /\ t = (if truthy v then v else JStr (clockAt (outside w) (ticks w))).
Proof.
  unfold or_now. destruct (truthy v); run; eauto 6 with stores.
Qed.

Lemma getFallbackScholarships_run w :
  getFallbackScholarships w = (Ok (fallbackCatalog (clockAt (outside w) (ticks w))), tick w).
Proof. reflexivity. Qed.

(** The mapper returns on every record, touches no store, and computes the
    fields below. *)
Lemma mapToScholarship_run r w :
  exists s w', mapToScholarship r w = (Ok s, w') /\ same_stores w w'
    /\ sch_id s = rec_id r
    /\ sch_title s = mapped_title r
    /\ sch_organization s = mapped_organization r
    /\ sch_tags s
       = parse_or_pass_through (outside w) (jor (field r "tags") (field r "Tags")) (JArr [])
    /\ sch_eligibleFields s
       = parse_or_pass_through (outside w)
           (jor (field r "eligibleFields") (field r "EligibleFields")) JUndefined
    /\ sch_eligibleLevels s
       = parse_or_pass_through (outside w)
           (jor (field r "eligibleLevels") (field r "EligibleLevels")) JUndefined.
Proof.
  unfold mapToScholarship, bind. rewrite !list_field_run.
  destruct (or_now_run (jor (field r "CreatedAt") (field r "createdAt")) w)
    as (t & w' & -> & Hs & _).
  run. eexists _, w'. repeat split; try reflexivity; apply Hs.
Qed.

Lemma for_each_mapToScholarship records : forall w,
  exists l w', for_each mapToScholarship records w = (Ok l, w') /\ same_stores w w'
    /\ Forall2 (fun r s => sch_title s = mapped_title r
                           /\ sch_organization s = mapped_organization r) records l.
Proof.
  induction records as [|r records IH]; intros w; cbn [for_each].
  - exists [], w. run. auto with stores.
  - destruct (mapToScholarship_run r w) as (s & w1 & E & Hs & _ & Ht & Ho & _).
    destruct (IH w1) as (l & w2 & E' & Hs' & HF).
    unfold bind at 1. rewrite E. unfold bind at 1. rewrite E'. run.
    exists (s :: l), w2. repeat split; try apply (same_stores_trans _ _ _ Hs Hs').
    by constructor.
Qed.

Lemma looksValid_default s :
  sch_title s = JStr "Untitled Scholarship" -> looksValid s = false.
Proof. unfold looksValid, strict_ne_str. by intros ->. Qed.

Lemma fallbackCatalog_length now : length (fallbackCatalog now) = 6%nat.
Proof. reflexivity. Qed.

(** Whatever the backend answers, the listing returns, leaves the stores
    alone, and its result is the Fallback Catalog or a non-empty mapped
    list. *)
Lemma getAllScholarships_run w :
  exists l w', getAllScholarships w = (Ok l, w') /\ same_stores w w'
    /\ ((exists now, l = fallbackCatalog now)
        \/ (l <> [] /\ exists records,
              useAirtable w = true /\ scholarships_reply w = Ok records
              /\ records <> []
              /\ Forall2 (fun r s => sch_title s = mapped_title r
                                     /\ sch_organization s = mapped_organization r)
                         records l
              /\ existsb looksValid l = true
              /\ (forall r, head records = Some r -> hasProperData r = true))).
Proof.
  unfold getAllScholarships, scholarships_reply. unfold bind at 1, gets.
  destruct (useAirtable w) eqn:Hua; cbn [negb].
  2:{ rewrite getFallbackScholarships_run. eauto 8 with stores. }
  unfold try_catch, bind at 1, airtable.
  destruct (airtableAt _ _ _) as [records|e] eqn:Hreply.
  2:{ rewrite getFallbackScholarships_run.
      eexists _, _. split; [reflexivity|]. split; [|eauto].
      eapply same_stores_trans; eauto with stores. }
  assert (Hfb : forall w1, same_stores w w1 ->
            exists l w', getFallbackScholarships w1 = (Ok l, w') /\ same_stores w w'
                         /\ exists now, l = fallbackCatalog now).
  { intros w1 H1. rewrite getFallbackScholarships_run. eexists _, _.
    split; [reflexivity|]. split; [|eauto].
    eapply same_stores_trans; eauto with stores. }
  set (lacks := match records with [] => false | r :: _ => negb (hasProperData r) end).
  destruct lacks eqn:Hlacks.
  { destruct (Hfb (tick w)) as (l & w' & -> & ? & ?); eauto 8 with stores. }
  destruct (for_each_mapToScholarship records (tick w)) as (l & w1 & E & Hs & HF).
  unfold bind. rewrite E.
  assert (Hs1 : same_stores w w1) by (eapply same_stores_trans; eauto with stores).
  destruct (existsb looksValid l) eqn:Hvalid; cbn [negb andb].
  2:{ destruct (Nat.ltb 0 (length l));
      destruct (Hfb w1 Hs1) as (l' & w' & -> & ? & ?); eauto 8. }
  destruct l as [|s l]; [discriminate|]. cbn [length Nat.ltb Nat.leb].
  exists (s :: l), w1. split; [reflexivity|]. split; [done|]. right.
  split; [done|]. exists records. repeat split; try done.
  - intros ->. inversion HF.
  - intros r Hr. destruct records as [|r' ?]; [done|]. injection Hr as ->.
    subst lacks. by destruct (hasProperData r).
Qed.

(** C6. When no backend is configured, or the backend call throws, listing
    scholarships returns exactly the Fallback Catalog: the six entities
    [fallback-1] to [fallback-6], stamped with the time of the call; it is
    not the empty list. *)
Theorem getAllScholarships_unavailable (w : World) :
  useAirtable w = false \/ (exists e, scholarships_reply w = Throw e) ->
  exists now w',
    getAllScholarships w = (Ok (fallbackCatalog now), w')
    /\ same_stores w w'
    /\ length (fallbackCatalog now) = 6%nat
    /\ map sch_id (fallbackCatalog now)
       = ["fallback-1"; "fallback-2"; "fallback-3"; "fallback-4"; "fallback-5"; "fallback-6"]
    /\ fallbackCatalog now <> [].
Proof.
  intros H. unfold getAllScholarships, scholarships_reply in *.
  unfold bind at 1, gets.
  destruct (useAirtable w) eqn:Hua; cbn [negb].
  - destruct H as [H|[e He]]; [discriminate|].
    unfold try_catch, bind at 1, airtable. rewrite He.
    rewrite getFallbackScholarships_run. eexists _, _.
    split; [reflexivity|]. repeat split; try done.
  - rewrite getFallbackScholarships_run. eexists _, _.
    split; [reflexivity|]. repeat split; try done.
Qed.

Lemma getAllScholarships_unavailable_witness :
  exists now w',
    getAllScholarships (demo_world true offline_backend) = (Ok (fallbackCatalog now), w')
    /\ same_stores (demo_world true offline_backend) w'
    /\ length (fallbackCatalog now) = 6%nat
    /\ map sch_id (fallbackCatalog now)
       = ["fallback-1"; "fallback-2"; "fallback-3"; "fallback-4"; "fallback-5"; "fallback-6"]
    /\ fallbackCatalog now <> [].
Proof.
  apply (getAllScholarships_unavailable (demo_world true offline_backend)).
  right. eexists. reflexivity.
Defined.

(** C8. In every mode and for every answer of the backend, listing
    scholarships returns a list with at least one element; when no backend is
    configured, when the call throws, and when the backend answers with no
    record, with records lacking title and organization under both spellings,
    or with records that all map to the default title and organization, that
    list is the Fallback Catalog. *)
Theorem getAllScholarships_nonempty (w : World) :
  exists l w',
    getAllScholarships w = (Ok l, w')
    /\ l <> []
    /\ (useAirtable w = false
        \/ (exists e, scholarships_reply w = Throw e)
        \/ (exists records, scholarships_reply w = Ok records
                            /\ substitutes_fallback records)
        -> exists now, l = fallbackCatalog now /\ length l = 6%nat).
Proof.
  destruct (getAllScholarships_run w) as (l & w' & E & _ & H).
  exists l, w'. split; [done|].
  destruct H as [[now ->]|(Hne & records & Hua & Hr & Hrec & HF & Hvalid & Hfirst)].
  { split; [done|]. intros _. by exists now. }
  split; [done|]. intros [Hoff|[[e He]|(records' & Hr' & Hsub)]]; exfalso.
  - congruence.
  - congruence.
  - assert (records' = records) as -> by congruence.
    destruct Hsub as [->|[Hlack|Hdef]]; [done| |].
    + destruct records as [|r ?]; [done|].
      apply Forall_cons in Hlack as [Hr0 _].
      specialize (Hfirst r eq_refl). congruence.
    + apply existsb_exists in Hvalid as (s & Hin & Hs).
      apply list_elem_of_In, list_elem_of_lookup in Hin as [i Hi].
      destruct (Forall2_lookup_r _ _ _ _ _ HF Hi) as (r & Hri & Ht & _).
      eapply Forall_lookup_1 in Hdef as [Hd _]; [|exact Hri].
      rewrite (looksValid_default s) in Hs; [done|congruence].
Qed.

Lemma getAllScholarships_nonempty_witness :
  exists l w',
    getAllScholarships (demo_world true untitled_backend) = (Ok l, w')
    /\ l <> []
    /\ exists now, l = fallbackCatalog now /\ length l = 6%nat.
Proof.
  destruct (getAllScholarships_nonempty (demo_world true untitled_backend))
    as (l & w' & E & Hne & H).
  exists l, w'. split; [exact E|]. split; [exact Hne|].
  apply H. right. right. eexists. split; [reflexivity|].
  right. left. repeat constructor.
Defined.

(** C4 (amended). On every record the scholarship mapper returns without
    throwing and touches no store.  Each list-typed field is a native list
    passed through or a string JSON-parsed; a missing field, a value of
    another type and a string that fails to parse give the empty list for
    [tags] and [undefined] for [eligibleFields] and [eligibleLevels]. *)
Theorem mapToScholarship_list_fields (r : AirRecord) (w : World) :
  exists s w',
    mapToScholarship r w = (Ok s, w')
    /\ same_stores w w'
    /\ sch_tags s
       = parse_or_pass_through (outside w) (jor (field r "tags") (field r "Tags")) (JArr [])
    /\ sch_eligibleFields s
       = parse_or_pass_through (outside w)
           (jor (field r "eligibleFields") (field r "EligibleFields")) JUndefined
    /\ sch_eligibleLevels s
       = parse_or_pass_through (outside w)
           (jor (field r "eligibleLevels") (field r "EligibleLevels")) JUndefined.
Proof.
  destruct (mapToScholarship_run r w) as (s & w' & E & Hs & _ & _ & _ & Ht & Hf & Hl).
  by exists s, w'.
Qed.

(** C4 as stated fails: a string that does not parse maps [eligibleFields]
    and [eligibleLevels] to [undefined], not to the empty list. *)
Lemma mapToScholarship_parse_failure_not_empty_list :
  JSON_parse (outside (demo_world true offline_backend)) "{bad" = Throw SyntaxError
  /\ exists s,
       fst (mapToScholarship bad_lists_record (demo_world true offline_backend)) = Ok s
       /\ sch_tags s = JArr []
       /\ sch_eligibleFields s = JUndefined
       /\ sch_eligibleLevels s = JUndefined
       /\ sch_eligibleFields s <> JArr [].
Proof.
  split; [reflexivity|]. eexists. split; [vm_compute; reflexivity|].
  cbn. repeat split. discriminate.
Qed.

(** ** Frames: what a method may change *)

Section Frames.
Context (R : World -> World -> Prop).
Hypothesis R_refl : forall w, R w w.
Hypothesis R_trans : forall w1 w2 w3, R w1 w2 -> R w2 w3 -> R w1 w3.
Hypothesis R_tick : forall w, R w (tick w).

Lemma preserves_ret {A} (a : A) : preserves R (ret a).
Proof. intros w r w' [= <- <-]. apply R_refl. Qed.

Lemma preserves_throw {A} e : preserves R (@throw A e).
Proof. intros w r w' [= <- <-]. apply R_refl. Qed.

Lemma preserves_gets {A} (f : World -> A) : preserves R (gets f).
Proof. intros w r w' [= <- <-]. apply R_refl. Qed.

Lemma preserves_bind {A B} (m : M A) (k : A -> M B) :
  preserves R m -> (forall a, preserves R (k a)) -> preserves R (bind m k).
Proof.
  intros Hm Hk w r w'. unfold bind.
  destruct (m w) as [[a|e] w1] eqn:E; intros H.
  - eapply R_trans; [eapply Hm, E | eapply Hk, H].
  - injection H as <- <-. eapply Hm, E.
Qed.

Lemma preserves_try_catch {A} (m : M A) (h : JsError -> M A) :
  preserves R m -> (forall e, preserves R (h e)) -> preserves R (try_catch m h).
Proof.
  intros Hm Hh w r w'. unfold try_catch.
  destruct (m w) as [[a|e] w1] eqn:E; intros H.
  - injection H as <- <-. eapply Hm, E.
  - eapply R_trans; [eapply Hm, E | eapply Hh, H].
Qed.

Lemma preserves_nowISO : preserves R nowISO.
Proof. intros w r w' [= <- <-]. apply R_tick. Qed.

Lemma preserves_randomUUID : preserves R randomUUID.
Proof. intros w r w' [= <- <-]. apply R_tick. Qed.

Lemma preserves_random_floor k : preserves R (random_floor k).
Proof. intros w r w' [= <- <-]. apply R_tick. Qed.

Lemma preserves_airtable c : preserves R (airtable c).
Proof. intros w r w' [= <- <-]. apply R_tick. Qed.

Lemma preserves_json_parse s : preserves R (json_parse s).
Proof. intros w r w' [= <- <-]. apply R_refl. Qed.

Lemma preserves_first_record l : preserves R (first_record l).
Proof. destruct l; [apply preserves_throw | apply preserves_ret]. Qed.

Lemma preserves_for_each {A B} (f : A -> M B) l :
  (forall a, preserves R (f a)) -> preserves R (for_each f l).
Proof.
  intros Hf. induction l as [|x l IH]; cbn [for_each].
  - apply preserves_ret.
  - apply preserves_bind; [apply Hf|]. intros y.
    apply preserves_bind; [apply IH|]. intros ys. apply preserves_ret.
Qed.
End Frames.

Lemma same_but_profiles_refl w : same_but_profiles w w.
Proof. by repeat split. Qed.

Lemma same_but_profiles_trans w1 w2 w3 :
  same_but_profiles w1 w2 -> same_but_profiles w2 w3 -> same_but_profiles w1 w3.
Proof. intros (?&?&?&?) (?&?&?&?). repeat split; congruence. Qed.

Lemma same_but_profiles_tick w : same_but_profiles w (tick w).
Proof. by repeat split. Qed.

Lemma same_stores_weaken w w' : same_stores w w' -> same_but_profiles w w'.
Proof. intros (?&?&?&?&?). by repeat split. Qed.

Lemma preserves_weaken {A} (R R' : World -> World -> Prop) (m : M A) :
  (forall w w', R w w' -> R' w w') -> preserves R m -> preserves R' m.
Proof. intros HR Hm w r w' H. eapply HR, Hm, H. Qed.

Lemma preserves_set_profileStorage f :
  preserves same_but_profiles (modify (set_profileStorage f)).
Proof. intros w r w' [= <- <-]. by repeat split. Qed.

(** Unfold one layer of a method and discharge the frame obligations. *)
Ltac frame_step R_refl R_trans R_tick :=
  first
    [ apply (preserves_bind _ R_trans)
    | apply (preserves_try_catch _ R_trans)
    | apply (preserves_ret _ R_refl)
    | apply (preserves_throw _ R_refl)
    | apply (preserves_gets _ R_refl)
    | apply (preserves_nowISO _ R_tick)
    | apply (preserves_randomUUID _ R_tick)
    | apply (preserves_random_floor _ R_tick)
    | apply (preserves_airtable _ R_tick)
    | apply (preserves_json_parse _ R_refl)
    | apply (preserves_first_record _ R_refl)
    | apply (preserves_for_each _ R_refl R_trans)
    | match goal with
      | |- forall _, preserves _ _ => intro
      | |- preserves _ (match ?x with _ => _ end) => destruct x
      | |- preserves _ (if ?b then _ else _) => destruct b
      end ].

Ltac frame_stores :=
  repeat frame_step same_stores_refl same_stores_trans same_stores_tick.

Lemma mapToStudentProfile_frame r : preserves same_stores (mapToStudentProfile r).
Proof. unfold mapToStudentProfile, parse_skills, or_now. frame_stores. Qed.

Lemma getStudentProfileById_frame pid :
  preserves same_but_profiles (getStudentProfileById pid).
Proof.
  unfold getStudentProfileById.
  repeat first
    [ apply (preserves_weaken _ _ _ same_stores_weaken), mapToStudentProfile_frame
    | apply preserves_set_profileStorage
    | frame_step same_but_profiles_refl same_but_profiles_trans same_but_profiles_tick ].
Qed.

Lemma mapToScholarship_frame r : preserves same_stores (mapToScholarship r).
Proof. unfold mapToScholarship, list_field, or_now. frame_stores. Qed.

Lemma getFallbackScholarships_frame : preserves same_stores getFallbackScholarships.
Proof. unfold getFallbackScholarships. frame_stores. Qed.

Lemma getScholarshipById_frame id : preserves same_stores (getScholarshipById id).
Proof.
  unfold getScholarshipById.
  repeat first
    [ apply getFallbackScholarships_frame
    | apply mapToScholarship_frame
    | frame_step same_stores_refl same_stores_trans same_stores_tick ].
Qed.

(** ** Profiles: update and create *)

Lemma updateStudentProfile_run id patch w :
  let now := clockAt (outside w) (ticks w) in
  let updated :=
    merge_profile (default (blank_profile id now) (profileStorage w !! id)) patch now in
  exists w',
    updateStudentProfile id patch w = (Ok updated, w')
    /\ profileStorage w' = <[id := updated]> (profileStorage w)
    /\ same_but_profiles w w'.
Proof.
  intros now updated. unfold updateStudentProfile. run.
  destruct (useAirtable w) eqn:Hua; cbn iota; run;
    [destruct (airtableAt (outside w) (S (ticks w)) _)|];
    eexists; (split; [reflexivity|]); by repeat split.
Qed.

Lemma merged_spread {A} (inj : A -> JsValue) old (supplied : option A) :
  merged inj old (spread inj old supplied) supplied.
Proof. by destruct supplied. Qed.

(** C7 (amended). A profile update with a partial payload returns, in every
    mode and whatever the backend does, and caches the merged entity: every
    field the payload supplies takes the supplied value, every field the
    payload omits keeps the value that the entity the merge starts from has,
    and besides the supplied fields only [updatedAt] changes ([id] and
    [createdAt] are kept).  The merge starts from the cached profile.  For a
    profile that is not in the cache, whether or not the backend holds it,
    the merge starts from an empty entity instead: the omitted name, email
    and location come out as the empty text, every other omitted field as
    undefined, and [createdAt] as the time of the update. *)
Theorem updateStudentProfile_partial (w : World) (id : string)
    (patch : PartialStudentProfile) :
  exists updated w',
    updateStudentProfile id patch w = (Ok updated, w')
    /\ profileStorage w' !! id = Some updated
    /\ (forall other, other <> id -> profileStorage w' !! other = profileStorage w !! other)
    /\ merged optS (sp_name (existing_profile w id)) (sp_name updated) (psp_name patch)
    /\ merged optS (sp_email (existing_profile w id)) (sp_email updated) (psp_email patch)
    /\ merged optS (sp_phone (existing_profile w id)) (sp_phone updated) (psp_phone patch)
    /\ merged optS (sp_location (existing_profile w id)) (sp_location updated)
         (psp_location patch)
    /\ merged optS (sp_educationLevel (existing_profile w id)) (sp_educationLevel updated)
         (psp_educationLevel patch)
    /\ merged optS (sp_fieldOfStudy (existing_profile w id)) (sp_fieldOfStudy updated)
         (psp_fieldOfStudy patch)
    /\ merged optS (sp_gpa (existing_profile w id)) (sp_gpa updated) (psp_gpa patch)
    /\ merged optS (sp_graduationYear (existing_profile w id)) (sp_graduationYear updated)
         (psp_graduationYear patch)
    /\ merged optL (sp_skills (existing_profile w id)) (sp_skills updated) (psp_skills patch)
    /\ merged optS (sp_activities (existing_profile w id)) (sp_activities updated)
         (psp_activities patch)
    /\ merged optS (sp_financialNeed (existing_profile w id)) (sp_financialNeed updated)
         (psp_financialNeed patch)
    /\ merged optS (sp_summary (existing_profile w id)) (sp_summary updated)
         (psp_summary patch)
    /\ merged optS (sp_education (existing_profile w id)) (sp_education updated)
         (psp_education patch)
    /\ merged optS (sp_experience (existing_profile w id)) (sp_experience updated)
         (psp_experience patch)
    /\ merged optS (sp_projects (existing_profile w id)) (sp_projects updated)
         (psp_projects patch)
    /\ sp_id updated = sp_id (existing_profile w id)
    /\ sp_createdAt updated = sp_createdAt (existing_profile w id)
    /\ sp_updatedAt updated = JStr (clockAt (outside w) (ticks w))
    /\ (forall old, profileStorage w !! id = Some old -> existing_profile w id = old)
    /\ (profileStorage w !! id = None ->
        existing_profile w id = blank_profile id (clockAt (outside w) (ticks w)))
    /\ same_but_profiles w w'.
Proof.
  destruct (updateStudentProfile_run id patch w) as (w' & E & Hcache & Hframe).
  fold (existing_profile w id) in E, Hcache.
  eexists _, w'. split; [exact E|]. rewrite Hcache.
  split; [apply lookup_insert_eq|].
  split; [intros other Hne; by apply lookup_insert_ne|].
  cbn [merge_profile sp_name sp_email sp_phone sp_location sp_educationLevel
       sp_fieldOfStudy sp_gpa sp_graduationYear sp_skills sp_activities
       sp_financialNeed sp_summary sp_education sp_experience sp_projects
       sp_id sp_createdAt sp_updatedAt].
  repeat (split; [first [apply merged_spread | reflexivity]|]).
  split; [intros old Hold; unfold existing_profile; by rewrite Hold|].
  split; [intros Hnone; unfold existing_profile; by rewrite Hnone|exact Hframe].
Qed.

Lemma updateStudentProfile_partial_witness :
  exists updated w',
    updateStudentProfile "recP1" phone_patch (world_with_ada true offline_backend)
    = (Ok updated, w')
    /\ sp_name updated = JStr "Ada"
    /\ sp_phone updated = JStr "555-0100"
    /\ sp_gpa updated = JUndefined
    /\ sp_createdAt updated = JStr "2024-12-01T08:00:00.000Z"
    /\ profileStorage w' !! "recP1" = Some updated.
Proof.
  destruct (updateStudentProfile_partial (world_with_ada true offline_backend)
              "recP1" phone_patch)
    as (u & w' & E & Hcached & _ & Hn & _ & Hp & _ & _ & _ & Hg & _ & _ & _ & _ & _ & _
        & _ & _ & _ & Hc & _ & Hex & _).
  rewrite (Hex ada eq_refl) in Hn, Hp, Hg, Hc.
  exists u, w'. repeat split; assumption.
Defined.

(** C7 as stated fails for a profile that only the backend holds: a lookup
    returns it with its name, but an update that omits the name returns it,
    and caches it, with the empty name. *)
Lemma updateStudentProfile_forgets_backend_copy :
  (exists p,
     fst (getStudentProfileById "recN1" (demo_world true directory_backend)) = Ok (Some p)
     /\ sp_name p = JStr "Noor")
  /\ psp_name phone_patch = None
  /\ exists updated w',
       updateStudentProfile "recN1" phone_patch (demo_world true directory_backend)
       = (Ok updated, w')
       /\ sp_name updated = JStr ""
       /\ getStudentProfileById "recN1" w' = (Ok (Some updated), w').
Proof.
  split; [|split; [reflexivity|]].
  - exists (match fst (getStudentProfileById "recN1" (demo_world true directory_backend)) with
            | Ok (Some p) => p
            | _ => ada
            end).
    split; vm_compute; reflexivity.
  - destruct (updateStudentProfile_run "recN1" phone_patch
                (demo_world true directory_backend)) as (w' & E & Hcache & _).
    eexists _, w'. split; [exact E|]. split; [reflexivity|].
    unfold getStudentProfileById. run. by rewrite Hcache, lookup_insert_eq.
Qed.

(** A profile that is not cached is merged onto the blank profile. *)
Lemma updateStudentProfile_uncached w id patch :
  profileStorage w !! id = None ->
  exists w',
    updateStudentProfile id patch w
    = (Ok (merge_profile (blank_profile id (clockAt (outside w) (ticks w))) patch
             (clockAt (outside w) (ticks w))), w').
Proof.
  intros Hnone. destruct (updateStudentProfile_run id patch w) as (w' & E & _).
  rewrite Hnone in E. by exists w'.
Qed.

Lemma createStudentProfile_run profile w :
  let now := clockAt (outside w) (ticks w) in
  let id :=
    if useAirtable w then
      match create_profile_reply w profile with
      | Ok (record :: _) => rec_id record
      | _ => uuidAt (outside w) (S (S (ticks w)))
      end
    else uuidAt (outside w) (S (ticks w)) in
  exists w',
    createStudentProfile profile w = (Ok (profile_entity id profile now), w')
    /\ profileStorage w' = <[id := profile_entity id profile now]> (profileStorage w)
    /\ same_but_profiles w w'.
Proof.
  intros now id. subst now id. unfold createStudentProfile, create_profile_reply. run.
  destruct (useAirtable w) eqn:Hua; cbn iota; run.
  - destruct (airtableAt (outside w) (S (ticks w)) _) as [[|record rest]|err];
      run; eexists; (split; [reflexivity|]); by repeat split.
  - eexists; (split; [reflexivity|]); by repeat split.
Qed.

Lemma mapToScholarship_eq r w :
  mapToScholarship r w
  = (Ok (mapped (outside w) (clockAt (outside w) (ticks w)) r),
     if truthy (jor (field r "CreatedAt") (field r "createdAt")) then w else tick w).
Proof.
  unfold mapToScholarship, bind. rewrite !list_field_run. unfold or_now, mapped.
  destruct (truthy (jor (field r "CreatedAt") (field r "createdAt"))); reflexivity.
Qed.

Lemma createScholarship_run scholarship w :
  createScholarship scholarship w
  = if useAirtable w then
      match create_scholarship_reply w scholarship with
      | Ok (record :: _) => mapToScholarship record (tick (tick (tick w)))
      | Ok [] => (Throw TypeError, tick (tick (tick w)))
      | Throw err => (Throw err, tick (tick (tick w)))
      end
    else (Ok (local_scholarship (uuidAt (outside w) (ticks w)) scholarship
                (clockAt (outside w) (S (ticks w)))), tick (tick w)).
Proof.
  unfold createScholarship, create_scholarship_reply. run.
  destruct (useAirtable w) eqn:Hua; cbn iota; run; [|reflexivity].
  destruct (airtableAt (outside w) (S (S (ticks w))) _) as [[|record rest]|err];
    run; try reflexivity.
  by destruct (mapToScholarship record _) as [[?|?] ?].
Qed.

(** C3 (amended). Creating a profile never fails outward: in every mode and
    for every answer of the backend it returns the entity built from the
    input and caches it, with the ID of the backend record when the backend
    stored it and otherwise with the UUID drawn in this call, and with the
    time of this call as [createdAt] and [updatedAt].  Creating a scholarship
    returns a locally built entity (fresh UUID, current time) when no backend
    is configured and the mapped backend record when the backend stored it;
    when the backend call throws, the exception is rethrown to the caller. *)
Theorem create_outcomes (w : World) (profile : InsertStudentProfile)
    (scholarship : InsertScholarship) :
  (exists e w',
     createStudentProfile profile w = (Ok e, w')
     /\ e = profile_entity (sp_id e) profile (clockAt (outside w) (ticks w))
     /\ profileStorage w' !! sp_id e = Some e
     /\ (useAirtable w = false -> sp_id e = uuidAt (outside w) (S (ticks w)))
     /\ (useAirtable w = true ->
         (exists err, create_profile_reply w profile = Throw err) ->
         sp_id e = uuidAt (outside w) (S (S (ticks w))))
     /\ (useAirtable w = true ->
         forall record rest, create_profile_reply w profile = Ok (record :: rest) ->
         sp_id e = rec_id record))
  /\ (useAirtable w = false ->
      exists w',
        createScholarship scholarship w
        = (Ok (local_scholarship (uuidAt (outside w) (ticks w)) scholarship
                 (clockAt (outside w) (S (ticks w)))), w')
        /\ same_stores w w')
  /\ (useAirtable w = true ->
      forall record rest, create_scholarship_reply w scholarship = Ok (record :: rest) ->
      exists w',
        createScholarship scholarship w
        = (Ok (mapped (outside w) (clockAt (outside w) (S (S (S (ticks w))))) record), w')
        /\ same_stores w w')
  /\ (useAirtable w = true ->
      forall err, create_scholarship_reply w scholarship = Throw err ->
      exists w', createScholarship scholarship w = (Throw err, w') /\ same_stores w w').
Proof.
  split; [|split; [|split]].
  - destruct (createStudentProfile_run profile w) as (w' & E & Hcache & _).
    eexists _, w'. split; [exact E|]. cbn [sp_id profile_entity].
    split; [reflexivity|]. split; [rewrite Hcache; apply lookup_insert_eq|].
    split; [by intros ->|]. split.
    + intros -> [err ->]. reflexivity.
    + intros -> record rest ->. reflexivity.
  - intros Hua. rewrite createScholarship_run, Hua. eexists. split; [reflexivity|].
    by repeat split.
  - intros Hua record rest Hr. rewrite createScholarship_run, Hua, Hr.
    rewrite mapToScholarship_eq. eexists. split; [reflexivity|].
    destruct (truthy _); by repeat split.
  - intros Hua err Hr. rewrite createScholarship_run, Hua, Hr.
    eexists. split; [reflexivity|]. by repeat split.
Qed.

Lemma create_outcomes_witness :
  (exists e w',
     createStudentProfile grace (demo_world true offline_backend) = (Ok e, w')
     /\ sp_name e = JStr "Grace"
     /\ sp_id e = "7c9e6679-7425-40de-944b-e07fc1f91002"
     /\ profileStorage w' !! sp_id e = Some e)
  /\ exists w',
       createScholarship turing_award (demo_world true offline_backend)
       = (Throw (BackendError "connect ECONNREFUSED"), w').
Proof.
  destruct (create_outcomes (demo_world true offline_backend) grace turing_award)
    as ((e & w' & E & He & Hc & _ & Hid & _) & _ & _ & Hthrow).
  split.
  - exists e, w'. split; [exact E|]. split; [rewrite He; reflexivity|].
    split; [|exact Hc]. rewrite Hid; [reflexivity|reflexivity|eexists; reflexivity].
  - destruct (Hthrow eq_refl (BackendError "connect ECONNREFUSED") eq_refl) as (w2 & E2 & _).
    exists w2. exact E2.
Defined.

(** C3 as stated fails: with a backend configured and the create call
    throwing, [createScholarship] throws instead of returning an entity. *)
Lemma createScholarship_rethrows :
  fst (createScholarship turing_award (demo_world true offline_backend))
  = Throw (BackendError "connect ECONNREFUSED").
Proof. reflexivity. Qed.

(** ** Scholarships: create, then fetch *)

Lemma truthy_JStr s : s <> "" -> truthy (JStr s) = true.
Proof. intros H. cbn. by destruct (String.eqb_spec s ""). Qed.

Lemma jor_JStr s v : s <> "" -> jor (JStr s) v = JStr s.
Proof. intros H. unfold jor. by rewrite truthy_JStr. Qed.

Lemma parse_roundtrip o l dflt :
  roundtrips o l ->
  parse_or_pass_through o (JStr (JSON_stringify o (strings l))) dflt = strings l.
Proof.
  intros [Hne Hp]. unfold parse_or_pass_through. by rewrite truthy_JStr, Hp.
Qed.

(** Reading back a record that holds exactly the fields [createScholarship]
    wrote. *)
Lemma mapped_created o now now' rid i :
  no_default_substituted i ->
  roundtrips o (isc_tags i) ->
  roundtrips o (default [] (isc_eligibleFields i)) ->
  roundtrips o (default [] (isc_eligibleLevels i)) ->
  agrees (mapped o now'
            {| rec_id := rid;
               rec_fields := create_scholarship_fields i now (JSON_stringify o) |}) i.
Proof.
  intros (Ht & _ & Ho & Ha & Hd & Hde & Hr & Hty & Hg & [fs Hfs] & [ls Hls] & Hact) Rt Rf Rl.
  rewrite Hfs in Rf. rewrite Hls in Rl. cbn [default] in Rf, Rl.
  unfold agrees, mapped, mapped_title, mapped_organization, field,
    create_scholarship_fields. cbn [rec_fields rec_id sch_title sch_organization
    sch_amount sch_deadline sch_description sch_requirements sch_tags sch_type
    sch_eligibilityGpa sch_eligibleFields sch_eligibleLevels sch_isActive].
  rewrite Hfs, Hls. cbn [optL].
  repeat (rewrite lookup_insert_eq || (rewrite lookup_insert_ne by discriminate)).
  rewrite !lookup_empty. cbn [from_option]. unfold id in *.
  rewrite !jor_JStr by done.
  change (jor JUndefined ?x) with x.
  change (jor (strings ?l) ?x) with (strings l).
  rewrite !parse_roundtrip by done.
  repeat split; try done.
  destruct (isc_eligibilityGpa i) as [g|]; cbn [optS]; [|reflexivity].
  by rewrite !jor_JStr by congruence.
Qed.

Lemma find_by_id_not_fallback id now :
  startsWith id "fallback-" = false -> find_by_id id (fallbackCatalog now) = None.
Proof.
  intros H. unfold find_by_id, fallbackCatalog, fallback. cbn [List.find sch_id].
  repeat match goal with
         | |- context [String.eqb ?a id] =>
             destruct (String.eqb_spec a id) as [<-|_]; [discriminate H|]
         end.
  reflexivity.
Qed.

Lemma getScholarshipById_found w rid record :
  useAirtable w = true ->
  startsWith rid "fallback-" = false ->
  airtableAt (outside w) (ticks w) (BFind tables.scholarships rid) = Ok [record] ->
  strict_eq_str (mapped_title record) "Untitled Scholarship" = false ->
  exists w',
    getScholarshipById (JStr rid) w
    = (Ok (Some (mapped (outside w) (clockAt (outside w) (S (ticks w))) record)), w').
Proof.
  intros Hua Hfb Hfind Htitle. unfold getScholarshipById. rewrite Hfb. run.
  rewrite Hua. cbn iota. run. rewrite Hfind. rewrite mapToScholarship_eq.
  cbn [outside ticks tick sch_title mapped]. rewrite Htitle.
  destruct (truthy _); eexists; reflexivity.
Qed.

(** C5 (amended). With a backend configured that stores the record as
    written and answers a later find of its ID with it, and JSON functions
    that give the three lists back, creating a scholarship from an input on
    which no default is substituted and then fetching it by the returned ID
    yields an entity equal to the input on all input fields.  With no backend
    configured the created scholarship is returned but stored nowhere, and
    fetching it by the returned ID yields not-found. *)
Theorem createScholarship_then_fetch (w : World) (i : InsertScholarship) (rid : string) :
  (useAirtable w = true ->
   no_default_substituted i ->
   roundtrips (outside w) (isc_tags i) ->
   roundtrips (outside w) (default [] (isc_eligibleFields i)) ->
   roundtrips (outside w) (default [] (isc_eligibleLevels i)) ->
   startsWith rid "fallback-" = false ->
   let record :=
     {| rec_id := rid;
        rec_fields :=
          create_scholarship_fields i (clockAt (outside w) (S (ticks w)))
            (JSON_stringify (outside w)) |} in
   create_scholarship_reply w i = Ok [record] ->
   (forall t, (ticks w < t)%nat ->
              airtableAt (outside w) t (BFind tables.scholarships rid) = Ok [record]) ->
   exists s1 w1 s2 w2,
     createScholarship i w = (Ok s1, w1)
     /\ sch_id s1 = rid
     /\ agrees s1 i
     /\ getScholarshipById (JStr (sch_id s1)) w1 = (Ok (Some s2), w2)
     /\ sch_id s2 = sch_id s1
     /\ agrees s2 i)
  /\ (useAirtable w = false ->
      startsWith (uuidAt (outside w) (ticks w)) "fallback-" = false ->
      exists s1 w1 w2,
        createScholarship i w = (Ok s1, w1)
        /\ agrees s1 i
        /\ same_stores w w1
        /\ getScholarshipById (JStr (sch_id s1)) w1 = (Ok None, w2)).
Proof.
  split.
  - intros Hua Hnd Rt Rf Rl Hfb record Hcreate Hfind.
    pose proof (mapped_created (outside w) (clockAt (outside w) (S (ticks w)))) as Hag.
    rewrite createScholarship_run, Hua, Hcreate, mapToScholarship_eq.
    set (w1 := if truthy _ then _ else _).
    assert (Hw1 : useAirtable w1 = true /\ outside w1 = outside w /\ (ticks w < ticks w1)%nat).
    { subst w1. destruct (truthy _); cbn; repeat split; try done; lia. }
    destruct Hw1 as (Hua1 & Ho1 & Ht1).
    assert (Htitle : strict_eq_str (mapped_title record) "Untitled Scholarship" = false).
    { destruct (Hag (clockAt (outside w) (S (ticks w))) rid i Hnd Rt Rf Rl) as (Ht & _).
      cbn [mapped sch_title] in Ht. fold record in Ht. rewrite Ht. cbn.
      pose proof Hnd as (_ & Hne & _).
      by destruct (String.eqb_spec (isc_title i) "Untitled Scholarship"). }
    destruct (getScholarshipById_found w1 rid record Hua1 Hfb) as (w2 & E2).
    { rewrite Ho1. by apply Hfind. }
    { exact Htitle. }
    eexists _, w1, _, w2. split; [reflexivity|].
    split; [reflexivity|]. split; [apply Hag; done|].
    split; [exact E2|]. split; [reflexivity|].
    rewrite Ho1. apply Hag; done.
  - intros Hua Hfb. rewrite createScholarship_run, Hua.
    eexists _, _, _. split; [reflexivity|].
    split; [by repeat split|]. split; [by repeat split|].
    unfold getScholarshipById. cbn [sch_id local_scholarship]. rewrite Hfb. run.
    rewrite Hua. cbn iota. unfold getFallbackScholarships. run.
    by rewrite find_by_id_not_fallback.
Qed.

Lemma roundtrips_demo_tags :
  roundtrips (demo_outside echo_backend) ["computing"; "essay"]
  /\ roundtrips (demo_outside echo_backend) ["Computer Science"]
  /\ roundtrips (demo_outside echo_backend) ["undergraduate"; "graduate"].
Proof. repeat split; try discriminate; reflexivity. Qed.

Lemma createScholarship_then_fetch_witness :
  (exists s1 w1 s2 w2,
     createScholarship turing_award (demo_world true echo_backend) = (Ok s1, w1)
     /\ sch_id s1 = "recS1"
     /\ agrees s1 turing_award
     /\ getScholarshipById (JStr (sch_id s1)) w1 = (Ok (Some s2), w2)
     /\ sch_id s2 = sch_id s1
     /\ agrees s2 turing_award)
  /\ exists s1 w1 w2,
       createScholarship turing_award (demo_world false offline_backend) = (Ok s1, w1)
       /\ agrees s1 turing_award
       /\ same_stores (demo_world false offline_backend) w1
       /\ getScholarshipById (JStr (sch_id s1)) w1 = (Ok None, w2).
Proof.
  split.
  - apply (createScholarship_then_fetch (demo_world true echo_backend) turing_award "recS1").
    + reflexivity.
    + repeat split; try discriminate; eexists; reflexivity.
    + apply roundtrips_demo_tags.
    + apply roundtrips_demo_tags.
    + apply roundtrips_demo_tags.
    + reflexivity.
    + reflexivity.
    + intros t _. reflexivity.
  - apply (createScholarship_then_fetch (demo_world false offline_backend) turing_award "").
    + reflexivity.
    + reflexivity.
Defined.

(** C5 as stated fails in Uninitialized mode: the scholarship just created is
    not found under the ID that [createScholarship] returned. *)
Lemma createScholarship_not_stored_uninitialized :
  exists s1 w1,
    createScholarship turing_award (demo_world false offline_backend) = (Ok s1, w1)
    /\ sch_id s1 = "7c9e6679-7425-40de-944b-e07fc1f91000"
    /\ fst (getScholarshipById (JStr (sch_id s1)) w1) = Ok None.
Proof. eexists _, _. split; [reflexivity|]. split; reflexivity. Qed.

(** ** Generating matches *)

Lemma decode_binary64_range bits :
  0 <= bits < unit_pattern ->
  0 <= fst (decode_binary64 bits) < 2 ^ 53 /\ snd (decode_binary64 bits) <= -53.
Proof.
  unfold unit_pattern, decode_binary64. intros Hb. cbn zeta.
  assert (0 <= bits mod 2 ^ 52 < 2 ^ 52) by (apply Z.mod_pos_bound; lia).
  assert (0 <= bits / 2 ^ 52 < 1023).
  { split; [apply Z.div_pos; lia|]. apply Z.div_lt_upper_bound; lia. }
  destruct (Z.eqb_spec (bits / 2 ^ 52) 0); cbn [fst snd]; lia.
Qed.

Lemma round_shift_bounds p s :
  0 <= p -> 0 <= s ->
  0 <= round_shift p s /\ 2 * 2 ^ s * round_shift p s <= 2 * p + 2 ^ s.
Proof.
  intros Hp Hs. unfold round_shift. cbn zeta.
  assert (HX : 0 < 2 ^ s) by (apply Z.pow_pos_nonneg; lia).
  pose proof (Z.div_mod p (2 ^ s) ltac:(lia)) as Hdm.
  pose proof (Z.mod_pos_bound p (2 ^ s) HX) as Hr.
  assert (Hq : 0 <= p / 2 ^ s) by (apply Z.div_pos; lia).
  set (X := 2 ^ s) in *. set (q := p / X) in *. set (r := p mod X) in *.
  destruct (Z.ltb_spec (2 * r) X); [split; nia|].
  destruct (Z.ltb_spec X (2 * r)); [split; nia|].
  destruct (Z.even q); split; nia.
Qed.

(** The draw of the generate request is one of 0, ..., 39 for every number
    that [Math.random()] can return: the product with 40 rounds to a number
    below 40. *)
Lemma random_floor_40_range bits : 0 <= scaled_floor 40 bits <= 39.
Proof.
  unfold scaled_floor.
  assert (Hb : 0 <= bits mod unit_pattern < unit_pattern)
    by (apply Z.mod_pos_bound; reflexivity).
  destruct (decode_binary64_range _ Hb) as [Hm He].
  destruct (decode_binary64 (bits mod unit_pattern)) as [m e]. cbn [fst snd] in Hm, He.
  unfold times_binary64, floor_binary64. cbn [fst snd].
  set (p := 40 * m). assert (Hp : 0 <= p < 2 ^ 59) by (subst p; lia).
  set (s := Z.max 0 (Z.log2 p - 52)).
  assert (Hs : 0 <= s <= 6).
  { subst s. destruct (Z.eq_dec p 0) as [->|Hne]; [cbn; lia|].
    assert (Z.log2 p < 59) by (apply Z.log2_lt_pow2; lia). lia. }
  destruct (round_shift_bounds p s ltac:(lia) ltac:(lia)) as [HR0 HR].
  destruct (Z.leb_spec 0 (e + s)); [lia|].
  assert (HT : 0 < 2 ^ (- (e + s))) by (apply Z.pow_pos_nonneg; lia).
  assert (HX : 0 < 2 ^ s <= 64).
  { split; [apply Z.pow_pos_nonneg; lia|].
    change 64 with (2 ^ 6). apply Z.pow_le_mono_r; lia. }
  assert (Hsplit : 2 ^ (- e) = 2 ^ (- (e + s)) * 2 ^ s).
  { rewrite <- Z.pow_add_r by lia. f_equal. lia. }
  assert (Hbig : 2 ^ 53 <= 2 ^ (- e)) by (apply Z.pow_le_mono_r; lia).
  set (T := 2 ^ (- (e + s))) in *. set (X := 2 ^ s) in *.
  split; [apply Z.div_pos; lia|].
  apply Z.lt_succ_r. apply Z.div_lt_upper_bound; [lia|].
  subst p. nia.
Qed.

(** The draw is the floor of the rounded product, not of the exact one: for
    [Math.random() = 0.825] the product rounds up to 33. *)
Lemma random_floor_rounds : scaled_floor 40 0x3FEA666666666666 = 33.
Proof. reflexivity. Qed.

Lemma same_but_matches_refl w : same_but_matches w w.
Proof. by repeat split. Qed.

Lemma same_but_matches_trans w1 w2 w3 :
  same_but_matches w1 w2 -> same_but_matches w2 w3 -> same_but_matches w1 w3.
Proof. intros (?&?&?&?) (?&?&?&?). repeat split; congruence. Qed.

Lemma generated_at_created_for o pid t s : created_for pid s (generated_at o pid t s).
Proof.
  pose proof (random_floor_40_range (randomAt o t)).
  repeat split; try reflexivity. eexists. split; [reflexivity|lia].
Qed.

Lemma generated_created_for o ua pid catalog : forall t,
  Forall2 (created_for pid) catalog (generated o ua pid t catalog).
Proof.
  induction catalog as [|s catalog IH]; intros t; cbn [generated]; constructor;
    [apply generated_at_created_for|apply IH].
Qed.

Lemma answered_uninitialized o created : forall t, answered o false t created = created.
Proof.
  induction created as [|m created IH]; intros t; cbn [answered]; [done|].
  by rewrite IH.
Qed.

Lemma answered_length o ua created : forall t,
  length (answered o ua t created) = length created.
Proof.
  induction created as [|m created IH]; intros t; cbn [answered length]; [done|].
  by rewrite IH.
Qed.

(** One turn of the loop: the record appended to the match store, and what
    the call returns. *)
Lemma generate_one_run pid s w :
  let m := generated_at (outside w) pid (ticks w) s in
  exists w',
    generate_one pid s w
    = (Ok (answered_at (outside w) (useAirtable w) (ticks w) m), w')
    /\ matchStorage w' = <[pid := default [] (matchStorage w !! pid) ++ [m]]> (matchStorage w)
    /\ same_but_matches w w'
    /\ ticks w' = (turn (useAirtable w) + ticks w)%nat.
Proof.
  cbn zeta. unfold generate_one, createScholarshipMatch, answered_at, returned_for. run.
  change (new_match _ _ _) with (generated_at (outside w) pid (ticks w) s).
  change (create_match_fields _ _ _)
    with (written_fields (generated_at (outside w) pid (ticks w) s)).
  destruct (useAirtable w) eqn:Hua; cbn iota; run.
  - destruct (airtableAt (outside w) _ _) as [[|record rest]|err]; run;
      eexists; (split; [reflexivity|]); (split; [reflexivity|]);
      (split; [by repeat split|]); reflexivity.
  - eexists; (split; [reflexivity|]); (split; [reflexivity|]);
      (split; [by repeat split|]); reflexivity.
Qed.

Lemma generate_all pid catalog : forall w,
  let created := generated (outside w) (useAirtable w) pid (ticks w) catalog in
  exists w',
    for_each (generate_one pid) catalog w
    = (Ok (answered (outside w) (useAirtable w) (ticks w) created), w')
    /\ default [] (matchStorage w' !! pid) = default [] (matchStorage w !! pid) ++ created
    /\ (forall q, q <> pid -> matchStorage w' !! q = matchStorage w !! q)
    /\ same_but_matches w w'.
Proof.
  induction catalog as [|s catalog IH]; intros w; cbn zeta; cbn [for_each generated answered].
  - exists w. run. rewrite app_nil_r. by repeat split.
  - destruct (generate_one_run pid s w) as (w1 & E1 & Hst1 & Hs1 & Ht1).
    destruct (IH w1) as (w2 & E2 & Hst2 & Hoth & Hs2). cbn zeta in E2, Hst2.
    destruct Hs1 as (Hua1 & Hp1 & Ha1 & Ho1).
    rewrite Ho1, Hua1, Ht1 in E2, Hst2.
    unfold bind at 1. rewrite E1. unfold bind at 1. rewrite E2. run.
    exists w2. split; [reflexivity|]. split; [|split].
    + rewrite Hst2, Hst1, lookup_insert_eq. cbn [default from_option id].
      by rewrite <- app_assoc.
    + intros q Hq. rewrite (Hoth q Hq), Hst1. by apply lookup_insert_ne.
    + eapply same_but_matches_trans; [|exact Hs2]. by repeat split.
Qed.

(** The generate request on an existing profile, as the loop lemma gives
    it. *)
Lemma generate_request_run w pid p w1 :
  pid <> "" ->
  getStudentProfileById pid w = (Ok (Some p), w1) ->
  exists catalog w2 w3,
    let created := generated (outside w) (useAirtable w) pid (ticks w2) catalog in
    getAllScholarships w1 = (Ok catalog, w2)
    /\ post_matches_generate (Some pid) w
       = (Ok {| res_status := 200;
                res_body := Matches (answered (outside w) (useAirtable w) (ticks w2)
                                       created) |}, w3)
    /\ default [] (matchStorage w3 !! pid) = default [] (matchStorage w !! pid) ++ created
    /\ (forall q, q <> pid -> matchStorage w3 !! q = matchStorage w !! q)
    /\ same_but_matches w1 w3.
Proof.
  intros Hpid Hprofile.
  pose proof (getStudentProfileById_frame pid w _ _ Hprofile) as (Hua1 & Hm1 & _ & Ho1).
  destruct (getAllScholarships_run w1) as (catalog & w2 & Ecat & Hs2 & _).
  destruct Hs2 as (Hua2 & Hp2 & Hm2 & Ha2 & Ho2).
  destruct (generate_all pid catalog w2) as (w3 & Egen & Hst & Hoth & Hs3).
  cbn zeta in Egen, Hst. rewrite Ho2, Ho1, Hua2, Hua1 in Egen, Hst.
  exists catalog, w2, w3. cbn zeta. split; [exact Ecat|].
  split.
  { unfold post_matches_generate, try_catch. cbn [missing].
    destruct (String.eqb_spec pid "") as [->|_]; [done|]. cbn [default from_option id].
    unfold bind at 1. rewrite Hprofile. unfold bind at 1. rewrite Ecat.
    unfold bind at 1. rewrite Egen. reflexivity. }
  split; [by rewrite Hst, Hm2, Hm1|].
  split; [intros q Hq; by rewrite (Hoth q Hq), Hm2, Hm1|].
  destruct Hs3 as (? & ? & ? & ?). repeat split; congruence.
Qed.

(** C1. For a profile that exists, a generate-matches request answers 200
    with one record per scholarship of the catalog and appends to the match
    store of the profile exactly one match per scholarship, in catalog order:
    each carries the profile ID, the scholarship's ID, an integer score
    between 60 and 100, status [new] and the placeholder reasoning.  No other
    profile's matches change.  The stored matches are pinned turn by turn:
    the score is 60 plus the floor of 40 times the number [Math.random()]
    returned, the ID and the time are those read in the turn.  The records of
    the answer are pinned as well: without a backend they are the stored
    matches; with one, each is what the mapper reads from the first record
    the backend returned to the create call that wrote this match, and the
    stored match when that call threw or returned nothing. *)
Theorem generate_matches_one_per_scholarship (w : World) (pid : string)
    (p : StudentProfile) (w1 : World) :
  pid <> "" ->
  getStudentProfileById pid w = (Ok (Some p), w1) ->
  exists catalog w2 created returned w3,
    getAllScholarships w1 = (Ok catalog, w2)
    /\ post_matches_generate (Some pid) w
       = (Ok {| res_status := 200; res_body := Matches returned |}, w3)
    /\ default [] (matchStorage w3 !! pid) = default [] (matchStorage w !! pid) ++ created
    /\ (forall q, q <> pid -> matchStorage w3 !! q = matchStorage w !! q)
    /\ length created = length catalog
    /\ Forall2 (created_for pid) catalog created
    /\ created = generated (outside w) (useAirtable w) pid (ticks w2) catalog
    /\ length returned = length catalog
    /\ returned = answered (outside w) (useAirtable w) (ticks w2) created
    /\ (useAirtable w = false -> returned = created).
Proof.
  intros Hpid Hprofile.
  destruct (generate_request_run w pid p w1 Hpid Hprofile)
    as (catalog & w2 & w3 & Ecat & Egen & Hst & Hoth & _). cbn zeta in Egen, Hst.
  pose proof (generated_created_for (outside w) (useAirtable w) pid catalog (ticks w2))
    as HF.
  eexists catalog, w2, _, _, w3. split; [exact Ecat|]. split; [exact Egen|].
  split; [exact Hst|]. split; [exact Hoth|].
  split; [symmetry; eapply Forall2_length, HF|].
  split; [exact HF|]. split; [reflexivity|].
  split; [rewrite answered_length; symmetry; eapply Forall2_length, HF|].
  split; [reflexivity|].
  intros ->. apply answered_uninitialized.
Qed.

Lemma generate_matches_one_per_scholarship_witness :
  exists catalog w2 created returned w3,
    getAllScholarships (world_with_ada false offline_backend) = (Ok catalog, w2)
    /\ post_matches_generate (Some "recP1") (world_with_ada false offline_backend)
       = (Ok {| res_status := 200; res_body := Matches returned |}, w3)
    /\ default [] (matchStorage w3 !! "recP1")
       = default [] (matchStorage (world_with_ada false offline_backend) !! "recP1")
         ++ created
    /\ (forall q, q <> "recP1" ->
          matchStorage w3 !! q = matchStorage (world_with_ada false offline_backend) !! q)
    /\ length created = length catalog
    /\ Forall2 (created_for "recP1") catalog created
    /\ created
       = generated (outside (world_with_ada false offline_backend))
           (useAirtable (world_with_ada false offline_backend)) "recP1" (ticks w2) catalog
    /\ length returned = length catalog
    /\ returned
       = answered (outside (world_with_ada false offline_backend))
           (useAirtable (world_with_ada false offline_backend)) (ticks w2) created
    /\ (useAirtable (world_with_ada false offline_backend) = false -> returned = created).
Proof.
  apply (generate_matches_one_per_scholarship
           (world_with_ada false offline_backend) "recP1" ada
           (world_with_ada false offline_backend)).
  - discriminate.
  - reflexivity.
Defined.

(** With a backend that stores a match as it is written, the record of the
    answer carries the ID of the backend record and nothing else: the fields
    are written under capitalised keys and read under lower-case ones. *)
Lemma answered_at_written o t m rid rest :
  airtableAt o (S (S (S t))) (BCreate tables.scholarshipMatches (written_fields m))
  = Ok ({| rec_id := rid; rec_fields := written_fields m |} :: rest) ->
  answered_at o true t m = bare_match rid.
Proof.
  intros Hr. unfold answered_at, returned_for. rewrite Hr.
  unfold mapToScholarshipMatch, bare_match, field, written_fields.
  cbn [rec_id rec_fields].
  repeat (rewrite lookup_insert_eq || (rewrite lookup_insert_ne by discriminate)
          || rewrite lookup_empty).
  reflexivity.
Qed.

(** ** Applications *)

Lemma filter_notPdf_empty docs :
  Nat.ltb 0 (length (List.filter notPdf docs)) = existsb notPdf docs.
Proof.
  induction docs as [|d docs IH]; [reflexivity|].
  cbn [List.filter existsb]. by destruct (notPdf d).
Qed.

Lemma missing_present id : id <> "" -> missing (Some id) = false.
Proof. intros H. cbn. by destruct (String.eqb_spec id ""). Qed.

(** The handler on a request that names a profile and a scholarship and
    carries a document list. *)
Lemma post_applications_run req pid sid docs w :
  req_profileId req = Some pid -> pid <> "" ->
  req_scholarshipId req = Some sid -> sid <> "" ->
  req_documents req = Some docs ->
  post_applications req w
  = if existsb notPdf docs then
      (Ok {| res_status := 400; res_body := Message "Only PDF documents are allowed" |}, w)
    else
      (Ok {| res_status := 200; res_body := Application (submitted w pid sid docs) |},
       set_applicationStorage
         (insert pid (default [] (applicationStorage w !! pid) ++ [submitted w pid sid docs]))
         (tick (tick w))).
Proof.
  intros Hp Hpid Hs Hsid Hd. unfold post_applications, try_catch.
  rewrite Hp, Hs, Hd, !missing_present by done. rewrite filter_notPdf_empty.
  destruct (existsb notPdf docs); reflexivity.
Qed.

(** [POST /api/applications] rejects a list with a document that is not a
    PDF and stores nothing; it accepts every other list and stores the
    application with all its documents. *)
Lemma post_applications_all_or_nothing req pid sid docs w :
  req_profileId req = Some pid -> pid <> "" ->
  req_scholarshipId req = Some sid -> sid <> "" ->
  req_documents req = Some docs ->
  exists resp w',
    post_applications req w = (Ok resp, w')
    /\ (res_status resp <> 200%nat <-> exists d, In d docs /\ notPdf d = true)
    /\ (res_status resp <> 200%nat -> w' = w)
    /\ (res_status resp = 200%nat ->
        res_body resp = Application (submitted w pid sid docs)
        /\ applicationStorage w' !! pid
           = Some (default [] (applicationStorage w !! pid) ++ [submitted w pid sid docs])).
Proof.
  intros Hp Hpid Hs Hsid Hd. rewrite (post_applications_run req pid sid docs w) by done.
  destruct (existsb notPdf docs) eqn:E; eexists _, _; (split; [reflexivity|]);
    cbn [res_status res_body].
  - apply existsb_exists in E. repeat split; try done.
  - repeat split; try done.
    + intros (d & Hin & Hd'). assert (existsb notPdf docs = true) by
        (apply existsb_exists; eauto). congruence.
    + cbn. apply lookup_insert_eq.
Qed.

(** C2 (what the code does on the failing input). A create-application
    request with an empty document list is accepted: the handler answers 200
    and stores an application without documents. *)
Theorem post_applications_accepts_empty_documents :
  exists a w',
    post_applications empty_documents_request (demo_world false offline_backend)
    = (Ok {| res_status := 200; res_body := Application a |}, w')
    /\ app_documents a = []
    /\ applicationStorage w' !! "recP1" = Some [a].
Proof. eexists _, _. split; [reflexivity|]. split; reflexivity. Qed.

(** C9. A create-application request that passes validation answers 200 with
    an application of status [pending], whatever status the client sent, and
    that application is the one appended to the applications of the
    profile. *)
Theorem post_applications_status_pending (w : World) (req : ApplicationRequest)
    (pid sid : string) (docs : list string) :
  req_profileId req = Some pid -> pid <> "" ->
  req_scholarshipId req = Some sid -> sid <> "" ->
  req_documents req = Some docs ->
  existsb notPdf docs = false ->
  exists a w',
    post_applications req w = (Ok {| res_status := 200; res_body := Application a |}, w')
    /\ app_status a = "pending"
    /\ app_studentProfileId a = pid
    /\ app_scholarshipId a = sid
    /\ app_documents a = docs
    /\ applicationStorage w' !! pid = Some (default [] (applicationStorage w !! pid) ++ [a])
    /\ same_but_applications w w'.
Proof.
  intros Hp Hpid Hs Hsid Hd Hpdf.
  rewrite (post_applications_run req pid sid docs w), Hpdf by done.
  eexists _, _. split; [reflexivity|]. repeat split. cbn. apply lookup_insert_eq.
Qed.

Lemma post_applications_status_pending_witness :
  exists a w',
    post_applications approved_request (demo_world false offline_backend)
    = (Ok {| res_status := 200; res_body := Application a |}, w')
    /\ app_status a = "pending"
    /\ app_studentProfileId a = "recP1"
    /\ app_scholarshipId a = "fallback-1"
    /\ app_documents a = ["transcript.pdf"; "Essay.PDF"]
    /\ applicationStorage w' !! "recP1"
       = Some (default [] (applicationStorage (demo_world false offline_backend) !! "recP1")
               ++ [a])
    /\ same_but_applications (demo_world false offline_backend) w'.
Proof.
  apply (post_applications_status_pending (demo_world false offline_backend)
           approved_request "recP1" "fallback-1" ["transcript.pdf"; "Essay.PDF"]);
    first [reflexivity | discriminate].
Defined.

(** ** Match status updates without a backend *)

(** Without a backend the lookup reads the Fallback Catalog on both of its
    paths. *)
Lemma getScholarshipById_uninitialized id w :
  useAirtable w = false ->
  getScholarshipById id w
  = match id with
    | JStr sid =>
        (Ok (find_by_id sid (fallbackCatalog (clockAt (outside w) (ticks w)))), tick w)
    | _ => (Throw TypeError, w)
    end.
Proof.
  intros Hua. unfold getScholarshipById. destruct id; try reflexivity.
  destruct (startsWith s "fallback-"); unfold getFallbackScholarships; run;
    [reflexivity|]. rewrite Hua. reflexivity.
Qed.

Lemma with_scholarship_uninitialized id m w :
  useAirtable w = false ->
  with_scholarship id m w
  = match id with
    | JStr sid =>
        (Ok (match find_by_id sid (fallbackCatalog (clockAt (outside w) (ticks w))) with
             | Some s => Some (m, s)
             | None => None
             end), tick w)
    | _ => (Throw TypeError, w)
    end.
Proof.
  intros Hua. unfold with_scholarship, bind.
  rewrite getScholarshipById_uninitialized by done. by destruct id.
Qed.

Section Stable.
Context (P : JsValue -> JsValue -> Prop).

Lemma find_by_id_stamp id m t t' :
  P (JStr t) (JStr t') ->
  option_Forall2 (result_rel P)
    (match find_by_id id (fallbackCatalog t) with Some s => Some (m, s) | None => None end)
    (match find_by_id id (fallbackCatalog t') with Some s => Some (m, s) | None => None end).
Proof.
  intros HP. unfold find_by_id, fallbackCatalog, fallback. cbn [List.find sch_id].
  repeat match goal with
         | |- context [String.eqb ?a id] =>
             destruct (String.eqb a id); [constructor; by repeat split|]
         end.
  constructor.
Qed.

Lemma with_scholarship_stable ms : forall w w',
  useAirtable w = false -> useAirtable w' = false -> stamps_related P w w' ->
  (exists e v v',
     for_each (fun m => with_scholarship (m_scholarshipId m) m) ms w = (Throw e, v)
     /\ for_each (fun m => with_scholarship (m_scholarshipId m) m) ms w' = (Throw e, v'))
  \/ (exists r r' v v',
        for_each (fun m => with_scholarship (m_scholarshipId m) m) ms w = (Ok r, v)
        /\ for_each (fun m => with_scholarship (m_scholarshipId m) m) ms w' = (Ok r', v')
        /\ Forall2 (option_Forall2 (result_rel P)) r r').
Proof.
  induction ms as [|m ms IH]; intros w w' Hua Hua' HP; cbn [for_each].
  - right. exists [], [], w, w'. by repeat split.
  - unfold bind. rewrite !with_scholarship_uninitialized by done.
    destruct (m_scholarshipId m) as [| |b|n|sid|l|l];
      try (left; eexists _, _, _; split; reflexivity).
    destruct (IH (tick w) (tick w') Hua Hua' HP)
      as [(e & v & v' & E & E')|(r & r' & v & v' & E & E' & HF)];
      rewrite E, E'; unfold ret.
    + left. eexists _, _, _. split; reflexivity.
    + right. eexists _, _, _, _. split; [reflexivity|]. split; [reflexivity|].
      constructor; [|exact HF]. apply find_by_id_stamp, HP.
Qed.

Lemma omap_related r r' :
  Forall2 (option_Forall2 (result_rel P)) r r' ->
  Forall2 (result_rel P) (omap id r) (omap id r').
Proof.
  induction 1 as [|a b r r' Hab _ IH]; [constructor|].
  cbn [omap]. destruct Hab; cbn; [by constructor|exact IH].
Qed.

Lemma score_diff_related a a' b b' :
  result_rel P a a' -> result_rel P b b' -> score_diff a b = score_diff a' b'.
Proof. intros [Ha _] [Hb _]. unfold score_diff. by rewrite Ha, Hb. Qed.

Lemma insert_sorted_related x x' l l' :
  result_rel P x x' -> Forall2 (result_rel P) l l' ->
  Forall2 (result_rel P) (insert_sorted x l) (insert_sorted x' l').
Proof.
  intros Hx. induction 1 as [|y y' l l' Hy Hl IH]; cbn [insert_sorted].
  - constructor; [exact Hx | constructor].
  - rewrite (score_diff_related x x' y y' Hx Hy).
    destruct (score_diff x' y' <=? 0).
    + constructor; [exact Hx|]. by constructor.
    + by constructor.
Qed.

Lemma sort_by_score_related l l' :
  Forall2 (result_rel P) l l' ->
  Forall2 (result_rel P) (sort_by_score l) (sort_by_score l').
Proof.
  unfold sort_by_score. induction 1; cbn [foldr]; [constructor|].
  by apply insert_sorted_related.
Qed.

(** Without a backend, the matches of a profile depend on the match store
    and on the clock only. *)
Lemma getScholarshipMatches_stable pid w w' :
  useAirtable w = false -> useAirtable w' = false ->
  matchStorage w' = matchStorage w -> stamps_related P w w' ->
  exists l l' v v',
    getScholarshipMatches pid w = (Ok l, v)
    /\ getScholarshipMatches pid w' = (Ok l', v')
    /\ Forall2 (result_rel P) l l'.
Proof.
  intros Hua Hua' Hms HP. unfold getScholarshipMatches. run. rewrite Hms.
  destruct (matchStorage w !! pid) as [[|m ms]|].
  2:{ set (new := List.filter _ _).
      destruct (with_scholarship_stable new w w' Hua Hua' HP)
        as [(e & v & v' & E & E')|(r & r' & v & v' & E & E' & HF)];
        rewrite E, E'.
      - eexists _, _, _, _. split; [reflexivity|]. split; [reflexivity|]. constructor.
      - eexists _, _, _, _. split; [reflexivity|]. split; [reflexivity|].
        by apply sort_by_score_related, omap_related. }
  all: rewrite Hua, Hua'; eexists _, _, _, _;
    (split; [reflexivity|]); (split; [reflexivity|]); constructor.
Qed.
End Stable.

Lemma result_rel_eq a b : result_rel eq a b -> a = b.
Proof.
  destruct a as [m s], b as [m' s']. intros (Hm & He & Hc). cbn in *. subst m'.
  f_equal. destruct s, s'. unfold same_entry, restamp in He. cbn in *.
  injection He as -> -> -> -> -> -> -> -> -> -> -> -> -> -> ->. by rewrite Hc.
Qed.

Lemma Forall2_result_rel_eq l l' : Forall2 (result_rel eq) l l' -> l = l'.
Proof.
  induction 1 as [|a b l l' Hab _ IH]; [reflexivity|].
  by rewrite (result_rel_eq a b Hab), IH.
Qed.

(** C10. With no backend configured, [updateMatchStatus] returns a
    synthesized match (the given ID and status, empty profile and scholarship
    IDs, score 0) and leaves every store as it was; listing the matches of
    any profile afterwards gives the same matches as before, in the same
    order, joined with the same catalog entries.  The two listings are equal
    outright when the clock, which stamps the catalog entries, reads the
    same at both calls. *)
Theorem updateMatchStatus_uninitialized (w : World) (matchId : string) (status : JsValue)
    (pid : string) :
  useAirtable w = false ->
  exists w',
    updateMatchStatus matchId status w
    = (Ok {| m_id := matchId;
             m_profileId := JStr "";
             m_scholarshipId := JStr "";
             m_matchScore := JNum 0;
             m_aiReasoning := JUndefined;
             m_status := status;
             m_createdAt := JStr (clockAt (outside w) (ticks w)) |}, w')
    /\ matchStorage w' = matchStorage w
    /\ same_stores w w'
    /\ exists before after v v',
         getScholarshipMatches pid w = (Ok before, v)
         /\ getScholarshipMatches pid w' = (Ok after, v')
         /\ Forall2 same_result before after
         /\ map fst after = map fst before
         /\ (frozen_clock w -> after = before).
Proof.
  intros Hua. exists (tick w). split.
  { unfold updateMatchStatus. run. by rewrite Hua. }
  split; [reflexivity|]. split; [by repeat split|].
  destruct (getScholarshipMatches_stable (fun _ _ => True) pid w (tick w) Hua Hua eq_refl)
    as (l & l' & v & v' & E & E' & HF); [done|].
  exists l, l', v, v'. split; [exact E|]. split; [exact E'|]. split; [exact HF|].
  split.
  - clear E E'. induction HF as [|a b l l' [Hab _] _ IH]; [reflexivity|].
    cbn [map]. by rewrite Hab, IH.
  - intros Hclock.
    destruct (getScholarshipMatches_stable eq pid w (tick w) Hua Hua eq_refl)
      as (k & k' & u & u' & F & F' & HE).
    { intros t t'. f_equal. apply Hclock. }
    rewrite E in F. rewrite E' in F'. injection F as <- _. injection F' as <- _.
    symmetry. by apply Forall2_result_rel_eq.
Qed.

Lemma updateMatchStatus_uninitialized_witness :
  exists w' before after v v',
    fst (updateMatchStatus "m1" (JStr "applied") world_with_matches)
    = Ok {| m_id := "m1";
            m_profileId := JStr "";
            m_scholarshipId := JStr "";
            m_matchScore := JNum 0;
            m_aiReasoning := JUndefined;
            m_status := JStr "applied";
            m_createdAt := JStr "2025-01-15T10:00:10.000Z" |}
    /\ snd (updateMatchStatus "m1" (JStr "applied") world_with_matches) = w'
    /\ matchStorage w' = matchStorage world_with_matches
    /\ getScholarshipMatches "recP1" world_with_matches = (Ok before, v)
    /\ getScholarshipMatches "recP1" w' = (Ok after, v')
    /\ after = before.
Proof.
  destruct (updateMatchStatus_uninitialized world_with_matches "m1" (JStr "applied")
              "recP1" eq_refl)
    as (w' & E & Hms & _ & before & after & v & v' & Eb & Ea & _ & _ & Heq).
  exists w', before, after, v, v'. rewrite E. split; [reflexivity|].
  split; [reflexivity|]. split; [exact Hms|]. split; [exact Eb|]. split; [exact Ea|].
  apply Heq. intros t t'. reflexivity.
Defined.

(** The listing in the example world: the two matches with status [new],
    best score first; the stored status of [m1] is still [new] after the
    update. *)
Lemma getScholarshipMatches_example :
  map (fun r => (m_id (fst r), sch_id (snd r)))
      (match fst (getScholarshipMatches "recP1"
                    (snd (updateMatchStatus "m1" (JStr "applied") world_with_matches))) with
       | Ok l => l
       | Throw _ => []
       end)
  = [("m3", "fallback-1"); ("m1", "fallback-2")].
Proof. vm_compute. reflexivity. Qed.

(** * Further properties of the store *)

(** ** Profiles: lookups after writes *)

Lemma getStudentProfileById_cached id p w :
  profileStorage w !! id = Some p ->
  getStudentProfileById id w = (Ok (Some p), w).
Proof. intros H. unfold getStudentProfileById. run. by rewrite H. Qed.

(** X1. A profile just created is found under the ID that
    [createStudentProfile] returned, in every mode and whatever the backend
    answered to the create: the lookup returns the same entity from the
    cache, without a backend call, and [GET /api/profile/:id] answers 200
    with it. *)
Theorem createStudentProfile_then_get (w : World) (profile : InsertStudentProfile) :
  exists e w1,
    createStudentProfile profile w = (Ok e, w1)
    /\ getStudentProfileById (sp_id e) w1 = (Ok (Some e), w1)
    /\ get_profile (sp_id e) w1 = (Ok (Json 200 e), w1).
Proof.
  destruct (createStudentProfile_run profile w) as (w1 & E & Hcache & _).
  match type of E with _ = (Ok ?e, _) => set (e0 := e) in * end.
  assert (Hc : profileStorage w1 !! sp_id e0 = Some e0).
  { rewrite Hcache. apply lookup_insert_eq. }
  pose proof (getStudentProfileById_cached _ _ _ Hc) as Hget.
  exists e0, w1. split; [exact E|]. split; [exact Hget|].
  unfold get_profile, try_catch, bind. by rewrite Hget.
Qed.

(** X2. After an update the profile is found under the updated ID with
    exactly the merged entity, in every mode and whatever the backend did; in
    particular an update of an ID that was never created makes a profile of
    that ID exist. *)
Theorem updateStudentProfile_then_get (w : World) (id : string)
    (patch : PartialStudentProfile) :
  exists updated w1,
    updateStudentProfile id patch w = (Ok updated, w1)
    /\ getStudentProfileById id w1 = (Ok (Some updated), w1)
    /\ (profileStorage w !! id = None ->
        sp_id updated = id
        /\ sp_name updated = spread optS (JStr "") (psp_name patch)
        /\ sp_email updated = spread optS (JStr "") (psp_email patch)).
Proof.
  destruct (updateStudentProfile_run id patch w) as (w1 & E & Hcache & _).
  eexists _, w1. split; [exact E|]. split.
  - apply getStudentProfileById_cached. rewrite Hcache. apply lookup_insert_eq.
  - intros Hnone. rewrite Hnone. by repeat split.
Qed.

(** X3. A profile lookup never throws.  With no backend configured an ID
    that is not cached is not found and the world is left as it was; with a
    backend whose find throws, the ID is not found and the cache is left as
    it was. *)
Theorem getStudentProfileById_not_found (w : World) (id : string) :
  exists r w',
    getStudentProfileById id w = (Ok r, w')
    /\ (profileStorage w !! id = None -> useAirtable w = false -> r = None /\ w' = w)
    /\ (profileStorage w !! id = None -> useAirtable w = true ->
        (exists e, airtableAt (outside w) (ticks w) (BFind tables.studentProfiles id)
                   = Throw e) ->
        r = None /\ same_stores w w').
Proof.
  unfold getStudentProfileById. run.
  destruct (profileStorage w !! id) as [p|] eqn:Hc.
  { eexists _, _. split; [reflexivity|]. split; intros; discriminate. }
  destruct (useAirtable w) eqn:Hua; cbn iota; run.
  2:{ eexists _, _. split; [reflexivity|]. split; [done|]. intros; discriminate. }
  destruct (airtableAt (outside w) (ticks w) _) as [[|record rest]|e] eqn:Hr.
  - eexists _, _. split; [reflexivity|]. split; [intros; discriminate|].
    intros _ _ [e He]. discriminate.
  - destruct (mapToStudentProfile record (tick w)) as [[p|e] w2];
      eexists _, _; (split; [reflexivity|]);
      (split; [intros; discriminate|]); intros _ _ [e' He]; discriminate.
  - eexists _, _. split; [reflexivity|]. split; [intros; discriminate|].
    intros _ _ _. split; [reflexivity|]. by repeat split.
Qed.

Lemma getStudentProfileById_not_found_witness :
  (exists r w',
     getStudentProfileById "recQ9" (demo_world false offline_backend) = (Ok r, w')
     /\ r = None /\ w' = demo_world false offline_backend)
  /\ exists r w',
       getStudentProfileById "recQ9" (demo_world true offline_backend) = (Ok r, w')
       /\ r = None /\ same_stores (demo_world true offline_backend) w'.
Proof.
  split.
  - destruct (getStudentProfileById_not_found (demo_world false offline_backend) "recQ9")
      as (r & w' & E & H & _).
    exists r, w'. split; [exact E|]. apply H; reflexivity.
  - destruct (getStudentProfileById_not_found (demo_world true offline_backend) "recQ9")
      as (r & w' & E & _ & H).
    exists r, w'. split; [exact E|]. apply H; try reflexivity. eexists. reflexivity.
Defined.

(** X4. A profile that a lookup found stays found: looking the same ID up
    again returns the same entity and makes no backend call (the world is
    left as it was), because a profile read from the backend is cached. *)
Theorem getStudentProfileById_cached_after_hit (w : World) (id : string)
    (p : StudentProfile) (w1 : World) :
  getStudentProfileById id w = (Ok (Some p), w1) ->
  profileStorage w1 !! id = Some p
  /\ getStudentProfileById id w1 = (Ok (Some p), w1).
Proof.
  intros H.
  assert (Hc : profileStorage w1 !! id = Some p).
  { revert H. unfold getStudentProfileById. run.
    destruct (profileStorage w !! id) as [q|] eqn:Hc.
    { intros [= <- <-]. exact Hc. }
    destruct (useAirtable w); cbn iota; run; [|discriminate].
    destruct (airtableAt (outside w) (ticks w) _) as [[|record rest]|e]; try discriminate.
    destruct (mapToStudentProfile record (tick w)) as [[q|e] w2]; try discriminate.
    intros [= <- <-]. cbn. apply lookup_insert_eq. }
  split; [exact Hc|]. by apply getStudentProfileById_cached.
Qed.

Lemma getStudentProfileById_cached_after_hit_witness :
  exists p w1,
    getStudentProfileById "recN1" (demo_world true directory_backend) = (Ok (Some p), w1)
    /\ sp_name p = JStr "Noor"
    /\ profileStorage w1 !! "recN1" = Some p
    /\ getStudentProfileById "recN1" w1 = (Ok (Some p), w1).
Proof.
  destruct (getStudentProfileById "recN1" (demo_world true directory_backend))
    as [[[p|]|e] w1] eqn:E.
  2,3: exfalso; apply (f_equal fst) in E; vm_compute in E; discriminate.
  exists p, w1. split; [reflexivity|]. split.
  { pose proof (f_equal fst E) as E'. vm_compute in E'. injection E' as <-. reflexivity. }
  exact (getStudentProfileById_cached_after_hit _ _ _ _ E).
Defined.

(** X5. Creating and updating profiles keep every cached profile under its
    own ID; so does a lookup, when the backend answers a find with a record
    of the ID asked for. *)
Theorem cache_keyed_kept (w : World) :
  cache_keyed w ->
  (forall profile, cache_keyed (snd (createStudentProfile profile w)))
  /\ (forall id patch, cache_keyed (snd (updateStudentProfile id patch w)))
  /\ (finds_by_id (outside w) -> forall id, cache_keyed (snd (getStudentProfileById id w))).
Proof.
  intros Hk. split; [|split].
  - intros profile.
    destruct (createStudentProfile_run profile w) as (w1 & E & Hcache & _).
    rewrite E. cbn [snd]. intros k p. rewrite Hcache.
    match type of Hcache with
    | _ = <[?i := _]> _ => destruct (decide (k = i)) as [->|Hne]
    end.
    + rewrite lookup_insert_eq. by intros [= <-].
    + rewrite lookup_insert_ne by done. apply Hk.
  - intros id patch.
    destruct (updateStudentProfile_run id patch w) as (w1 & E & Hcache & _).
    rewrite E. cbn [snd]. intros k p. rewrite Hcache.
    destruct (decide (k = id)) as [->|Hne].
    + rewrite lookup_insert_eq. intros [= <-]. cbn [sp_id merge_profile].
      destruct (profileStorage w !! id) as [q|] eqn:Hq; [by apply Hk|reflexivity].
    + rewrite lookup_insert_ne by done. apply Hk.
  - intros Hfind id. unfold getStudentProfileById. run.
    destruct (profileStorage w !! id) as [q|] eqn:Hc; [exact Hk|].
    destruct (useAirtable w); cbn iota; run; [|exact Hk].
    destruct (airtableAt (outside w) (ticks w) _) as [[|record rest]|e] eqn:Hr;
      [exact Hk| |exact Hk].
    pose proof (mapToStudentProfile_frame record (tick w)) as Hframe.
    destruct (mapToStudentProfile record (tick w)) as [[q|e] w2] eqn:Hm.
    2:{ cbn [snd]. destruct (Hframe _ _ eq_refl) as (_ & Hp & _).
        intros k p. rewrite Hp. apply Hk. }
    cbn [snd]. destruct (Hframe _ _ eq_refl) as (_ & Hp & _).
    intros k p. cbn. destruct (decide (k = id)) as [->|Hne].
    + rewrite lookup_insert_eq. intros [= <-].
      assert (sp_id q = rec_id record) as ->.
      { revert Hm. unfold mapToStudentProfile, bind.
        destruct (parse_skills _ _) as [[?|?] ?]; [|discriminate].
        destruct (or_now _ _) as [[?|?] ?]; [|discriminate].
        destruct (or_now _ _) as [[?|?] ?]; [|discriminate].
        by intros [= <- _]. }
      eapply Hfind, Hr.
    + rewrite lookup_insert_ne by done. rewrite Hp. apply Hk.
Qed.

Lemma cache_keyed_kept_witness :
  cache_keyed (snd (createStudentProfile grace (world_with_ada true directory_backend)))
  /\ cache_keyed (snd (updateStudentProfile "recP1" phone_patch
                         (world_with_ada true directory_backend)))
  /\ cache_keyed (snd (getStudentProfileById "recN1" (world_with_ada true directory_backend))).
Proof.
  assert (Hk : cache_keyed (world_with_ada true directory_backend)).
  { intros k p. cbn. destruct (decide (k = "recP1")) as [->|Hne].
    - rewrite lookup_insert_eq. by intros [= <-].
    - rewrite lookup_insert_ne by done. by rewrite lookup_empty. }
  destruct (cache_keyed_kept (world_with_ada true directory_backend) Hk) as (Hc & Hu & Hg).
  split; [apply Hc|]. split; [apply Hu|]. apply Hg.
  intros t table id record rest. cbn. by intros [= <- _].
Defined.

Lemma updateStudentProfile_then_get_witness :
  exists updated w1,
    updateStudentProfile "ghost" name_patch (demo_world false offline_backend)
    = (Ok updated, w1)
    /\ getStudentProfileById "ghost" w1 = (Ok (Some updated), w1)
    /\ sp_id updated = "ghost"
    /\ sp_name updated = JStr "Lin"
    /\ sp_email updated = JStr "".
Proof.
  destruct (updateStudentProfile_then_get (demo_world false offline_backend)
              "ghost" name_patch) as (u & w1 & E & Hg & H).
  exists u, w1. split; [exact E|]. split; [exact Hg|]. apply H. reflexivity.
Defined.

(** ** The ranking of listed matches *)

Lemma insert_sorted_perm x l : insert_sorted x l ≡ₚ x :: l.
Proof.
  induction l as [|y l IH]; cbn [insert_sorted]; [done|].
  destruct (score_diff x y <=? 0); [done|].
  rewrite IH. apply Permutation_swap.
Qed.

Lemma score_diff_numeric x y :
  has_score x -> has_score y -> score_diff x y = score_of y - score_of x.
Proof. intros [n Hn] [k Hk]. unfold score_diff, score_of. by rewrite Hn, Hk. Qed.

Lemma insert_sorted_sorted x l :
  has_score x -> Forall has_score l ->
  StronglySorted (fun a b => score_of b <= score_of a) l ->
  StronglySorted (fun a b => score_of b <= score_of a) (insert_sorted x l).
Proof.
  intros Hx Hl Hs. induction Hs as [|y l Hs IH Hy]; cbn [insert_sorted].
  - repeat constructor.
  - apply Forall_cons in Hl as [Hny Hl].
    rewrite (score_diff_numeric x y Hx Hny).
    destruct (Z.leb_spec (score_of y - score_of x) 0) as [Hle|Hgt].
    + constructor; [by constructor|]. constructor; [lia|].
      eapply Forall_impl; [exact Hy|]. cbn. intros; lia.
    + constructor; [by apply IH|].
      rewrite (insert_sorted_perm x l). constructor; [lia|exact Hy].
Qed.

Lemma sort_by_score_perm l : sort_by_score l ≡ₚ l.
Proof.
  unfold sort_by_score. induction l as [|x l IH]; cbn [foldr]; [done|].
  by rewrite insert_sorted_perm, IH.
Qed.

Lemma sort_by_score_descending l :
  Forall has_score l ->
  StronglySorted (fun a b => score_of b <= score_of a) (sort_by_score l).
Proof.
  induction 1 as [|x l Hx Hl IH]; [constructor|].
  change (sort_by_score (x :: l)) with (insert_sorted x (sort_by_score l)).
  apply insert_sorted_sorted; [exact Hx| |exact IH]. by rewrite sort_by_score_perm.
Qed.

(** X6. The ranking used for listed matches returns a permutation of its
    input, and when every match carries a numeric score the result is in
    descending order of score. *)
Theorem sort_by_score_sorts (l : list (ScholarshipMatch * Scholarship)) :
  sort_by_score l ≡ₚ l
  /\ (Forall has_score l ->
      StronglySorted (fun a b => score_of b <= score_of a) (sort_by_score l)).
Proof. split; [apply sort_by_score_perm | apply sort_by_score_descending]. Qed.

Lemma sort_by_score_sorts_witness :
  StronglySorted (fun a b => score_of b <= score_of a)
    (sort_by_score
       [ (stored_match "m1" "fallback-2" 71 "new", fallback "fallback-2" "" "" "" "" "" "" [] "" "" [] [] "");
         (stored_match "m3" "fallback-1" 88 "new", fallback "fallback-1" "" "" "" "" "" "" [] "" "" [] [] "") ]).
Proof.
  apply sort_by_score_sorts. repeat constructor; eexists; reflexivity.
Defined.

Lemma filter_insert_sorted n x l :
  has_score x -> Forall has_score l ->
  List.filter (fun r => score_of r =? n) (insert_sorted x l)
  = List.filter (fun r => score_of r =? n) (x :: l).
Proof.
  intros Hx. induction 1 as [|y l Hy Hl IH]; cbn [insert_sorted]; [done|].
  rewrite (score_diff_numeric x y Hx Hy).
  destruct (Z.leb_spec (score_of y - score_of x) 0) as [Hle|Hgt]; [done|].
  cbn [List.filter] in *. rewrite IH.
  destruct (Z.eqb_spec (score_of x) n), (Z.eqb_spec (score_of y) n); try done. lia.
Qed.

(** X7. The ranking is stable: matches with equal scores keep the order in
    which they were stored. *)
Theorem sort_by_score_stable (l : list (ScholarshipMatch * Scholarship)) (n : Z) :
  Forall has_score l ->
  List.filter (fun r => score_of r =? n) (sort_by_score l)
  = List.filter (fun r => score_of r =? n) l.
Proof.
  induction 1 as [|x l Hx Hl IH]; [done|].
  change (sort_by_score (x :: l)) with (insert_sorted x (sort_by_score l)).
  rewrite filter_insert_sorted; [|exact Hx|by rewrite sort_by_score_perm].
  cbn [List.filter]. by rewrite IH.
Qed.

Lemma sort_by_score_stable_witness :
  map (fun r => m_id (fst r))
    (List.filter (fun r => score_of r =? 80)
       (sort_by_score
          [ (stored_match "a" "fallback-2" 80 "new", fallback "fallback-2" "" "" "" "" "" "" [] "" "" [] [] "");
            (stored_match "b" "fallback-1" 95 "new", fallback "fallback-1" "" "" "" "" "" "" [] "" "" [] [] "");
            (stored_match "c" "fallback-3" 80 "new", fallback "fallback-3" "" "" "" "" "" "" [] "" "" [] [] "") ]))
  = ["a"; "c"].
Proof.
  rewrite sort_by_score_stable; [reflexivity|].
  repeat constructor; eexists; reflexivity.
Defined.

(** ** Listing matches *)

Lemma with_scholarship_frame id m : preserves same_stores (with_scholarship id m).
Proof.
  unfold with_scholarship.
  repeat first
    [ apply getScholarshipById_frame
    | frame_step same_stores_refl same_stores_trans same_stores_tick ].
Qed.

Lemma getScholarshipMatches_frame pid : preserves same_stores (getScholarshipMatches pid).
Proof.
  unfold getScholarshipMatches.
  repeat first
    [ apply with_scholarship_frame
    | frame_step same_stores_refl same_stores_trans same_stores_tick ].
Qed.

Lemma with_scholarship_result id m w r w' :
  with_scholarship id m w = (Ok r, w') ->
  r = None \/ exists s, r = Some (m, s).
Proof.
  unfold with_scholarship, bind.
  destruct (getScholarshipById id w) as [[[s|]|e] w1]; intros [= <- _]; eauto.
Qed.

Lemma for_each_with_scholarship ms : forall w rs w',
  for_each (fun m => with_scholarship (m_scholarshipId m) m) ms w = (Ok rs, w') ->
  Forall2 (fun m r => r = None \/ exists s, r = Some (m, s)) ms rs.
Proof.
  induction ms as [|m ms IH]; intros w rs w'; cbn [for_each].
  - intros [= <- _]. constructor.
  - unfold bind at 1.
    destruct (with_scholarship (m_scholarshipId m) m w) as [[r|e] w1] eqn:E1;
      [|discriminate].
    unfold bind at 1.
    destruct (for_each _ ms w1) as [[rs1|e] w2] eqn:E2; [|discriminate].
    intros [= <- _]. constructor; [eapply with_scholarship_result, E1|eapply IH, E2].
Qed.

Lemma omap_joined (ms : list ScholarshipMatch)
    (rs : list (option (ScholarshipMatch * Scholarship))) :
  Forall2 (fun m r => r = None \/ exists s, r = Some (m, s)) ms rs ->
  Forall (fun r => fst r ∈ ms) (omap id rs) /\ (length (omap id rs) <= length ms)%nat.
Proof.
  induction 1 as [|m r ms rs Hr _ [IH1 IH2]]; [split; [constructor|done]|].
  destruct Hr as [->|[s ->]].
  - change (omap id (None :: rs)) with (omap id rs).
    split; [|cbn [length]; lia]. eapply Forall_impl; [exact IH1|]. intros ? ?. by right.
  - change (omap id (Some (m, s) :: rs)) with ((m, s) :: omap id rs).
    split; [|cbn [length]; lia]. constructor; [by left|].
    eapply Forall_impl; [exact IH1|]. intros ? ?. by right.
Qed.

Lemma is_new_status m : is_new m = true -> m_status m = JStr "new".
Proof.
  unfold is_new, strict_eq_str. destruct (m_status m); try discriminate.
  by intros ->%String.eqb_eq.
Qed.

(** X8. When the match store holds matches for a profile, listing them never
    throws and touches no store; every match listed is one of the stored
    matches of that profile and has status [new], there are at most as many
    as stored matches with status [new], and when the stored scores are
    numbers the listing is in descending order of score. *)
Theorem getScholarshipMatches_from_store (w : World) (pid : string)
    (m : ScholarshipMatch) (ms : list ScholarshipMatch) :
  matchStorage w !! pid = Some (m :: ms) ->
  exists l w',
    getScholarshipMatches pid w = (Ok l, w')
    /\ same_stores w w'
    /\ Forall (fun r => fst r ∈ m :: ms /\ m_status (fst r) = JStr "new") l
    /\ (length l <= length (List.filter is_new (m :: ms)))%nat
    /\ ((forall x, x ∈ m :: ms -> exists n, m_matchScore x = JNum n) ->
        StronglySorted (fun a b => score_of b <= score_of a) l).
Proof.
  intros Hst.
  destruct (getScholarshipMatches pid w) as [r w'] eqn:E.
  pose proof (getScholarshipMatches_frame pid w r w' E) as Hframe.
  revert E. unfold getScholarshipMatches, try_catch. unfold bind at 1, gets at 1.
  rewrite Hst. fold is_new. set (new := List.filter _ (m :: ms)).
  unfold bind at 1.
  destruct (for_each _ new w) as [[rs|e] w1] eqn:Ers.
  2:{ intros [= <- <-]. exists [], w1. split; [done|]. split; [done|].
      split; [constructor|]. split; [cbn; lia|]. intros _. constructor. }
  intros [= <- <-].
  destruct (omap_joined _ _ (for_each_with_scholarship _ _ _ _ Ers)) as [Hin Hlen].
  exists (sort_by_score (omap id rs)), w1. split; [done|]. split; [done|].
  assert (Hall : Forall (fun r => fst r ∈ m :: ms /\ m_status (fst r) = JStr "new")
                   (omap id rs)).
  { eapply Forall_impl; [exact Hin|]. intros r Hr.
    apply list_elem_of_In, filter_In in Hr as [Hr Hn].
    split; [by apply list_elem_of_In|by apply is_new_status]. }
  split; [by rewrite sort_by_score_perm|].
  split; [by rewrite sort_by_score_perm|].
  intros Hnum. apply sort_by_score_descending.
  eapply Forall_impl; [exact Hall|]. intros r [Hr _]. by apply Hnum.
Qed.

Lemma getScholarshipMatches_from_store_witness :
  exists l w',
    getScholarshipMatches "recP1" world_with_matches = (Ok l, w')
    /\ Forall (fun r => m_status (fst r) = JStr "new") l
    /\ (length l <= 2)%nat
    /\ StronglySorted (fun a b => score_of b <= score_of a) l.
Proof.
  destruct (getScholarshipMatches_from_store world_with_matches "recP1"
              (stored_match "m1" "fallback-2" 71 "new")
              [ stored_match "m2" "fallback-5" 93 "applied";
                stored_match "m3" "fallback-1" 88 "new" ] eq_refl)
    as (l & w' & E & _ & Hall & Hlen & Hsorted).
  exists l, w'. split; [exact E|]. split.
  { eapply Forall_impl; [exact Hall|]. by intros r [_ H]. }
  split; [exact Hlen|]. apply Hsorted. intros x Hx.
  repeat (apply elem_of_cons in Hx as [->|Hx]; [eexists; reflexivity|]).
  by apply elem_of_nil in Hx.
Defined.

(** X9. With a backend configured and nothing cached for the profile,
    listing falls back to a backend query; when the first record of the
    answer has no text field [scholarshipId] (as the records that
    [createScholarshipMatch] writes, which spell it [ScholarshipID]), the
    lookup of its scholarship throws and the listing is empty. *)
Theorem getScholarshipMatches_backend_misspelt (w : World) (pid : string)
    (record : AirRecord) (rest : list AirRecord) :
  useAirtable w = true ->
  default [] (matchStorage w !! pid) = [] ->
  airtableAt (outside w) (ticks w)
    (BSelect tables.scholarshipMatches (Some (matches_formula pid))) = Ok (record :: rest) ->
  (forall s, field record "scholarshipId" <> JStr s) ->
  exists w', getScholarshipMatches pid w = (Ok [], w') /\ same_stores w w'.
Proof.
  intros Hua Hst Hsel Hfield.
  destruct (getScholarshipMatches pid w) as [r w'] eqn:E.
  pose proof (getScholarshipMatches_frame pid w r w' E) as Hframe.
  exists w'. split; [|exact Hframe]. f_equal. apply (f_equal fst) in E. cbn [fst] in E.
  rewrite <- E. clear E Hframe. unfold getScholarshipMatches, try_catch.
  unfold bind at 1, gets at 1.
  destruct (matchStorage w !! pid) as [[|x xs]|]; try discriminate Hst.
  all: run; rewrite Hua; cbn iota; run; rewrite Hsel; cbn [for_each]; unfold bind;
    unfold with_scholarship at 1; unfold bind, getScholarshipById;
    destruct (field record "scholarshipId") eqn:Hf; try reflexivity;
    by destruct (Hfield s).
Qed.

Lemma getScholarshipMatches_backend_misspelt_witness :
  exists w',
    getScholarshipMatches "recP9" (demo_world true written_match_backend) = (Ok [], w')
    /\ same_stores (demo_world true written_match_backend) w'.
Proof.
  eapply (getScholarshipMatches_backend_misspelt (demo_world true written_match_backend)
            "recP9"); try reflexivity.
  intros s. discriminate.
Defined.

(** ** Generating, then listing *)

Lemma find_by_id_catalog s t t' :
  s ∈ fallbackCatalog t ->
  exists s', find_by_id (sch_id s) (fallbackCatalog t') = Some s' /\ sch_id s' = sch_id s.
Proof.
  intros Hin. unfold fallbackCatalog in Hin.
  repeat (apply elem_of_cons in Hin as [->|Hin]; [eexists; split; reflexivity|]).
  by apply elem_of_nil in Hin.
Qed.

(** Without a backend, matches that point into the catalog are all joined
    with their entry. *)
Lemma for_each_joined_uninitialized t ms : forall w,
  useAirtable w = false ->
  Forall (fun m => exists s, s ∈ fallbackCatalog t /\ m_scholarshipId m = JStr (sch_id s)) ms ->
  exists rs w',
    for_each (fun m => with_scholarship (m_scholarshipId m) m) ms w = (Ok rs, w')
    /\ map fst (omap id rs) = ms
    /\ Forall (fun r => (exists t', snd r ∈ fallbackCatalog t')
                        /\ m_scholarshipId (fst r) = JStr (sch_id (snd r))) (omap id rs).
Proof.
  induction ms as [|m ms IH]; intros w Hua Hall; cbn [for_each].
  - exists [], w. by repeat split.
  - apply Forall_cons in Hall as [(s & Hs & Hid) Hall].
    destruct (IH (tick w) Hua Hall) as (rs & w' & E & Hmap & Hjoin).
    destruct (find_by_id_catalog s t (clockAt (outside w) (ticks w)) Hs) as (s' & Hf & Hs').
    unfold bind. rewrite with_scholarship_uninitialized, Hid, Hf, E by done.
    eexists _, _. split; [reflexivity|].
    change (omap id (Some (m, s') :: rs)) with ((m, s') :: omap id rs).
    cbn [map fst]. split; [by rewrite Hmap|]. constructor; [|exact Hjoin].
    cbn [fst snd]. split; [|by rewrite Hid, Hs'].
    exists (clockAt (outside w) (ticks w)). apply list_elem_of_In.
    unfold find_by_id in Hf. by apply find_some in Hf as [? _].
Qed.

Lemma created_for_new pid catalog created :
  Forall2 (created_for pid) catalog created -> List.filter is_new created = created.
Proof.
  induction 1 as [|s m catalog created (_ & _ & _ & Hst & _) _ IH]; [done|].
  cbn [List.filter]. unfold is_new at 1. rewrite Hst. cbn. by rewrite IH.
Qed.

(** X10. With no backend configured, for a profile that exists and has no
    stored matches, a generate request followed by a listing shows every
    match just created.  The request creates one match per entry of the
    Fallback Catalog, in catalog order, each under the ID of its entry; the
    listing answers 200 with these six matches, each joined with the entry
    of the Fallback Catalog that its [scholarshipId] names, in descending
    order of score. *)
Theorem generate_then_list_uninitialized (w : World) (pid : string)
    (p : StudentProfile) (w1 : World) :
  useAirtable w = false ->
  pid <> "" ->
  getStudentProfileById pid w = (Ok (Some p), w1) ->
  default [] (matchStorage w !! pid) = [] ->
  exists now created w3 listed w4,
    post_matches_generate (Some pid) w
    = (Ok {| res_status := 200; res_body := Matches created |}, w3)
    /\ Forall2 (created_for pid) (fallbackCatalog now) created
    /\ get_matches pid w3 = (Ok (Json 200 listed), w4)
    /\ map fst listed ≡ₚ created
    /\ length listed = 6%nat
    /\ Forall (fun r => (exists t, snd r ∈ fallbackCatalog t)
                        /\ m_scholarshipId (fst r) = JStr (sch_id (snd r))) listed
    /\ StronglySorted (fun a b => score_of b <= score_of a) listed.
Proof.
  intros Hua Hpid Hprofile Hnone.
  destruct (generate_request_run w pid p w1 Hpid Hprofile)
    as (catalog & w2 & w3 & Ecat & Egen & Hst & _ & Hs3). cbn zeta in Egen, Hst.
  pose proof (getStudentProfileById_frame pid w _ _ Hprofile) as (Hua1 & _).
  assert (Hua3 : useAirtable w3 = false) by (destruct Hs3 as (-> & _); congruence).
  assert (Hcat : catalog = fallbackCatalog (clockAt (outside w1) (ticks w1))).
  { revert Ecat. unfold getAllScholarships. run. rewrite Hua1, Hua. cbn iota.
    unfold getFallbackScholarships. run. by intros [= <- _]. }
  rewrite Hua, answered_uninitialized in Egen. rewrite Hua in Hst.
  pose proof (generated_created_for (outside w) false pid catalog (ticks w2)) as HF.
  generalize dependent (generated (outside w) false pid (ticks w2) catalog).
  intros made Egen Hst HF.
  rewrite Hnone in Hst. cbn [app] in Hst.
  assert (Hlen : length made = 6%nat).
  { rewrite <- (Forall2_length _ _ _ HF), Hcat. reflexivity. }
  destruct made as [|m created]; [discriminate|].
  assert (Hstored : matchStorage w3 !! pid = Some (m :: created)).
  { destruct (matchStorage w3 !! pid) as [l|]; cbn in Hst; by subst. }
  assert (Hpoint : Forall (fun x => exists s, s ∈ catalog
                                      /\ m_scholarshipId x = JStr (sch_id s)) (m :: created)).
  { clear -HF. induction HF as [|s x ? ? (_ & Hid & _) _ IH]; [constructor|].
    constructor; [exists s; split; [by left|exact Hid]|].
    eapply Forall_impl; [exact IH|]. intros y (s' & Hs' & Hy). exists s'.
    split; [by right|exact Hy]. }
  rewrite Hcat in Hpoint.
  destruct (for_each_joined_uninitialized _ (m :: created) w3 Hua3 Hpoint)
    as (rs & w4 & Ers & Hmap & Hjoin).
  exists (clockAt (outside w1) (ticks w1)), (m :: created), w3,
    (sort_by_score (omap id rs)), w4.
  split; [exact Egen|]. split; [by rewrite <- Hcat|].
  split.
  { unfold get_matches, try_catch at 1. unfold bind at 1.
    unfold getScholarshipMatches, try_catch. unfold bind at 1, gets at 1.
    rewrite Hstored. fold is_new. rewrite (created_for_new pid catalog _ HF).
    unfold bind at 1. rewrite Ers. reflexivity. }
  split; [by rewrite sort_by_score_perm, Hmap|].
  split; [by rewrite sort_by_score_perm, <- (length_map fst), Hmap|].
  split; [by rewrite sort_by_score_perm|].
  apply sort_by_score_descending.
  assert (Hsc : Forall (fun x => exists n, m_matchScore x = JNum n) (m :: created)).
  { clear -HF. induction HF as [|s x ? ? (_ & _ & (n & Hn & _) & _) _ IH];
      constructor; eauto. }
  rewrite Forall_forall in Hsc. apply Forall_forall. intros r Hr. apply Hsc.
  rewrite <- Hmap. apply list_elem_of_In, in_map, list_elem_of_In, Hr.
Qed.

Lemma generate_then_list_uninitialized_witness :
  exists now created w3 listed w4,
    post_matches_generate (Some "recP1") (world_with_ada false offline_backend)
    = (Ok {| res_status := 200; res_body := Matches created |}, w3)
    /\ Forall2 (created_for "recP1") (fallbackCatalog now) created
    /\ get_matches "recP1" w3 = (Ok (Json 200 listed), w4)
    /\ map fst listed ≡ₚ created
    /\ length listed = 6%nat
    /\ Forall (fun r => (exists t, snd r ∈ fallbackCatalog t)
                        /\ m_scholarshipId (fst r) = JStr (sch_id (snd r))) listed
    /\ StronglySorted (fun a b => score_of b <= score_of a) listed.
Proof.
  apply (generate_then_list_uninitialized (world_with_ada false offline_backend)
           "recP1" ada (world_with_ada false offline_backend));
    first [reflexivity | discriminate].
Defined.

(** X11. Matches are never deduplicated: two generate requests in a row for
    the same profile, in any mode, leave in its match store the matches it
    had, followed by one new match per scholarship of the catalog that the
    first request listed, followed by one new match per scholarship of the
    catalog that the second request listed, each batch in the order of its
    catalog. *)
Theorem generate_twice_accumulates (w : World) (pid : string) (p : StudentProfile)
    (w1 : World) :
  pid <> "" ->
  getStudentProfileById pid w = (Ok (Some p), w1) ->
  exists c1 w2 r1 w3 c2 w5 r2 w6 first second,
    getAllScholarships w1 = (Ok c1, w2)
    /\ post_matches_generate (Some pid) w = (Ok r1, w3)
    /\ getStudentProfileById pid w3 = (Ok (Some p), w3)
    /\ getAllScholarships w3 = (Ok c2, w5)
    /\ post_matches_generate (Some pid) w3 = (Ok r2, w6)
    /\ res_status r1 = 200%nat /\ res_status r2 = 200%nat
    /\ default [] (matchStorage w6 !! pid)
       = default [] (matchStorage w !! pid) ++ first ++ second
    /\ first = generated (outside w) (useAirtable w) pid (ticks w2) c1
    /\ second = generated (outside w) (useAirtable w) pid (ticks w5) c2
    /\ Forall2 (created_for pid) c1 first
    /\ Forall2 (created_for pid) c2 second
    /\ c1 <> [] /\ c2 <> [].
Proof.
  intros Hpid Hprofile.
  destruct (generate_request_run w pid p w1 Hpid Hprofile)
    as (c1 & w2 & w3 & Ecat1 & Egen1 & Hst1 & _ & Hs3). cbn zeta in Egen1, Hst1.
  pose proof (getStudentProfileById_frame pid w _ _ Hprofile) as (Hua1 & _ & _ & Ho1).
  assert (Hc : profileStorage w3 !! pid = Some p).
  { destruct Hs3 as (_ & -> & _).
    destruct (profileStorage w !! pid) as [q|] eqn:Hq.
    - rewrite (getStudentProfileById_cached _ _ _ Hq) in Hprofile.
      by injection Hprofile as <- <-.
    - revert Hprofile. unfold getStudentProfileById. run. rewrite Hq.
      destruct (useAirtable w); cbn iota; run; [|done].
      destruct (airtableAt (outside w) (ticks w) _) as [[|record rest]|e]; [done| |done].
      destruct (mapToStudentProfile record (tick w)) as [[q|e] v]; [|done].
      intros [= <- <-]. cbn [profileStorage set_profileStorage].
      apply lookup_insert_eq. }
  pose proof (getStudentProfileById_cached _ _ _ Hc) as Hprofile3.
  destruct (generate_request_run w3 pid p w3 Hpid Hprofile3)
    as (c2 & w5 & w6 & Ecat2 & Egen2 & Hst2 & _ & _). cbn zeta in Egen2, Hst2.
  assert (Ho3 : outside w3 = outside w) by (destruct Hs3 as (_ & _ & _ & ->); done).
  assert (Hua3 : useAirtable w3 = useAirtable w) by (destruct Hs3 as (-> & _); done).
  rewrite Ho3, Hua3 in Egen2, Hst2.
  eexists c1, w2, _, w3, c2, w5, _, w6, _, _.
  split; [exact Ecat1|]. split; [exact Egen1|]. split; [exact Hprofile3|].
  split; [exact Ecat2|]. split; [exact Egen2|]. split; [reflexivity|].
  split; [reflexivity|]. split; [by rewrite Hst2, Hst1, app_assoc|].
  split; [reflexivity|]. split; [reflexivity|].
  split; [apply generated_created_for|]. split; [apply generated_created_for|]. split.
  - destruct (getAllScholarships_run w1) as (l & w' & E & _ & H).
    rewrite Ecat1 in E. injection E as <- _.
    destruct H as [[now ->]|[H _]]; [discriminate|exact H].
  - destruct (getAllScholarships_run w3) as (l & w' & E & _ & H).
    rewrite Ecat2 in E. injection E as <- _.
    destruct H as [[now ->]|[H _]]; [discriminate|exact H].
Qed.

Lemma generate_twice_accumulates_witness :
  exists c1 w2 r1 w3 c2 w5 r2 w6 first second,
    getAllScholarships (world_with_ada false offline_backend) = (Ok c1, w2)
    /\ post_matches_generate (Some "recP1") (world_with_ada false offline_backend) = (Ok r1, w3)
    /\ getStudentProfileById "recP1" w3 = (Ok (Some ada), w3)
    /\ getAllScholarships w3 = (Ok c2, w5)
    /\ post_matches_generate (Some "recP1") w3 = (Ok r2, w6)
    /\ res_status r1 = 200%nat /\ res_status r2 = 200%nat
    /\ default [] (matchStorage w6 !! "recP1")
       = default [] (matchStorage (world_with_ada false offline_backend) !! "recP1")
         ++ first ++ second
    /\ first = generated (outside (world_with_ada false offline_backend))
                 (useAirtable (world_with_ada false offline_backend)) "recP1" (ticks w2) c1
    /\ second = generated (outside (world_with_ada false offline_backend))
                  (useAirtable (world_with_ada false offline_backend)) "recP1" (ticks w5) c2
    /\ Forall2 (created_for "recP1") c1 first
    /\ Forall2 (created_for "recP1") c2 second
    /\ c1 <> [] /\ c2 <> [].
Proof.
  apply (generate_twice_accumulates (world_with_ada false offline_backend) "recP1" ada
           (world_with_ada false offline_backend)); [discriminate|reflexivity].
Defined.

(** ** Status updates and applications *)

Lemma updateMatchStatus_frame matchId status :
  preserves same_stores (updateMatchStatus matchId status).
Proof. unfold updateMatchStatus. frame_stores. Qed.

(** X12. A status update never reaches the in-memory match store: in every
    mode, whether [updateMatchStatus] returns or throws, all stores are as
    before, so the cached matches keep the status they were created with.
    [PUT /api/matches/:matchId/status] never throws; with a backend it
    answers 200 with the mapper's reading of the first record the backend
    returned, and 500 when the backend call throws or returns no record. *)
Theorem put_match_status_changes_no_store (w : World) (matchId : string)
    (status : JsValue) :
  (forall r w', updateMatchStatus matchId status w = (r, w') -> same_stores w w')
  /\ exists a w',
       put_match_status matchId status w = (Ok a, w')
       /\ same_stores w w'
       /\ (useAirtable w = true ->
           forall record rest, update_status_reply w matchId status = Ok (record :: rest) ->
           a = Json 200 (mapToScholarshipMatch record))
       /\ (useAirtable w = true ->
           (forall record rest, update_status_reply w matchId status <> Ok (record :: rest)) ->
           a = Failure 500 "Failed to update match status").
Proof.
  split; [apply updateMatchStatus_frame|].
  unfold put_match_status, try_catch, update_status_reply. unfold bind at 1.
  destruct (updateMatchStatus matchId status w) as [r w'] eqn:E.
  pose proof (updateMatchStatus_frame matchId status w r w' E) as Hframe.
  revert E. unfold updateMatchStatus. run.
  destruct (useAirtable w); cbn iota; run.
  - destruct (airtableAt (outside w) (ticks w) _) as [[|record rest]|e] eqn:Hr; run;
      intros [= <- <-]; eexists _, _; (split; [reflexivity|]); (split; [exact Hframe|]);
      (split; [intros _ record' rest' Hr'|intros _ Hno]); try done.
    + by injection Hr' as <- _.
    + by destruct (Hno record rest).
  - intros [= <- <-]. eexists _, _. split; [reflexivity|]. split; [exact Hframe|].
    split; intros; discriminate.
Qed.

Lemma put_match_status_changes_no_store_witness :
  exists w',
    put_match_status "m1" (JStr "applied") (demo_world true offline_backend)
    = (Ok (Failure 500 "Failed to update match status"), w')
    /\ same_stores (demo_world true offline_backend) w'.
Proof.
  destruct (put_match_status_changes_no_store (demo_world true offline_backend) "m1"
              (JStr "applied")) as (_ & a & w' & E & Hs & _ & H).
  exists w'. rewrite <- (H eq_refl); [by split|]. intros record rest. discriminate.
Defined.

Lemma getApplications_run pid w :
  getApplications pid w = (Ok (applications_of w pid), w).
Proof. reflexivity. Qed.

(** X13. The applications of a profile are an append-only log: an accepted
    request adds its application, with the submitted documents, at the end of
    the profile's list and leaves every other profile's list alone; a request
    rejected for a document that is not a PDF leaves every list alone. *)
Theorem post_applications_then_list (w : World) (req : ApplicationRequest)
    (pid sid : string) (docs : list string) :
  req_profileId req = Some pid -> pid <> "" ->
  req_scholarshipId req = Some sid -> sid <> "" ->
  req_documents req = Some docs ->
  exists resp w',
    post_applications req w = (Ok resp, w')
    /\ (existsb notPdf docs = false ->
        exists a,
          resp = {| res_status := 200; res_body := Application a |}
          /\ app_documents a = docs
          /\ getApplications pid w' = (Ok (applications_of w pid ++ [a]), w'))
    /\ (existsb notPdf docs = true ->
        res_status resp = 400%nat
        /\ forall q, getApplications q w' = (Ok (applications_of w q), w'))
    /\ (forall q, q <> pid -> getApplications q w' = (Ok (applications_of w q), w')).
Proof.
  intros Hp Hpid Hs Hsid Hd. rewrite (post_applications_run req pid sid docs w) by done.
  destruct (existsb notPdf docs); eexists _, _; (split; [reflexivity|]).
  - split; [discriminate|]. split; [by split|]. by intros.
  - split.
    + intros _. eexists. split; [reflexivity|]. split; [reflexivity|].
      rewrite getApplications_run. unfold applications_of at 1. cbn.
      by rewrite lookup_insert_eq.
    + split; [discriminate|]. intros q Hq. rewrite getApplications_run.
      unfold applications_of at 1. cbn. by rewrite lookup_insert_ne.
Qed.

Lemma post_applications_then_list_witness :
  (exists a w',
     fst (post_applications approved_request (demo_world false offline_backend))
     = Ok {| res_status := 200; res_body := Application a |}
     /\ snd (post_applications approved_request (demo_world false offline_backend)) = w'
     /\ getApplications "recP1" w' = (Ok [a], w'))
  /\ exists resp w',
       post_applications mixed_request (demo_world false offline_backend) = (Ok resp, w')
       /\ res_status resp = 400%nat
       /\ getApplications "recP1" w' = (Ok [], w').
Proof.
  split.
  - destruct (post_applications_then_list (demo_world false offline_backend)
                approved_request "recP1" "fallback-1" ["transcript.pdf"; "Essay.PDF"])
      as (resp & w' & E & Hok & _); try first [reflexivity | discriminate].
    destruct (Hok eq_refl) as (a & -> & _ & Hl).
    exists a, w'. rewrite E. by repeat split.
  - destruct (post_applications_then_list (demo_world false offline_backend)
                mixed_request "recP1" "fallback-1" ["transcript.pdf"; "photo.png"])
      as (resp & w' & E & _ & Hbad & _); try first [reflexivity | discriminate].
    destruct (Hbad eq_refl) as (Hst & Hl).
    exists resp, w'. split; [exact E|]. split; [exact Hst|]. apply Hl.
Defined.

(** ** The PDF check *)

Lemma substring_0_length s : substring 0 (String.length s) s = s.
Proof. induction s as [|c s IH]; cbn; [done|]. by rewrite IH. Qed.

Lemma substring_append p s n :
  substring (String.length p) n (p +:+ s) = substring 0 n s.
Proof. induction p as [|c p IH]; cbn; [done|]. exact IH. Qed.

Lemma length_append p s :
  String.length (p +:+ s) = (String.length p + String.length s)%nat.
Proof. induction p as [|c p IH]; [done|]. simpl. by rewrite IH. Qed.

Lemma substring_split k s :
  (k <= String.length s)%nat ->
  s = substring 0 k s +:+ substring k (String.length s - k) s
  /\ String.length (substring 0 k s) = k.
Proof.
  revert s. induction k as [|k IH]; intros s Hk.
  - cbn. rewrite Nat.sub_0_r, substring_0_length. by destruct s.
  - destruct s as [|c s]; simpl in *; [lia|].
    destruct (IH s) as [E L]; [lia|].
    split; [exact (f_equal (String c) E)|by rewrite L].
Qed.

Lemma endsWith_spec s suffix :
  endsWith s suffix = true <-> exists p, s = p +:+ suffix.
Proof.
  unfold endsWith. rewrite andb_true_iff, Nat.leb_le, String.eqb_eq. split.
  - intros [Hle Hs].
    destruct (substring_split (String.length s - String.length suffix) s) as [E _]; [lia|].
    replace (String.length s - (String.length s - String.length suffix))%nat
      with (String.length suffix) in E by lia.
    rewrite Hs in E. eauto.
  - intros [p ->]. rewrite length_append. split; [lia|].
    replace (String.length p + String.length suffix - String.length suffix)%nat
      with (String.length p) by lia.
    by rewrite substring_append, substring_0_length.
Qed.

Lemma toLowerCase_append a b : toLowerCase (a +:+ b) = toLowerCase a +:+ toLowerCase b.
Proof. induction a as [|c a IH]; [done|]. simpl. by rewrite IH. Qed.

Lemma toLowerCase_length s : String.length (toLowerCase s) = String.length s.
Proof. induction s as [|c s IH]; cbn; [done|]. by rewrite IH. Qed.

Lemma append_inj_length a b a' b' :
  String.length a = String.length a' -> a +:+ b = a' +:+ b' -> a = a' /\ b = b'.
Proof.
  revert a'. induction a as [|c a IH]; intros [|c' a'] Hl; simpl in *; try done.
  intros [= -> H]. destruct (IH a') as [-> ->]; [lia|done|done].
Qed.

(** X14. The PDF check of [POST /api/applications] accepts exactly the
    document names that end in an extension of four characters which reads
    [.pdf] once its letters are lower-cased: the case of the name does not
    matter, and nothing is required of the part before the extension (the
    name may be the bare extension). *)
Theorem notPdf_spec (doc : string) :
  notPdf doc = false <-> exists stem ext, doc = stem +:+ ext /\ toLowerCase ext = ".pdf".
Proof.
  unfold notPdf. rewrite negb_false_iff, endsWith_spec. split.
  - intros [p Hp].
    assert (Hlen : (4 <= String.length doc)%nat).
    { rewrite <- toLowerCase_length, Hp, length_append. cbn. lia. }
    destruct (substring_split (String.length doc - 4) doc) as [E L]; [lia|].
    replace (String.length doc - (String.length doc - 4))%nat with 4%nat in E by lia.
    exists (substring 0 (String.length doc - 4) doc),
           (substring (String.length doc - 4) 4 doc).
    split; [exact E|]. rewrite E, toLowerCase_append in Hp.
    apply append_inj_length in Hp as [_ Hp]; [exact Hp|].
    rewrite toLowerCase_length, L.
    apply (f_equal String.length) in Hp.
    rewrite !length_append, !toLowerCase_length, L in Hp.
    assert (String.length (substring (String.length doc - 4) 4 doc) = 4%nat).
    { apply (f_equal String.length) in E. rewrite length_append, L in E. lia. }
    cbn in Hp. lia.
  - intros (stem & ext & -> & Hext). exists (toLowerCase stem).
    by rewrite toLowerCase_append, Hext.
Qed.

(** ** Scholarships: what is listed and what is found *)

Lemma truthy_jor_r a b : truthy b = true -> truthy (jor a b) = true.
Proof. intros H. unfold jor. by destruct (truthy a) eqn:E. Qed.

Lemma mapped_displayable o now r : displayable (mapped o now r).
Proof. repeat split; by apply truthy_jor_r. Qed.

Lemma fallbackCatalog_displayable now : Forall displayable (fallbackCatalog now).
Proof. repeat constructor. Qed.

Lemma for_each_mapToScholarship_mapped records : forall w,
  exists l w',
    for_each mapToScholarship records w = (Ok l, w')
    /\ outside w' = outside w
    /\ Forall2 (maps_to (outside w)) records l.
Proof.
  induction records as [|r records IH]; intros w; cbn [for_each].
  - exists [], w. by repeat split.
  - unfold bind at 1. rewrite mapToScholarship_eq.
    set (w1 := if truthy _ then w else tick w).
    assert (Ho : outside w1 = outside w) by (subst w1; by destruct (truthy _)).
    destruct (IH w1) as (l & w2 & E & Ho2 & HF).
    unfold bind at 1. rewrite E. eexists _, w2. split; [reflexivity|].
    split; [congruence|]. constructor; [by eexists|]. by rewrite <- Ho.
Qed.

Lemma maps_to_ids o records l :
  Forall2 (maps_to o) records l -> map sch_id l = map rec_id records.
Proof.
  induction 1 as [|r s records l [now ->] _ IH]; [done|]. cbn. by rewrite IH.
Qed.

(** The listing, once more: the catalog, or every record of the backend
    mapped. *)
Lemma getAllScholarships_cases w :
  exists l w',
    getAllScholarships w = (Ok l, w')
    /\ ((exists now, l = fallbackCatalog now)
        \/ (exists records,
              useAirtable w = true /\ scholarships_reply w = Ok records
              /\ Forall2 (maps_to (outside w)) records l
              /\ (forall r, head records = Some r -> hasProperData r = true)))
    /\ (forall r rest, useAirtable w = true -> scholarships_reply w = Ok (r :: rest) ->
        hasProperData r = false -> exists now, l = fallbackCatalog now).
Proof.
  unfold getAllScholarships, scholarships_reply. unfold bind at 1, gets.
  destruct (useAirtable w) eqn:Hua; cbn [negb].
  2:{ rewrite getFallbackScholarships_run. eexists _, _. split; [reflexivity|].
      split; [eauto|]. intros; discriminate. }
  unfold try_catch, bind at 1, airtable.
  destruct (airtableAt _ _ _) as [records|e] eqn:Hreply.
  2:{ rewrite getFallbackScholarships_run. eexists _, _. split; [reflexivity|].
      split; [eauto|]. intros; discriminate. }
  set (lacks := match records with [] => false | r :: _ => negb (hasProperData r) end).
  destruct lacks eqn:Hlacks.
  { rewrite getFallbackScholarships_run. eexists _, _. split; [reflexivity|].
    split; eauto. }
  assert (Hfirst : forall r rest, records = r :: rest -> hasProperData r = true).
  { intros r rest ->. subst lacks. by destruct (hasProperData r). }
  destruct (for_each_mapToScholarship_mapped records (tick w)) as (l & w1 & E & _ & HF).
  unfold bind. rewrite E.
  destruct (existsb looksValid l) eqn:Hvalid; cbn [negb andb].
  2:{ destruct (Nat.ltb 0 (length l)); rewrite getFallbackScholarships_run;
      eexists _, _; (split; [reflexivity|]); split; eauto. }
  destruct l as [|s l]; [discriminate|]. cbn [length Nat.ltb Nat.leb].
  eexists _, _. split; [reflexivity|]. split.
  - right. exists records. repeat split; try done.
    intros r Hr. destruct records as [|r' rest]; [done|]. injection Hr as ->. eauto.
  - intros r rest _ [= ->] Hno. rewrite (Hfirst r rest eq_refl) in Hno. discriminate.
Qed.

(** X15. Every scholarship that a listing returns, in any mode and for any
    answer of the backend, has a truthy title, organization, amount,
    deadline, description, requirements and type: a field that the backend
    record lacks or leaves empty is replaced by its default text. *)
Theorem getAllScholarships_displayable (w : World) :
  exists l w', getAllScholarships w = (Ok l, w') /\ Forall displayable l.
Proof.
  destruct (getAllScholarships_cases w) as (l & w' & E & H & _).
  exists l, w'. split; [exact E|].
  destruct H as [[now ->]|(records & _ & _ & HF & _)].
  - apply fallbackCatalog_displayable.
  - clear E. induction HF as [|r s records l [now ->] _ IH]; constructor.
    + apply mapped_displayable.
    + exact IH.
Qed.

(** X16. A listing never filters or reorders: it returns either the Fallback
    Catalog or every record of the backend's answer, mapped, in the
    backend's order.  The first record alone decides the first check: when
    it has neither title nor organization the catalog is returned even if
    later records are complete. *)
Theorem getAllScholarships_all_or_catalog (w : World) :
  exists l w',
    getAllScholarships w = (Ok l, w')
    /\ ((exists now, l = fallbackCatalog now)
        \/ (exists records,
              scholarships_reply w = Ok records
              /\ map sch_id l = map rec_id records
              /\ Forall2 (maps_to (outside w)) records l))
    /\ (forall r rest, useAirtable w = true -> scholarships_reply w = Ok (r :: rest) ->
        hasProperData r = false -> exists now, l = fallbackCatalog now).
Proof.
  destruct (getAllScholarships_cases w) as (l & w' & E & H & Hfirst).
  exists l, w'. split; [exact E|]. split; [|exact Hfirst].
  destruct H as [?|(records & _ & Hr & HF & _)]; [by left|right].
  exists records. split; [exact Hr|]. split; [|exact HF]. eapply maps_to_ids, HF.
Qed.

Lemma getAllScholarships_all_or_catalog_witness :
  (exists l w' now,
     getAllScholarships (demo_world true untitled_first_backend) = (Ok l, w')
     /\ l = fallbackCatalog now)
  /\ exists l w',
       getAllScholarships (demo_world true complete_backend) = (Ok l, w')
       /\ map sch_id l = ["recB8"; "recB7"].
Proof.
  split.
  - destruct (getAllScholarships_all_or_catalog (demo_world true untitled_first_backend))
      as (l & w' & E & _ & H).
    destruct (H untitled_row [complete_row] eq_refl eq_refl eq_refl) as [now Hl].
    by exists l, w', now.
  - destruct (getAllScholarships_all_or_catalog (demo_world true complete_backend))
      as (l & w' & E & [[now Hl]|(records & Hr & Hids & _)] & _).
    + exfalso. apply (f_equal fst) in E. rewrite Hl in E. vm_compute in E. discriminate.
    + exists l, w'. split; [exact E|]. rewrite Hids. injection Hr as <-. reflexivity.
Defined.

Lemma getScholarshipById_fallback id w :
  startsWith id "fallback-" = true ->
  getScholarshipById (JStr id) w
  = (Ok (find_by_id id (fallbackCatalog (clockAt (outside w) (ticks w)))), tick w).
Proof. intros H. unfold getScholarshipById. by rewrite H. Qed.

Lemma find_by_id_some id l s : find_by_id id l = Some s -> s ∈ l /\ sch_id s = id.
Proof.
  unfold find_by_id. intros H. apply find_some in H as [Hin Heq].
  split; [by apply list_elem_of_In|by apply String.eqb_eq].
Qed.

(** X17. Every entry of the Fallback Catalog can be fetched by its ID in
    every mode, without a backend call: the lookup returns the entry of that
    ID (equal to the listed one up to the time stamp), and an ID that starts
    with [fallback-] but names no entry is not found, whatever the backend
    holds. *)
Theorem getScholarshipById_catalog (w : World) (id : string) :
  startsWith id "fallback-" = true ->
  exists r,
    getScholarshipById (JStr id) w = (Ok r, tick w)
    /\ (forall t s, s ∈ fallbackCatalog t -> sch_id s = id ->
        exists s', r = Some s' /\ same_entry s s')
    /\ ((forall t s, s ∈ fallbackCatalog t -> sch_id s <> id) -> r = None).
Proof.
  intros Hfb. rewrite getScholarshipById_fallback by done.
  eexists. split; [reflexivity|]. split.
  - intros t s Hin <-. unfold fallbackCatalog in Hin.
    repeat (apply elem_of_cons in Hin as [->|Hin];
            [eexists; split; reflexivity|]).
    by apply elem_of_nil in Hin.
  - intros Hnone.
    destruct (find_by_id id (fallbackCatalog _)) as [s|] eqn:Hf; [|reflexivity].
    apply find_by_id_some in Hf as [Hin Hid]. by destruct (Hnone _ _ Hin).
Qed.

Lemma getScholarshipById_catalog_witness :
  exists r,
    getScholarshipById (JStr "fallback-3") (demo_world true untitled_first_backend)
    = (Ok r, tick (demo_world true untitled_first_backend))
    /\ (forall t s, s ∈ fallbackCatalog t -> sch_id s = "fallback-3" ->
        exists s', r = Some s' /\ same_entry s s')
    /\ ((forall t s, s ∈ fallbackCatalog t -> sch_id s <> "fallback-3") -> r = None).
Proof.
  apply (getScholarshipById_catalog (demo_world true untitled_first_backend) "fallback-3").
  reflexivity.
Defined.

(** X18. With a backend configured, looking a scholarship up by an ID that
    does not start with [fallback-] never throws and touches no store.  A
    find that throws or returns nothing gives not-found; a record that maps
    to the default title (it has no title, or is titled [Untitled
    Scholarship]) is answered with the first entry of the Fallback Catalog,
    under that entry's ID and not the ID asked for; any other record is
    answered as mapped. *)
Theorem getScholarshipById_backend (w : World) (id : string) :
  useAirtable w = true ->
  startsWith id "fallback-" = false ->
  exists r w',
    getScholarshipById (JStr id) w = (Ok r, w')
    /\ same_stores w w'
    /\ ((exists e, find_scholarship_reply w id = Throw e) -> r = None)
    /\ (find_scholarship_reply w id = Ok [] -> r = None)
    /\ (forall record rest, find_scholarship_reply w id = Ok (record :: rest) ->
        strict_eq_str (mapped_title record) "Untitled Scholarship" = true ->
        exists s, r = Some s /\ sch_id s = "fallback-1"
                  /\ sch_title s = JStr "National Merit STEM Scholarship")
    /\ (forall record rest, find_scholarship_reply w id = Ok (record :: rest) ->
        strict_eq_str (mapped_title record) "Untitled Scholarship" = false ->
        maps_to (outside w) record (default (mapped (outside w) "" record) r)
        /\ is_Some r).
Proof.
  intros Hua Hfb.
  destruct (getScholarshipById (JStr id) w) as [r0 w'] eqn:E.
  pose proof (getScholarshipById_frame (JStr id) w r0 w' E) as Hframe.
  revert E. unfold getScholarshipById, find_scholarship_reply. rewrite Hfb. run.
  rewrite Hua. cbn iota. run.
  destruct (airtableAt (outside w) (ticks w) _) as [[|record rest]|e] eqn:Hr.
  - intros [= <- <-]. eexists _, _. split; [reflexivity|]. split; [exact Hframe|].
    repeat split; try done; intros; discriminate.
  - rewrite mapToScholarship_eq. cbn [sch_title mapped outside tick].
    destruct (strict_eq_str (mapped_title record) "Untitled Scholarship") eqn:Ht.
    + unfold getFallbackScholarships. run. intros [= <- <-].
      eexists _, _. split; [reflexivity|]. split; [exact Hframe|].
      split; [intros [? ?]; discriminate|]. split; [discriminate|]. split.
      * intros ? ? _ _. eexists. by repeat split.
      * intros ? ? [= <- _] ?. congruence.
    + intros [= <- <-]. eexists _, _. split; [reflexivity|]. split; [exact Hframe|].
      split; [intros [? ?]; discriminate|]. split; [discriminate|]. split.
      * intros ? ? [= <- _] ?. congruence.
      * intros ? ? [= <- _] _. split; [by eexists|by eexists].
  - unfold getFallbackScholarships. run. rewrite find_by_id_not_fallback by done.
    intros [= <- <-]. eexists _, _. split; [reflexivity|]. split; [exact Hframe|].
    repeat split; try done; intros; discriminate.
Qed.

Lemma getScholarshipById_backend_witness :
  exists s w',
    getScholarshipById (JStr "recB7") (demo_world true untitled_first_backend)
    = (Ok (Some s), w')
    /\ sch_id s = "fallback-1".
Proof.
  destruct (getScholarshipById_backend (demo_world true untitled_first_backend) "recB7"
              eq_refl eq_refl) as (r & w' & E & _ & _ & _ & H & _).
  destruct (H untitled_row [] eq_refl eq_refl) as (s & -> & Hid & _).
  by exists s, w'.
Defined.

(** ** Clearing the scholarships table *)

Lemma slice_take {A} i n (l : list A) : slice i (i + n) l = take n (drop i l).
Proof. unfold slice. by replace (i + n - i)%nat with n by lia. Qed.

Lemma batches_from_concat fuel : forall i recordIds,
  (length recordIds - i <= fuel)%nat ->
  concat (batches_from 10 fuel i recordIds) = drop i recordIds.
Proof.
  induction fuel as [|fuel IH]; intros i ids Hfuel; cbn [batches_from].
  - cbn. symmetry. apply drop_ge. lia.
  - destruct (Nat.ltb_spec i (length ids)) as [Hlt|Hge].
    + cbn [concat]. rewrite IH by lia. rewrite slice_take.
      rewrite <- drop_drop. apply take_drop.
    + cbn. symmetry. apply drop_ge. lia.
Qed.

Lemma batches_from_sizes fuel : forall i recordIds,
  Forall (fun b => (1 <= length b <= 10)%nat) (batches_from 10 fuel i recordIds).
Proof.
  induction fuel as [|fuel IH]; intros i ids; cbn [batches_from]; [constructor|].
  destruct (Nat.ltb_spec i (length ids)) as [Hlt|Hge]; [|constructor].
  constructor; [|apply IH]. rewrite slice_take, length_take, length_drop. lia.
Qed.

Lemma batches_from_count fuel : forall i recordIds,
  (length recordIds - i <= fuel)%nat ->
  (length (batches_from 10 fuel i recordIds) = (length recordIds - i + 9) / 10)%nat.
Proof.
  induction fuel as [|fuel IH]; intros i ids Hfuel; cbn [batches_from].
  - replace (length ids - i)%nat with 0%nat by lia. reflexivity.
  - destruct (Nat.ltb_spec i (length ids)) as [Hlt|Hge].
    + cbn [length]. rewrite IH by lia.
      destruct (Nat.le_gt_cases 10 (length ids - i)) as [Hbig|Hsmall].
      * replace (length ids - i + 9)%nat
          with (1 * 10 + (length ids - (i + 10) + 9))%nat by lia.
        rewrite Nat.div_add_l by lia. lia.
      * replace (length ids - (i + 10))%nat with 0%nat by lia.
        change ((0 + 9) / 10)%nat with 0%nat.
        apply (Nat.div_unique _ _ 1 (length ids - i - 1)); lia.
    + replace (length ids - i)%nat with 0%nat by lia. reflexivity.
Qed.

Lemma destroy_loop_batches destroyAt fuel : forall i recordIds w,
  destroy_loop destroyAt 10 fuel i recordIds w
  = in_sequence (for_each (destroy destroyAt) (batches_from 10 fuel i recordIds) w).
Proof.
  induction fuel as [|fuel IH]; intros i ids w; cbn [destroy_loop batches_from];
    [reflexivity|].
  destruct (Nat.ltb i (length ids)); [|reflexivity].
  cbn [for_each]. unfold bind at 1 2.
  destruct (destroy destroyAt _ w) as [[[]|e] w1]; [|reflexivity].
  rewrite IH. unfold bind.
  by destruct (for_each _ _ w1) as [[?|?] ?].
Qed.

(** X19. With a backend configured, clearing the scholarships destroys the
    IDs of the records the backend listed, each exactly once and in the
    listed order, in consecutive batches of at most ten (so [(n + 9) / 10]
    batches for [n] records, none of them empty); it stops at the first
    batch whose destroy call throws and rethrows that error. *)
Theorem clearAllScholarships_batches (destroyAt : nat -> list string -> Exc unit)
    (w : World) (records : list AirRecord) :
  useAirtable w = true ->
  scholarships_reply w = Ok records ->
  clearAllScholarships destroyAt w
  = in_sequence (for_each (destroy destroyAt) (batches (map rec_id records)) (tick w))
  /\ concat (batches (map rec_id records)) = map rec_id records
  /\ Forall (fun b => (1 <= length b <= 10)%nat) (batches (map rec_id records))
  /\ (length (batches (map rec_id records)) = (length records + 9) / 10)%nat.
Proof.
  intros Hua Hrep. unfold batches. split; [|split; [|split]].
  - unfold clearAllScholarships. run. rewrite Hua. cbn iota. run.
    unfold scholarships_reply in Hrep. rewrite Hrep.
    destruct records as [|r records]; [reflexivity|].
    rewrite destroy_loop_batches.
    by destruct (for_each _ _ (tick w)) as [[?|?] ?].
  - rewrite batches_from_concat by lia. apply drop_0.
  - apply batches_from_sizes.
  - rewrite batches_from_count by lia. by rewrite Nat.sub_0_r, length_map.
Qed.

Lemma clearAllScholarships_batches_witness :
  fst (clearAllScholarships picky_destroy (demo_world true many_rows_backend))
  = Throw (BackendError "INVALID_RECORDS")
  /\ map length (batches (map rec_id many_rows)) = [10; 10; 3]%nat
  /\ concat (batches (map rec_id many_rows)) = map rec_id many_rows.
Proof.
  destruct (clearAllScholarships_batches picky_destroy (demo_world true many_rows_backend)
              many_rows eq_refl eq_refl) as (E & Hc & _ & _).
  split; [rewrite E; vm_compute; reflexivity|]. split; [vm_compute; reflexivity|exact Hc].
Defined.

(** X20. Clearing the scholarships does nothing without a backend, and
    nothing more than the listing call when the backend lists no record;
    when the listing call throws, the error is rethrown.  No store of the
    process changes in any case. *)
Theorem clearAllScholarships_edges (destroyAt : nat -> list string -> Exc unit) (w : World) :
  (useAirtable w = false -> clearAllScholarships destroyAt w = (Ok tt, w))
  /\ (useAirtable w = true -> scholarships_reply w = Ok [] ->
      clearAllScholarships destroyAt w = (Ok tt, tick w))
  /\ (useAirtable w = true -> forall e, scholarships_reply w = Throw e ->
      clearAllScholarships destroyAt w = (Throw e, tick w))
  /\ (forall r w', clearAllScholarships destroyAt w = (r, w') -> same_stores w w').
Proof.
  unfold scholarships_reply. split; [|split; [|split]].
  - intros Hua. unfold clearAllScholarships. run. by rewrite Hua.
  - intros Hua Hr. unfold clearAllScholarships. run. rewrite Hua. cbn iota. run.
    by rewrite Hr.
  - intros Hua e Hr. unfold clearAllScholarships. run. rewrite Hua. cbn iota. run.
    by rewrite Hr.
  - assert (Hd : forall b, preserves same_stores (destroy destroyAt b)).
    { intros b v r v' [= _ <-]. by repeat split. }
    assert (Hl : forall fuel i ids,
               preserves same_stores (destroy_loop destroyAt 10 fuel i ids)).
    { induction fuel as [|fuel IH]; intros i ids; cbn [destroy_loop].
      - apply (preserves_ret _ same_stores_refl).
      - destruct (Nat.ltb i (length ids)); [|apply (preserves_ret _ same_stores_refl)].
        apply (preserves_bind _ same_stores_trans); [apply Hd|intros _; apply IH]. }
    unfold clearAllScholarships.
    repeat first
      [ apply Hl
      | frame_step same_stores_refl same_stores_trans same_stores_tick ].
Qed.

Lemma clearAllScholarships_edges_witness :
  clearAllScholarships picky_destroy (demo_world false offline_backend)
  = (Ok tt, demo_world false offline_backend)
  /\ clearAllScholarships picky_destroy (demo_world true offline_backend)
     = (Throw (BackendError "connect ECONNREFUSED"), tick (demo_world true offline_backend)).
Proof.
  destruct (clearAllScholarships_edges picky_destroy (demo_world false offline_backend))
    as (H1 & _).
  destruct (clearAllScholarships_edges picky_destroy (demo_world true offline_backend))
    as (_ & _ & H3 & _).
  split; [by apply H1|by apply H3].
Defined.

(** ** Searching *)

Lemma search_formula_type filters :
  search_formula (search_conditions filters) = type_formula (sf_type filters).
Proof.
  unfold search_conditions. by destruct (sf_type filters) as [[|c t]|].
Qed.

(** X21. A search never throws and touches no store.  It depends on the
    filters through the type alone (a missing or empty type asks the backend
    for every record); the minimum amount, tags, field of study and
    education level are ignored.  Without a backend the result is empty and
    not the Fallback Catalog; with one it is every returned record mapped in
    order, without any substitution of the catalog, and empty when the
    backend throws. *)
Theorem searchScholarships_by_type_only (w : World) (filters : SearchFilters) :
  exists l w',
    searchScholarships filters w = (Ok l, w')
    /\ same_stores w w'
    /\ (forall filters', sf_type filters' = sf_type filters ->
        searchScholarships filters' w = (Ok l, w'))
    /\ (useAirtable w = false -> l = [] /\ w' = w)
    /\ (useAirtable w = true -> forall records,
        search_reply w (sf_type filters) = Ok records ->
        Forall2 (maps_to (outside w)) records l)
    /\ (useAirtable w = true -> (exists e, search_reply w (sf_type filters) = Throw e) ->
        l = []).
Proof.
  assert (Hsame : forall filters', sf_type filters' = sf_type filters ->
                  searchScholarships filters' w = searchScholarships filters w).
  { intros f' Hty. unfold searchScholarships. by rewrite !search_formula_type, Hty. }
  destruct (searchScholarships filters w) as [r0 w'] eqn:E.
  assert (Hframe : same_stores w w').
  { revert E. generalize w r0 w'. change (preserves same_stores (searchScholarships filters)).
    unfold searchScholarships.
    repeat first
      [ apply mapToScholarship_frame
      | frame_step same_stores_refl same_stores_trans same_stores_tick ]. }
  revert E. unfold searchScholarships at 1. unfold search_reply.
  rewrite search_formula_type. run.
  destruct (useAirtable w) eqn:Hua; cbn iota; run.
  - destruct (airtableAt (outside w) (ticks w) _) as [records|e] eqn:Hr.
    + destruct (for_each_mapToScholarship_mapped records (tick w))
        as (l & w1 & El & _ & HF).
      rewrite El. intros [= <- <-]. exists l, w1. split; [reflexivity|].
      split; [exact Hframe|]. split; [exact Hsame|].
      split; [done|]. split.
      * by intros _ ? [= <-].
      * intros _ [? ?]. discriminate.
    + intros [= <- <-]. eexists _, _. split; [reflexivity|]. split; [exact Hframe|].
      split; [exact Hsame|].
      split; [done|]. split; [intros _ ? ?; discriminate|done].
  - intros [= <- <-]. exists [], w. split; [reflexivity|]. split; [exact Hframe|].
    split; [exact Hsame|]. repeat split; done.
Qed.

(** ** Resumes *)

Lemma find_none_iff {A} (f : A -> bool) l :
  List.find f l = None <-> Forall (fun x => f x = false) l.
Proof.
  induction l as [|x l IH]; cbn [List.find].
  - split; [constructor|done].
  - destruct (f x) eqn:Hx.
    + split; [done|]. intros H. apply Forall_cons in H as [H _]. congruence.
    + rewrite IH. split; [by constructor|]. intros H. by apply Forall_cons in H as [_ H].
Qed.

Lemma has_resume_notes o now record :
  has_resume record = true ->
  exists c, sch_notes (mapped o now record) = JStr c /\ c <> "".
Proof.
  unfold has_resume. cbn [sch_notes mapped].
  destruct (jor (field record "Notes") (field record "notes")) as [| | | |c| |]; try done.
  intros H. exists c. split; [done|]. intros ->. discriminate.
Qed.

(** X22. Looking a resume up never throws and touches no store.  Without a
    backend, or when the backend throws, nothing is found.  Otherwise the
    result is the first returned record whose notes are a non-empty text,
    mapped, and nothing when there is no such record.  So the notes of a
    found resume are always a non-empty text, and [GET /api/resume] answers
    200 with them as the content exactly when the store finds a resume, and
    404 otherwise. *)
Theorem getResumeByProfileId_first_with_notes (w : World) (profileId : string) :
  exists r w',
    getResumeByProfileId profileId w = (Ok r, w')
    /\ same_stores w w'
    /\ (forall s, r = Some s -> exists c, sch_notes s = JStr c /\ c <> "")
    /\ (useAirtable w = false -> r = None /\ w' = w)
    /\ (useAirtable w = true -> forall records, resume_reply w profileId = Ok records ->
        (r = None <-> Forall (fun x => has_resume x = false) records)
        /\ (forall skipped record rest,
            records = skipped ++ record :: rest ->
            Forall (fun x => has_resume x = false) skipped ->
            has_resume record = true ->
            exists s, r = Some s /\ maps_to (outside w) record s))
    /\ (useAirtable w = true -> (exists e, resume_reply w profileId = Throw e) -> r = None)
    /\ get_resume profileId w
       = (Ok match r with
             | Some s => Json 200 (resume_payload s)
             | None => Failure 404 "Resume not found. Please generate a resume first."
             end, w').
Proof.
  destruct (getResumeByProfileId profileId w) as [r0 w'] eqn:E.
  assert (Hframe : same_stores w w').
  { revert E. generalize w r0 w'.
    change (preserves same_stores (getResumeByProfileId profileId)).
    unfold getResumeByProfileId.
    repeat first
      [ apply mapToScholarship_frame
      | frame_step same_stores_refl same_stores_trans same_stores_tick ]. }
  assert (Hhandler : forall r,
             r0 = Ok r ->
             (forall s, r = Some s -> exists c, sch_notes s = JStr c /\ c <> "") ->
             get_resume profileId w
             = (Ok match r with
                   | Some s => Json 200 (resume_payload s)
                   | None => Failure 404 "Resume not found. Please generate a resume first."
                   end, w')).
  { intros r -> Hn. unfold get_resume. run. rewrite E. destruct r as [s|]; [|reflexivity].
    destruct (Hn s eq_refl) as (c & Hc & Hne). rewrite Hc, truthy_JStr by done.
    unfold resume_payload. by rewrite Hc. }
  revert E. unfold getResumeByProfileId, resume_reply. run.
  destruct (useAirtable w) eqn:Hua; cbn iota; run.
  - destruct (airtableAt (outside w) (ticks w) _) as [records|e] eqn:Hr.
    + destruct (List.find has_resume records) as [record|] eqn:Hfind.
      * rewrite mapToScholarship_eq. intros E.
        destruct (find_some _ _ Hfind) as [_ Hhas].
        assert (Hnotes : forall s,
                   Some (mapped (outside (tick w)) (clockAt (outside (tick w)) (ticks (tick w)))
                           record) = Some s ->
                   exists c, sch_notes s = JStr c /\ c <> "").
        { intros s [= <-]. by apply has_resume_notes. }
        injection E as <- <-. eexists _, _. split; [reflexivity|].
        split; [exact Hframe|]. split; [exact Hnotes|]. split; [done|]. split; [|split].
        -- intros _ ? [= <-]. split.
           ++ split; [done|]. intros HF. apply find_none_iff in HF. congruence.
           ++ intros skipped record' rest -> Hsk Hhas'.
              assert (List.find has_resume (skipped ++ record' :: rest) = Some record')
                as Hf'.
              { clear -Hsk Hhas'. induction Hsk as [|x l Hx _ IH]; cbn [app List.find].
                - by rewrite Hhas'.
                - by rewrite Hx. }
              rewrite Hf' in Hfind. injection Hfind as ->.
              eexists. split; [reflexivity|]. by eexists.
        -- intros _ [? ?]. discriminate.
        -- exact (Hhandler _ eq_refl Hnotes).
      * intros [= <- <-]. exists None, (tick w). split; [reflexivity|].
        split; [exact Hframe|]. split; [done|]. split; [done|]. split; [|split].
        -- intros _ ? [= <-]. split.
           ++ split; [intros _; by apply find_none_iff|done].
           ++ intros skipped record' rest -> Hsk Hhas'.
              apply find_none_iff in Hfind. apply Forall_app in Hfind as [_ Hfind].
              apply Forall_cons in Hfind as [Hfind _]. congruence.
        -- done.
        -- apply (Hhandler None eq_refl). intros ? ?; discriminate.
    + intros [= <- <-]. exists None, (tick w). split; [reflexivity|].
      split; [exact Hframe|]. split; [done|]. split; [done|]. split; [|split].
      * intros _ ? ?. discriminate.
      * done.
      * apply (Hhandler None eq_refl). intros ? ?; discriminate.
  - intros [= <- <-]. exists None, w. split; [reflexivity|].
    split; [exact Hframe|]. split; [done|]. split; [done|]. split; [done|]. split; [done|].
    apply (Hhandler None eq_refl). intros ? ?; discriminate.
Qed.

Lemma getResumeByProfileId_first_with_notes_witness :
  exists s w',
    getResumeByProfileId "p-1" (demo_world true resumes_backend) = (Ok (Some s), w')
    /\ maps_to (demo_outside resumes_backend) (resume_row "recR2" "Ada Lovelace, analyst") s.
Proof.
  destruct (getResumeByProfileId_first_with_notes (demo_world true resumes_backend) "p-1")
    as (r & w' & E & _ & _ & _ & H & _).
  destruct (H eq_refl _ eq_refl) as [_ H2].
  destruct (H2 [resume_row "recR1" ""] (resume_row "recR2" "Ada Lovelace, analyst")
              [resume_row "recR3" "older text"] eq_refl) as (s & -> & Hs).
  - by repeat constructor.
  - reflexivity.
  - by exists s, w'.
Defined.

(** ** Guidance and consultation bookings *)

Lemma mapToApplicationGuidance_echo rid id guidance now :
  mapToApplicationGuidance
    {| rec_id := rid; rec_fields := create_guidance_fields id guidance now |}
  = local_guidance rid guidance now.
Proof.
  unfold mapToApplicationGuidance, local_guidance, field, create_guidance_fields.
  cbn [rec_id rec_fields].
  repeat (rewrite lookup_insert_eq || (rewrite lookup_insert_ne by discriminate)
          || rewrite lookup_empty).
  reflexivity.
Qed.

Lemma getApplicationGuidance_uninitialized profileId scholarshipId w :
  useAirtable w = false ->
  getApplicationGuidance profileId scholarshipId w = (Ok None, w).
Proof. intros Hua. unfold getApplicationGuidance. run. by rewrite Hua. Qed.

(** X23. Creating guidance without a backend returns the submitted fields
    under a fresh ID and stores them nowhere: reading the guidance of the
    same profile and scholarship back finds nothing.  With a backend that
    echoes the written fields, the result is the submitted fields again, with
    missing optional fields still missing, under the ID the backend gave the
    record; a create call that throws is rethrown, and one that returns no
    record throws a type error. *)
Theorem createApplicationGuidance_outcomes (w : World)
    (guidance : InsertApplicationGuidance) :
  let id := uuidAt (outside w) (ticks w) in
  let now := clockAt (outside w) (S (ticks w)) in
  (useAirtable w = false ->
   createApplicationGuidance guidance w = (Ok (local_guidance id guidance now), tick (tick w))
   /\ getApplicationGuidance (ig_profileId guidance) (ig_scholarshipId guidance)
        (tick (tick w))
      = (Ok None, tick (tick w)))
  /\ (useAirtable w = true -> forall rid rest,
      create_guidance_reply w guidance
      = Ok ({| rec_id := rid; rec_fields := create_guidance_fields id guidance now |} :: rest) ->
      createApplicationGuidance guidance w
      = (Ok (local_guidance rid guidance now), tick (tick (tick w))))
  /\ (useAirtable w = true -> forall e,
      create_guidance_reply w guidance = Throw e ->
      createApplicationGuidance guidance w = (Throw e, tick (tick (tick w))))
  /\ (useAirtable w = true ->
      create_guidance_reply w guidance = Ok [] ->
      createApplicationGuidance guidance w = (Throw TypeError, tick (tick (tick w)))).
Proof.
  cbn zeta. unfold create_guidance_reply. split; [|split; [|split]].
  - intros Hua. split.
    + unfold createApplicationGuidance. run. by rewrite Hua.
    + by apply getApplicationGuidance_uninitialized.
  - intros Hua rid rest Hr. unfold createApplicationGuidance. run. rewrite Hua. cbn iota.
    run. rewrite Hr. by rewrite mapToApplicationGuidance_echo.
  - intros Hua e Hr. unfold createApplicationGuidance. run. rewrite Hua. cbn iota.
    run. by rewrite Hr.
  - intros Hua Hr. unfold createApplicationGuidance. run. rewrite Hua. cbn iota.
    run. by rewrite Hr.
Qed.

Lemma createApplicationGuidance_outcomes_witness :
  createApplicationGuidance essay_guidance (demo_world true echo_backend)
  = (Ok (local_guidance "recS1" essay_guidance "2025-01-15T10:00:11.000Z"),
     tick (tick (tick (demo_world true echo_backend))))
  /\ createApplicationGuidance essay_guidance (demo_world true offline_backend)
     = (Throw (BackendError "connect ECONNREFUSED"),
        tick (tick (tick (demo_world true offline_backend)))).
Proof.
  destruct (createApplicationGuidance_outcomes (demo_world true echo_backend) essay_guidance)
    as (_ & H2 & _).
  destruct (createApplicationGuidance_outcomes (demo_world true offline_backend)
              essay_guidance) as (_ & _ & H3 & _).
  split; [exact (H2 eq_refl "recS1" [] eq_refl)|exact (H3 eq_refl _ eq_refl)].
Defined.

Lemma mapToApplicationGuidance_booking rid profileId counselorName amount now :
  profileId <> "" ->
  let g := mapToApplicationGuidance
             {| rec_id := rid;
                rec_fields := booking_fields profileId counselorName amount now |} in
  g_id g = rid
  /\ g_profileId g = JStr profileId
  /\ g_scholarshipId g = JStr ("consultation-" +:+ counselorName)
  /\ g_essayTips g = JStr ("Consultation Booking: " +:+ counselorName)
  /\ g_checklist g = JStr ("Amount Paid: ₹" +:+ amount_text amount).
Proof.
  intros Hp. cbn zeta.
  unfold mapToApplicationGuidance, field, booking_fields.
  cbn [rec_id rec_fields g_id g_profileId g_scholarshipId g_essayTips g_checklist].
  repeat (rewrite lookup_insert_eq || (rewrite lookup_insert_ne by discriminate)
          || rewrite lookup_empty).
  cbn [default]. rewrite (jor_JStr profileId) by done.
  repeat split; reflexivity.
Qed.

Lemma saveConsultationBooking_frame profileId counselorName amount :
  preserves same_stores (saveConsultationBooking profileId counselorName amount).
Proof. unfold saveConsultationBooking. frame_stores. Qed.

(** X24. [POST /api/consultation-booking] never throws and touches no
    store.  It answers 400, without calling the store, exactly when the
    profile ID or the counselor name is missing or empty or the amount is
    falsy (missing, zero, empty).  Otherwise, without a backend it answers
    200 with a booking filed under the scholarship ID [consultation-]
    followed by the counselor name and the essay tips [Consultation with
    <name>]; with a backend that echoes the written fields the scholarship ID
    is the same but the essay tips read [Consultation Booking: <name>] and
    the checklist reads [Amount Paid: ₹] followed by the amount as the
    template renders it; a create call that throws or returns no record is
    answered 500. *)
Theorem post_consultation_booking_outcomes (w : World)
    (profileId counselorName : option string) (amount : Amount) :
  let refused :=
    (missing profileId || missing counselorName || negb (amount_truthy amount))%bool in
  let pid := default "" profileId in
  let name := default "" counselorName in
  exists a w',
    post_consultation_booking profileId counselorName amount w = (Ok a, w')
    /\ same_stores w w'
    /\ (refused = true <->
        a = Failure 400 "Profile ID, counselor name, and amount are required")
    /\ (refused = true -> w' = w)
    /\ (refused = false -> useAirtable w = false ->
        exists b, a = Json 200 b
          /\ g_profileId b = JStr pid
          /\ g_scholarshipId b = JStr ("consultation-" +:+ name)
          /\ g_essayTips b = JStr ("Consultation with " +:+ name)
          /\ g_checklist b = JUndefined)
    /\ (refused = false -> useAirtable w = true -> forall rid rest,
        booking_reply w pid name amount
        = Ok ({| rec_id := rid;
                 rec_fields := booking_fields pid name amount
                                 (clockAt (outside w) (S (ticks w))) |} :: rest) ->
        exists b, a = Json 200 b
          /\ g_id b = rid
          /\ g_profileId b = JStr pid
          /\ g_scholarshipId b = JStr ("consultation-" +:+ name)
          /\ g_essayTips b = JStr ("Consultation Booking: " +:+ name)
          /\ g_checklist b = JStr ("Amount Paid: ₹" +:+ amount_text amount))
    /\ (refused = false -> useAirtable w = true ->
        booking_reply w pid name amount = Ok []
        \/ (exists e, booking_reply w pid name amount = Throw e) ->
        a = Failure 500 "Failed to save consultation booking").
Proof.
  cbn zeta.
  destruct (post_consultation_booking profileId counselorName amount w) as [r0 w'] eqn:E.
  assert (Hframe : same_stores w w').
  { revert E. generalize w r0 w'.
    change (preserves same_stores
              (post_consultation_booking profileId counselorName amount)).
    unfold post_consultation_booking.
    repeat first
      [ apply saveConsultationBooking_frame
      | frame_step same_stores_refl same_stores_trans same_stores_tick ]. }
  revert E. unfold post_consultation_booking, booking_reply.
  destruct (missing profileId || missing counselorName || negb (amount_truthy amount))%bool
    eqn:Hmiss.
  - run. intros [= <- <-]. eexists _, _. split; [reflexivity|]. split; [exact Hframe|].
    repeat split; try done.
  - assert (Hpid : default "" profileId <> "").
    { destruct profileId as [p|]; [|done]. cbn in Hmiss |- *.
      by destruct (String.eqb_spec p ""). }
    unfold saveConsultationBooking. run.
    destruct (useAirtable w) eqn:Hua; cbn iota; run.
    + destruct (airtableAt (outside w) (S (S (ticks w))) _) as [[|record rest]|e] eqn:Hr.
      * intros [= <- <-]. eexists _, _. split; [reflexivity|]. split; [exact Hframe|].
        repeat split; try done; intros; discriminate.
      * intros [= <- <-]. eexists _, _. split; [reflexivity|]. split; [exact Hframe|].
        split; [split; discriminate|]. split; [done|]. split; [done|]. split.
        -- intros _ _ rid rest' [= -> _]. eexists. split; [reflexivity|].
           by apply (mapToApplicationGuidance_booking rid).
        -- intros _ _ [?|[? ?]]; discriminate.
      * intros [= <- <-]. eexists _, _. split; [reflexivity|]. split; [exact Hframe|].
        repeat split; try done; intros; discriminate.
    + intros [= <- <-]. eexists _, _. split; [reflexivity|]. split; [exact Hframe|].
      split; [split; discriminate|]. split; [done|]. split.
      * intros _ _. eexists. by repeat split.
      * split; intros; discriminate.
Qed.

Lemma post_consultation_booking_outcomes_witness :
  exists b w',
    post_consultation_booking (Some "recP1") (Some "Dr. Rao") five_hundred
      (demo_world true echo_backend)
    = (Ok (Json 200 b), w')
    /\ g_scholarshipId b = JStr "consultation-Dr. Rao"
    /\ g_checklist b = JStr "Amount Paid: ₹500".
Proof.
  pose proof (post_consultation_booking_outcomes (demo_world true echo_backend)
                (Some "recP1") (Some "Dr. Rao") five_hundred) as H.
  cbn zeta in H. destruct H as (a & w' & E & _ & _ & _ & _ & Hecho & _).
  destruct (Hecho eq_refl eq_refl "recS1" [] eq_refl) as (b & -> & _ & _ & Hs & _ & Hc).
  exists b, w'. split; [exact E|]. split; [exact Hs|exact Hc].
Defined.

(** ** Users *)

Lemma getUser_uninitialized id w :
  useAirtable w = false -> getUser id w = (Ok None, w).
Proof. intros Hua. unfold getUser. run. by rewrite Hua. Qed.

Lemma getUserByUsername_uninitialized username w :
  useAirtable w = false -> getUserByUsername username w = (Ok None, w).
Proof. intros Hua. unfold getUserByUsername. run. by rewrite Hua. Qed.

(** X25. The password of a new user reaches no store.  Without a backend
    [createUser] hands the submitted username and password back under a
    fresh ID and keeps nothing: looking the user up by that ID or by the
    username finds nothing.  With a backend the outcome does not depend on
    the submitted password, and the user returned carries the empty
    password; so does every user found by username, and that lookup never
    throws. *)
Theorem createUser_drops_password (w : World) (user : InsertUser) :
  (useAirtable w = false ->
   createUser user w
   = (Ok {| u_id := uuidAt (outside w) (ticks w);
            u_username := JStr (iu_username user);
            u_password := JStr (iu_password user) |}, tick w)
   /\ getUser (uuidAt (outside w) (ticks w)) (tick w) = (Ok None, tick w)
   /\ getUserByUsername (iu_username user) (tick w) = (Ok None, tick w))
  /\ (useAirtable w = true ->
      (forall user', iu_username user' = iu_username user ->
       createUser user' w = createUser user w)
      /\ (forall u w', createUser user w = (Ok u, w') ->
          u_password u = JStr ""
          /\ exists record rest,
               create_user_reply w (iu_username user) = Ok (record :: rest)
               /\ u_id u = rec_id record)
      /\ (create_user_reply w (iu_username user) = Ok [] ->
          createUser user w = (Throw TypeError, tick (tick w))))
  /\ (exists r w', getUserByUsername (iu_username user) w = (Ok r, w')
      /\ same_stores w w'
      /\ forall u, r = Some u -> u_password u = JStr "").
Proof.
  split; [|split].
  - intros Hua. split; [|split].
    + unfold createUser. run. by rewrite Hua.
    + by apply getUser_uninitialized.
    + by apply getUserByUsername_uninitialized.
  - intros Hua. unfold create_user_reply. split; [|split].
    + intros user' Hname. unfold createUser. run. by rewrite Hua, Hname.
    + intros u w'. unfold createUser. run. rewrite Hua. cbn iota. run.
      destruct (airtableAt (outside w) (S (ticks w)) _) as [[|record rest]|e];
        intros [= <- <-].
      split; [reflexivity|]. by exists record, rest.
    + intros Hr. unfold createUser. run. rewrite Hua. cbn iota. run. by rewrite Hr.
  - destruct (getUserByUsername (iu_username user) w) as [r0 w'] eqn:E.
    assert (Hframe : same_stores w w').
    { revert E. generalize w r0 w'.
      change (preserves same_stores (getUserByUsername (iu_username user))).
      unfold getUserByUsername. frame_stores. }
    revert E. unfold getUserByUsername. run.
    destruct (useAirtable w); cbn iota; run.
    + destruct (airtableAt (outside w) (ticks w) _) as [[|record rest]|e];
        intros [= <- <-]; eexists _, _; (split; [reflexivity|]);
        (split; [exact Hframe|]); intros u [= <-]; reflexivity.
    + intros [= <- <-]. eexists _, _. split; [reflexivity|]. split; [exact Hframe|].
      intros u [=].
Qed.

Lemma createUser_drops_password_witness :
  exists u w',
    createUser ada_user (demo_world true echo_backend) = (Ok u, w')
    /\ u_password u = JStr ""
    /\ u_username u = JStr "ada@example.org".
Proof.
  destruct (createUser_drops_password (demo_world true echo_backend) ada_user)
    as (_ & H & _).
  destruct (H eq_refl) as (_ & H2 & _).
  eexists _, _. split; [reflexivity|].
  split; [exact (proj1 (H2 _ _ eq_refl))|reflexivity].
Defined.

(** ** Seeding *)





(** ** What the backend keeps of a profile *)

Lemma string_append_nil_r (a : string) : a +:+ "" = a.
Proof.
  induction a as [|x a IH]; [done|].
  change (String x (a +:+ "") = String x a). by rewrite IH.
Qed.

Lemma string_rev_app_twice a : forall b c,
  String.rev_app (String.rev_app a b) c = String.rev_app b (a +:+ c).
Proof.
  induction a as [|x a IH]; intros b c; [done|].
  change (String.rev_app (String.rev_app a (String x b)) c
          = String.rev_app (String x b) (a +:+ c)).
  apply IH.
Qed.

Lemma string_rev_involutive (a : string) : String.rev (String.rev a) = a.
Proof.
  unfold String.rev. rewrite string_rev_app_twice. apply string_append_nil_r.
Qed.

Lemma split_comma_aux_word x : forall cur,
  no_comma x = true ->
  split_comma_aux cur x = [String.rev (String.rev_app x cur)].
Proof.
  induction x as [|c x IH]; intros cur Hx; simpl in *.
  - reflexivity.
  - apply andb_prop in Hx as [Hc Hx]. apply negb_true_iff in Hc. rewrite Hc.
    by rewrite IH.
Qed.

Lemma split_comma_aux_comma x s : forall cur,
  no_comma x = true ->
  split_comma_aux cur (x +:+ String ","%char s)
  = String.rev (String.rev_app x cur) :: split_comma_aux "" s.
Proof.
  induction x as [|c x IH]; intros cur Hx; simpl in *.
  - reflexivity.
  - apply andb_prop in Hx as [Hc Hx]. apply negb_true_iff in Hc. rewrite Hc.
    by rewrite IH.
Qed.

Lemma split_comma_aux_join l : forall x cur,
  Forall (fun s => no_comma s = true) (x :: l) ->
  split_comma_aux cur (join ", " (x :: l))
  = String.rev (String.rev_app x cur) :: map (String " "%char) l.
Proof.
  induction l as [|y l IH]; intros x cur Hall.
  - apply Forall_cons in Hall as [Hx _]. cbn [join map]. by apply split_comma_aux_word.
  - apply Forall_cons in Hall as [Hx Hall].
    change (join ", " (x :: y :: l))
      with (x +:+ String ","%char (String " "%char (join ", " (y :: l)))).
    rewrite split_comma_aux_comma by done. f_equal.
    change (split_comma_aux "" (String " "%char (join ", " (y :: l))))
      with (split_comma_aux " " (join ", " (y :: l))).
    rewrite IH by done. cbn [map]. f_equal.
    unfold String.rev. rewrite string_rev_app_twice.
    change (String " "%char (y +:+ "") = String " "%char y).
    by rewrite string_append_nil_r.
Qed.

Lemma visible_not_space c : visible c = true -> is_space c = false.
Proof.
  unfold visible, is_space. cbn zeta. intros H.
  apply andb_prop in H as [H1 H2].
  apply Nat.leb_le in H1. apply Nat.leb_le in H2.
  apply orb_false_intro.
  - apply Nat.eqb_neq. lia.
  - apply andb_false_intro2. apply Nat.leb_gt. lia.
Qed.

Lemma trim_start_visible s : starts_visible s = true -> trim_start s = s.
Proof.
  destruct s as [|c s]; [done|]. cbn [starts_visible trim_start]. intros H.
  by rewrite (visible_not_space c H).
Qed.

Lemma trim_clean s : clean_skill s -> trim s = s /\ trim (String " "%char s) = s.
Proof.
  intros (H1 & H2 & _). unfold trim.
  change (trim_start (String " "%char s)) with (trim_start s).
  rewrite (trim_start_visible s H1), (trim_start_visible _ H2).
  by rewrite string_rev_involutive.
Qed.

Lemma clean_skill_nonempty s : clean_skill s -> s <> "".
Proof. intros (H & _) ->. discriminate. Qed.

Lemma skills_round_trip l :
  Forall clean_skill l ->
  filter (fun x => x <> "") (map trim (split_comma (join ", " l))) = l.
Proof.
  intros Hall. destruct l as [|x l]; [reflexivity|].
  unfold split_comma. rewrite split_comma_aux_join
    by (eapply Forall_impl; [exact Hall|]; by intros ? (_ & _ & ?)).
  change (String.rev_app x "") with (String.rev x). rewrite string_rev_involutive.
  apply Forall_cons in Hall as [Hx Hall]. cbn [map].
  rewrite (proj1 (trim_clean x Hx)).
  rewrite filter_cons_True by by apply clean_skill_nonempty.
  f_equal. induction Hall as [|y l Hy _ IH]; [reflexivity|].
  cbn [map]. rewrite (proj2 (trim_clean y Hy)).
  rewrite filter_cons_True by by apply clean_skill_nonempty.
  by rewrite IH.
Qed.

Lemma jor_JStr_empty s : jor (JStr s) (JStr "") = JStr s.
Proof. by destruct s. Qed.

Lemma jor_optS_empty o : jor (optS o) (JStr "") = JStr (default "" o).
Proof. by destruct o as [[|? ?]|]. Qed.

Lemma join_nonempty x l : x <> "" -> join ", " (x :: l) <> "".
Proof. destruct x; [done|]. intros _. by destruct l. Qed.

(** X27. What a profile keeps once it is read from the backend instead of
    the cache.  Mapping the record that [createStudentProfile] writes gives
    back the name, email, location and both timestamps; every missing
    optional text among education level, field of study, GPA, graduation
    year, activities and financial need comes back as the empty text; the
    phone, summary, education, experience and projects are never written and
    come back undefined whatever was submitted; skills that are clean (not
    empty, without a comma, starting and ending with a visible ASCII
    character) come back as the same list, and an empty skill list comes
    back undefined.  A lookup that misses the cache and finds this record
    returns that copy and caches it. *)
Theorem mapToStudentProfile_of_created (w : World) (profile : InsertStudentProfile)
    (id now : string) :
  now <> "" ->
  (forall l, isp_skills profile = Some l -> Forall clean_skill l) ->
  let record := {| rec_id := id; rec_fields := create_profile_fields profile now |} in
  mapToStudentProfile record w = (Ok (backend_copy id profile now), w)
  /\ (useAirtable w = true ->
      profileStorage w !! id = None ->
      forall rest,
      airtableAt (outside w) (ticks w) (BFind tables.studentProfiles id)
      = Ok (record :: rest) ->
      getStudentProfileById id w
      = (Ok (Some (backend_copy id profile now)),
         set_profileStorage (insert id (backend_copy id profile now)) (tick w))).
Proof.
  intros Hnow Hclean. cbn zeta.
  assert (Hmap : forall v,
             mapToStudentProfile
               {| rec_id := id; rec_fields := create_profile_fields profile now |} v
             = (Ok (backend_copy id profile now), v)).
  { intros v. unfold mapToStudentProfile, field, create_profile_fields.
    cbn [rec_id rec_fields].
    repeat (rewrite lookup_insert_eq || (rewrite lookup_insert_ne by discriminate)
            || rewrite lookup_empty).
    unfold default, from_option, Datatypes.id. unfold or_now.
    rewrite (truthy_JStr now) by done.
    assert (Hskills : parse_skills
                        (JStr match isp_skills profile with
                              | Some l => join ", " l
                              | None => ""
                              end) v
                      = (Ok match isp_skills profile with
                            | Some (x :: l) => strings (x :: l)
                            | _ => JUndefined
                            end, v)).
    { destruct (isp_skills profile) as [[|x l]|] eqn:Hs; [reflexivity| |reflexivity].
      pose proof (Hclean _ eq_refl) as Hall.
      unfold parse_skills. rewrite truthy_JStr.
      - by rewrite skills_round_trip.
      - apply join_nonempty, clean_skill_nonempty. by apply Forall_cons in Hall as [? _]. }
    unfold bind at 1. rewrite Hskills. run. unfold backend_copy.
    rewrite !jor_JStr_empty, !jor_optS_empty. reflexivity. }
  split; [apply Hmap|].
  intros Hua Hmiss rest Hr. unfold getStudentProfileById. run.
  rewrite Hmiss, Hua. cbn iota. run. rewrite Hr.
  rewrite Hmap. reflexivity.
Qed.

Lemma mapToStudentProfile_of_created_witness :
  mapToStudentProfile
    {| rec_id := "recP9";
       rec_fields := create_profile_fields grace "2025-01-15T10:00:10.000Z" |}
    (demo_world true offline_backend)
  = (Ok (backend_copy "recP9" grace "2025-01-15T10:00:10.000Z"),
     demo_world true offline_backend).
Proof.
  apply (mapToStudentProfile_of_created (demo_world true offline_backend) grace "recP9"
           "2025-01-15T10:00:10.000Z").
  - discriminate.
  - intros l [= <-]. repeat constructor.
Defined.

(** ** Errors that the read handlers never report *)

Lemma try_catch_total {A} (m : M A) (h : JsError -> M A) :
  (forall e w, exists r w', h e w = (Ok r, w')) ->
  forall w, exists r w', try_catch m h w = (Ok r, w').
Proof.
  intros Hh w. unfold try_catch. destruct (m w) as [[a|e] w1]; [by eexists _, _|apply Hh].
Qed.

Lemma getStudentProfileById_total id w :
  exists r w', getStudentProfileById id w = (Ok r, w').
Proof.
  unfold getStudentProfileById. unfold bind at 1, gets.
  destruct (profileStorage w !! id); [by eexists _, _|].
  unfold bind at 1. destruct (useAirtable w); cbn [negb]; [|by eexists _, _].
  apply try_catch_total. intros. by eexists _, _.
Qed.

Lemma getScholarshipMatches_total pid w :
  exists r w', getScholarshipMatches pid w = (Ok r, w').
Proof. unfold getScholarshipMatches. apply try_catch_total. intros. by eexists _, _. Qed.

(** X28. The three read handlers [GET /api/profile/:profileId],
    [GET /api/scholarships] and [GET /api/matches/:profileId] never answer
    500: the store absorbs every error of the backend and of the mappers, so
    a profile request is answered 200 or 404 and the two listings are always
    answered 200, with the list the store returned. *)
Theorem read_handlers_absorb_errors (w : World) (profileId : string) :
  (exists a w', get_profile profileId w = (Ok a, w')
     /\ ((exists p, a = Json 200 p /\ getStudentProfileById profileId w = (Ok (Some p), w'))
         \/ (a = Failure 404 "Profile not found"
             /\ getStudentProfileById profileId w = (Ok None, w'))))
  /\ (exists l w', get_scholarships w = (Ok (Json 200 l), w')
        /\ getAllScholarships w = (Ok l, w'))
  /\ (exists l w', get_matches profileId w = (Ok (Json 200 l), w')
        /\ getScholarshipMatches profileId w = (Ok l, w')).
Proof.
  split; [|split].
  - destruct (getStudentProfileById_total profileId w) as (r & w' & E).
    unfold get_profile, try_catch, bind. rewrite E.
    destruct r as [p|]; eexists _, w'; (split; [reflexivity|]); [left|right]; eauto.
  - destruct (getAllScholarships_cases w) as (l & w' & E & _).
    unfold get_scholarships, try_catch, bind. rewrite E. by exists l, w'.
  - destruct (getScholarshipMatches_total profileId w) as (l & w' & E).
    unfold get_matches, try_catch, bind. rewrite E. by exists l, w'.
Qed.

(** ** The keys of a match record *)

Lemma mapToScholarshipMatch_written rid id match_ now :
  mapToScholarshipMatch {| rec_id := rid; rec_fields := create_match_fields id match_ now |}
  = bare_match rid.
Proof.
  unfold mapToScholarshipMatch, bare_match, field, create_match_fields.
  cbn [rec_id rec_fields].
  repeat (rewrite lookup_insert_eq || (rewrite lookup_insert_ne by discriminate)
          || rewrite lookup_empty).
  reflexivity.
Qed.

(** X29. With a backend that stores a match exactly as it is written,
    [createScholarshipMatch] returns a match of which only the record ID is
    defined: the record is written under the keys [ProfileID],
    [ScholarshipID], [MatchScore], [AIReasoning], [Status] and [CreatedAt]
    but read under [profileId], [scholarshipId], [matchScore], [aiReasoning],
    [status] and [createdAt].  The complete match is still appended to the
    matches cached for the profile; and when the create call throws or
    returns no record, it is the complete match that is returned. *)
Theorem createScholarshipMatch_written_keys (w : World) (match_ : InsertScholarshipMatch) :
  useAirtable w = true ->
  let id := uuidAt (outside w) (ticks w) in
  let now := clockAt (outside w) (S (ticks w)) in
  exists returned w',
    createScholarshipMatch match_ w = (Ok returned, w')
    /\ matchStorage w' !! im_profileId match_
       = Some (default [] (matchStorage w !! im_profileId match_)
               ++ [new_match id match_ now])
    /\ (forall rid rest,
        create_match_reply w match_
        = Ok ({| rec_id := rid; rec_fields := create_match_fields id match_ now |} :: rest) ->
        returned = bare_match rid)
    /\ (create_match_reply w match_ = Ok []
        \/ (exists e, create_match_reply w match_ = Throw e) ->
        returned = new_match id match_ now).
Proof.
  intros Hua. cbn zeta. unfold createScholarshipMatch, create_match_reply. run.
  rewrite Hua. cbn iota. run.
  destruct (airtableAt (outside w) (S (S (ticks w))) _) as [[|record rest]|e] eqn:Hr.
  - eexists _, _. split; [reflexivity|]. cbn [matchStorage set_matchStorage tick].
    rewrite lookup_insert_eq.
    split; [reflexivity|]. split; [intros; discriminate|done].
  - eexists _, _. split; [reflexivity|]. cbn [matchStorage set_matchStorage tick].
    rewrite lookup_insert_eq.
    split; [reflexivity|]. split.
    + intros rid rest' [= -> _]. apply mapToScholarshipMatch_written.
    + intros [?|[? ?]]; discriminate.
  - eexists _, _. split; [reflexivity|]. cbn [matchStorage set_matchStorage tick].
    rewrite lookup_insert_eq.
    split; [reflexivity|]. split; [intros; discriminate|done].
Qed.

Lemma createScholarshipMatch_written_keys_witness :
  exists w',
    createScholarshipMatch strong_match (demo_world true echo_backend)
    = (Ok (bare_match "recS1"), w')
    /\ matchStorage w' !! "recP9"
       = Some [new_match "7c9e6679-7425-40de-944b-e07fc1f91000" strong_match
                 "2025-01-15T10:00:11.000Z"].
Proof.
  destruct (createScholarshipMatch_written_keys (demo_world true echo_backend) strong_match
              eq_refl) as (returned & w' & E & Hstore & Hecho & _).
  rewrite (Hecho "recS1" [] eq_refl) in E. exists w'. split; [exact E|exact Hstore].
Defined.
